(** * Issue tracker front end: real-time notification client, listener bus,
      board reducer and notification store.

    Shallow embedding of
    - [frontend/src/services/websocketNotifications.js]
      (class [WebSocketNotificationService]),
    - the [handleKanbanUpdate] reducer of the Dashboard component,
    - [frontend/src/services/notificationService.js]
      (class [NotificationService]).

    JavaScript objects that are mutated in place become explicit state; code
    that can throw runs in a small state-and-exception monad, so that a
    [try]/[catch] block of the source is a [try_catch] of the model and
    keeps the writes made before the throw. *)

From Stdlib Require Import ZArith Lia Ascii String.
From stdpp Require Import base option list gmap strings pretty.

#[local] Set Warnings "-register-all".
Local Open Scope string_scope.
Local Open Scope list_scope.

(** ** JavaScript values *)

Module Js.

(** Values that [JSON.parse] can produce, plus [undefined] (the result of
    reading an absent property, and of a function without [return]).  A
    number is kept as the decimal [mantissa * 10 ^ exponent] of its
    literal; the modelled code never does arithmetic on a parsed number.
    An object is its list of own properties, most recent binding first. *)
Inductive JsVal : Type :=
| JUndefined
| JNull
| JBool (b : bool)
| JNum (mantissa exponent : Z)
| JStr (s : string)
| JArr (items : list JsVal)
| JObj (fields : list (string * JsVal))
| JFun (ref : nat).                      (* a function, by reference *)

Inductive JsError : Type :=
| TypeError (msg : string)
| SyntaxError (msg : string)
| ReferenceError (msg : string)
| Thrown (by_callback : nat).

(** How a piece of code ends: normally with a value, or by throwing. *)
Inductive completion (A : Type) : Type :=
| Normal (a : A)
| Abrupt (e : JsError).
Arguments Normal {A} a.
Arguments Abrupt {A} e.

Fixpoint lookup_field (k : string) (fs : list (string * JsVal)) : JsVal :=
  match fs with
  | [] => JUndefined
  | (k', v) :: fs' => if decide (k' = k) then v else lookup_field k fs'
  end.

(** [v.k] for the data properties the sources read ([type], [data],
    [event_type], [issue], [id], [message]): reading a property of
    [undefined] or [null] throws a [TypeError]; a primitive, an array or a
    function has none of these properties. *)
Definition get_prop (v : JsVal) (k : string) : completion JsVal :=
  match v with
  | JUndefined | JNull => Abrupt (TypeError "Cannot read properties of undefined or null")
  | JObj fs => Normal (lookup_field k fs)
  | _ => Normal JUndefined
  end.

(** [v === 'literal'] *)
Definition strict_eq_str (v : JsVal) (s : string) : bool :=
  match v with
  | JStr t => bool_decide (t = s)
  | _ => false
  end.

(** [typeof v === 'function'] *)
Definition is_function (v : JsVal) : bool :=
  match v with
  | JFun _ => true
  | _ => false
  end.

End Js.
Export Js.

(** ** The host's [JSON.parse]

    A reference parser for the JSON grammar (RFC 8259), used to run the
    service on concrete frames.  The theorems about the service hold for
    any parser: they take it from the [Host] record.  Escapes [\uXXXX]
    are decoded one UTF-16 code unit at a time. *)

Module Json.


Definition is_space (c : ascii) : bool :=
  match c with
  | " " | "009" | "010" | "013" => true
  | _ => false
  end%char.

Fixpoint skip_ws (s : string) : string :=
  match s with
  | String c rest => if is_space c then skip_ws rest else s
  | EmptyString => s
  end.

Definition digit (c : ascii) : option Z :=
  let n := Z.of_nat (nat_of_ascii c) in
  if ((48 <=? n) && (n <=? 57))%Z then Some (n - 48)%Z else None.

Definition hex_digit (c : ascii) : option Z :=
  let n := Z.of_nat (nat_of_ascii c) in
  if ((48 <=? n) && (n <=? 57))%Z then Some (n - 48)%Z
  else if ((65 <=? n) && (n <=? 70))%Z then Some (n - 55)%Z
  else if ((97 <=? n) && (n <=? 102))%Z then Some (n - 87)%Z
  else None.

(** A run of decimal digits: their value, how many there were, the rest. *)
Fixpoint digits (s : string) (acc : Z) (count : Z) : Z * Z * string :=
  match s with
  | String c rest =>
      match digit c with
      | Some d => digits rest (10 * acc + d)%Z (count + 1)%Z
      | None => (acc, count, s)
      end
  | EmptyString => (acc, count, s)
  end.

Definition byte (n : Z) : ascii := ascii_of_nat (Z.to_nat n).

(** UTF-8 bytes of one UTF-16 code unit. *)
Definition utf8 (n : Z) : string :=
  if (n <? 128)%Z then String (byte n) EmptyString
  else if (n <? 2048)%Z then
    String (byte (192 + n / 64)) (String (byte (128 + n mod 64)) EmptyString)
  else
    String (byte (224 + n / 4096))
      (String (byte (128 + (n / 64) mod 64)) (String (byte (128 + n mod 64)) EmptyString)).

(** The characters of a string literal after its opening quote. *)
Fixpoint string_body (s : string) : option (string * string) :=
  match s with
  | EmptyString => None
  | String "034" rest => Some (EmptyString, rest)
  | String "\" (String e rest) =>
      match e with
      | "u" =>
          match rest with
          | String a (String b (String c (String d rest'))) =>
              h1 ← hex_digit a; h2 ← hex_digit b; h3 ← hex_digit c; h4 ← hex_digit d;
              '(str, rest'') ← string_body rest';
              Some (utf8 (4096 * h1 + 256 * h2 + 16 * h3 + h4) +:+ str, rest'')
          | _ => None
          end
      | _ =>
          ch ← match e with
               | "034" => Some "034" | "\" => Some "\" | "/" => Some "/"
               | "b" => Some "008" | "f" => Some "012" | "n" => Some "010"
               | "r" => Some "013" | "t" => Some "009"
               | _ => None
               end;
          '(str, rest') ← string_body rest;
          Some (String ch str, rest')
      end
  | String c rest =>
      if (nat_of_ascii c <? 32)%nat then None
      else '(str, rest') ← string_body rest; Some (String c str, rest')
  end%char.

Definition strip (prefix s : string) : option string :=
  if String.prefix prefix s
  then Some (String.substring (String.length prefix) (String.length s - String.length prefix) s)
  else None.

Definition number (s : string) : option (JsVal * string) :=
  let '(neg, s0) := match s with
                    | String "-" r => (true, r)
                    | _ => (false, s)
                    end%char in
  let '(int, n_int, s1) := digits s0 0 0 in
  if (n_int =? 0)%Z then None
  else if (1 <? n_int)%Z && bool_decide (String.prefix "0" s0 = true) then None
  else
    frac ← match s1 with
           | String "." r =>
               let '(f, n_f, r') := digits r 0 0 in
               if (n_f =? 0)%Z then None else Some (f, n_f, r')
           | _ => Some (0, 0, s1)%Z
           end%char;
    let '(f, n_f, s2) := frac in
    ex ← match s2 with
         | String c r =>
             if bool_decide (c = "e" ∨ c = "E")%char then
               let '(eneg, r0) := match r with
                                  | String "-" r' => (true, r')
                                  | String "+" r' => (false, r')
                                  | _ => (false, r)
                                  end%char in
               let '(e, n_e, r1) := digits r0 0 0 in
               if (n_e =? 0)%Z then None
               else Some (if eneg then (- e)%Z else e, r1)
             else Some (0%Z, s2)
         | EmptyString => Some (0%Z, s2)
         end;
    let '(e, s3) := ex in
    let m := (int * 10 ^ n_f + f)%Z in
    Some (JNum (if neg then (- m)%Z else m) (e - n_f), s3).

Fixpoint value (fuel : nat) (s : string) : option (JsVal * string) :=
  match fuel with
  | O => None
  | S fuel' =>
      let s := skip_ws s in
      match s with
      | String "034" rest =>
          '(str, rest') ← string_body rest; Some (JStr str, skip_ws rest')
      | String "[" rest =>
          match skip_ws rest with
          | String "]" rest' => Some (JArr [], skip_ws rest')
          | _ =>
              (fix elements (n : nat) (acc : list JsVal) (s : string) {struct n} :=
                 match n with
                 | O => None
                 | S n' =>
                     '(v, s1) ← value fuel' s;
                     match s1 with
                     | String "," s2 => elements n' (acc ++ [v]) s2
                     | String "]" s2 => Some (JArr (acc ++ [v]), skip_ws s2)
                     | _ => None
                     end
                 end) (String.length rest) [] rest
          end
      | String "{" rest =>
          match skip_ws rest with
          | String "}" rest' => Some (JObj [], skip_ws rest')
          | _ =>
              (fix members (n : nat) (acc : list (string * JsVal)) (s : string) {struct n} :=
                 match n with
                 | O => None
                 | S n' =>
                     match skip_ws s with
                     | String "034" s0 =>
                         '(key, s1) ← string_body s0;
                         match skip_ws s1 with
                         | String ":" s2 =>
                             '(v, s3) ← value fuel' s2;
                             match s3 with
                             | String "," s4 => members n' ((key, v) :: acc) s4
                             | String "}" s4 => Some (JObj ((key, v) :: acc), skip_ws s4)
                             | _ => None
                             end
                         | _ => None
                         end
                     | _ => None
                     end
                 end) (String.length rest) [] rest
          end
      | _ =>
          match strip "null" s, strip "true" s, strip "false" s with
          | Some rest, _, _ => Some (JNull, skip_ws rest)
          | _, Some rest, _ => Some (JBool true, skip_ws rest)
          | _, _, Some rest => Some (JBool false, skip_ws rest)
          | _, _, _ => '(v, rest) ← number s; Some (v, skip_ws rest)
          end
      end%char
  end.

Definition parse (text : string) : option JsVal :=
  match value (S (String.length text)) text with
  | Some (v, EmptyString) => Some v
  | _ => None
  end.

End Json.

(** ** The WebSocket notification service *)

Module WS.

(** A listener callback is a JavaScript function; the service compares
    callbacks by reference ([indexOf]), so a callback is its reference. *)
Definition callback := nat.

(** [WebSocket.readyState] *)
Inductive ReadyState := CONNECTING | OPEN | CLOSING | CLOSED.

Global Instance ReadyState_eq_dec : EqDecision ReadyState.
Proof. solve_decision. Defined.

(** A [WebSocket] object created by [connect].  Its four handlers are
    closures over the service and over the [token] argument of the call
    that created it; [sock_token] is that captured token. *)
Record Socket := mkSocket {
  sock_url : string;
  sock_token : string;
  readyState : ReadyState
}.

(** What a pending [setTimeout] runs when it fires. *)
Inductive timer_action :=
| RunConnect (token : string)            (* () => this.connect(token) *)
| CloseNotification (shown_index : nat). (* () => notification.close() *)

Record Timeout := mkTimeout {
  timeout_id : nat;
  timeout_delay : Z;                     (* milliseconds *)
  timeout_action : timer_action
}.

(** Observable effects, in program order.  Console output is recorded by
    the constant part of its message. *)
Inductive effect :=
| Called (event : string) (index : nat) (cb : callback) (data : JsVal)
| ConsoleLog (msg : string)
| ConsoleError (msg : string)
| NewWebSocket (sock : nat) (url : string)
| Send (sock : nat) (payload : string)
| Close (sock : nat) (code : Z) (reason : string)
| ShowNotification (title : string) (data : JsVal)
| WindowFocus
| NotificationClosed (shown_index : nat)
| PlaySound.

(** The fields of the service object.  [maxReconnectAttempts] and
    [reconnectDelay] are assigned in the constructor only and are the
    constants below. *)
Record Service := mkService {
  websocket : option nat;                (* reference into [sockets], or null *)
  reconnectAttempts : Z;
  isConnecting : bool;
  listeners : gmap string (list callback);
  heartbeatInterval : option nat         (* interval id, or null/undefined *)
}.

Definition maxReconnectAttempts : Z := 5.
Definition reconnectDelay : Z := 2000.

(** The part of the browser the service talks to. *)
Record Browser := mkBrowser {
  sockets : list Socket;                 (* every WebSocket created so far *)
  timeouts : list Timeout;               (* pending setTimeout callbacks *)
  intervals : list nat;                  (* live setInterval ids *)
  next_timer : nat;                      (* next timer id; ids are positive *)
  shown : list JsVal;                    (* browser notifications, with the
                                            data their onclick closes over *)
  trace : list effect
}.

Record World := mkWorld { svc : Service; browser : Browser }.

(** The state after [new WebSocketNotificationService()] in a fresh page. *)
Definition new_service : Service :=
  {| websocket := None; reconnectAttempts := 0; isConnecting := false;
     listeners := ∅; heartbeatInterval := None |}.

Definition fresh_browser : Browser :=
  {| sockets := []; timeouts := []; intervals := []; next_timer := 1;
     shown := []; trace := [] |}.

Definition initial : World := {| svc := new_service; browser := fresh_browser |}.

(** *** Field updates *)

Definition set_websocket (x : option nat) (s : Service) : Service :=
  {| websocket := x; reconnectAttempts := reconnectAttempts s;
     isConnecting := isConnecting s; listeners := listeners s;
     heartbeatInterval := heartbeatInterval s |}.
Definition set_reconnectAttempts (x : Z) (s : Service) : Service :=
  {| websocket := websocket s; reconnectAttempts := x;
     isConnecting := isConnecting s; listeners := listeners s;
     heartbeatInterval := heartbeatInterval s |}.
Definition set_isConnecting (x : bool) (s : Service) : Service :=
  {| websocket := websocket s; reconnectAttempts := reconnectAttempts s;
     isConnecting := x; listeners := listeners s;
     heartbeatInterval := heartbeatInterval s |}.
Definition set_listeners (x : gmap string (list callback)) (s : Service) : Service :=
  {| websocket := websocket s; reconnectAttempts := reconnectAttempts s;
     isConnecting := isConnecting s; listeners := x;
     heartbeatInterval := heartbeatInterval s |}.
Definition set_heartbeatInterval (x : option nat) (s : Service) : Service :=
  {| websocket := websocket s; reconnectAttempts := reconnectAttempts s;
     isConnecting := isConnecting s; listeners := listeners s;
     heartbeatInterval := x |}.

Definition set_sockets (x : list Socket) (b : Browser) : Browser :=
  {| sockets := x; timeouts := timeouts b; intervals := intervals b;
     next_timer := next_timer b; shown := shown b; trace := trace b |}.
Definition set_timeouts (x : list Timeout) (b : Browser) : Browser :=
  {| sockets := sockets b; timeouts := x; intervals := intervals b;
     next_timer := next_timer b; shown := shown b; trace := trace b |}.
Definition set_intervals (x : list nat) (b : Browser) : Browser :=
  {| sockets := sockets b; timeouts := timeouts b; intervals := x;
     next_timer := next_timer b; shown := shown b; trace := trace b |}.
Definition set_next_timer (x : nat) (b : Browser) : Browser :=
  {| sockets := sockets b; timeouts := timeouts b; intervals := intervals b;
     next_timer := x; shown := shown b; trace := trace b |}.
Definition set_shown (x : list JsVal) (b : Browser) : Browser :=
  {| sockets := sockets b; timeouts := timeouts b; intervals := intervals b;
     next_timer := next_timer b; shown := x; trace := trace b |}.
Definition set_trace (x : list effect) (b : Browser) : Browser :=
  {| sockets := sockets b; timeouts := timeouts b; intervals := intervals b;
     next_timer := next_timer b; shown := shown b; trace := x |}.

Definition on_svc (f : Service → Service) (w : World) : World :=
  {| svc := f (svc w); browser := browser w |}.
Definition on_browser (f : Browser → Browser) (w : World) : World :=
  {| svc := svc w; browser := f (browser w) |}.

(** *** The state-and-exception monad *)

Definition M (A : Type) : Type := World → completion A * World.

Global Instance M_ret : MRet M := λ A a w, (Normal a, w).
Global Instance M_bind : MBind M := λ A B k m w,
  match m w with
  | (Normal a, w') => k a w'
  | (Abrupt e, w') => (Abrupt e, w')
  end.
Definition throw {A} (e : JsError) : M A := λ w, (Abrupt e, w).
Definition get : M World := λ w, (Normal w, w).
Definition modify (f : World → World) : M unit := λ w, (Normal tt, f w).

(** [try { body } catch (error) { handler(error) }] *)
Definition try_catch (body : M unit) (handler : JsError → M unit) : M unit := λ w,
  match body w with
  | (Normal tt, w') => (Normal tt, w')
  | (Abrupt e, w') => handler e w'
  end.

(** Lifting a pure computation that can throw. *)
Definition lift {A} (c : completion A) : M A := λ w, (c, w).

Definition emit (e : effect) : M unit :=
  modify (on_browser (λ b, set_trace (trace b ++ [e]) b)).
Definition console_log (msg : string) : M unit := emit (ConsoleLog msg).
Definition console_error (msg : string) : M unit := emit (ConsoleError msg).

(** *** The host *)

(** What the service needs from its surroundings: built-in functions, the
    build-time configuration, and the behaviour of the registered
    callbacks.  A callback is assumed not to call back into the service
    while it runs (none of the components that register one does). *)
Record Host := mkHost {
  JSON_parse : string → option JsVal;    (* None: throws SyntaxError *)
  cb_throws : callback → JsVal → bool;   (* does callback(data) throw? *)
  ws_base_url : string;                  (* process.env.REACT_APP_WS_BASE_URL *)
  ws_url_ok : string → bool;             (* false: new WebSocket(url) throws *)
  notification_permission : option string;
                                         (* Notification.permission; None when
                                            the page has no Notification API *)
  audio_ok : bool                        (* false: the audio calls throw *)
}.

(** [event.data] of a message event. *)
Inductive frame :=
| TextFrame (data : string)
| BlobFrame.                             (* a binary frame *)

Global Instance frame_eq_dec : EqDecision frame.
Proof. solve_decision. Defined.

(** The string [JSON.parse] sees: it converts its argument with [String]. *)
Definition frame_text (f : frame) : string :=
  match f with
  | TextFrame d => d
  | BlobFrame => "[object Blob]"
  end.

Section Service.
Context (host : Host).

(** **** Timers *)

Definition setTimeout (action : timer_action) (delay : Z) : M nat := λ w,
  let id := next_timer (browser w) in
  (Normal id,
   on_browser (λ b, set_next_timer (S id)
                      (set_timeouts (timeouts b ++ [mkTimeout id delay action]) b)) w).

Definition setInterval : M nat := λ w,
  let id := next_timer (browser w) in
  (Normal id,
   on_browser (λ b, set_next_timer (S id) (set_intervals (intervals b ++ [id]) b)) w).

Definition clearInterval (id : nat) : M unit :=
  modify (on_browser (λ b, set_intervals (filter (λ i, i ≠ id) (intervals b)) b)).

(** **** Listener management (source lines 178-210) *)

Definition addEventListener (event : string) (cb : callback) : M JsVal :=
  w ← get;
  (if bool_decide (is_Some (listeners (svc w) !! event)) then mret tt
   else modify (on_svc (λ s, set_listeners (<[event := []]> (listeners s)) s)));;
  modify (on_svc (λ s,
    set_listeners (alter (λ callbacks, callbacks ++ [cb]) event (listeners s)) s));;
  mret JUndefined.

(** [callbacks.indexOf(callback)], then [splice(index, 1)] when found. *)
Fixpoint remove_first (cb : callback) (callbacks : list callback) : list callback :=
  match callbacks with
  | [] => []
  | c :: rest => if decide (c = cb) then rest else c :: remove_first cb rest
  end.

Definition removeEventListener (event : string) (cb : callback) : M JsVal :=
  w ← get;
  (if bool_decide (is_Some (listeners (svc w) !! event)) then
     modify (on_svc (λ s, set_listeners (alter (remove_first cb) event (listeners s)) s))
   else mret tt);;
  mret JUndefined.

(** [callback(data)] *)
Definition call (event : string) (index : nat) (cb : callback) (data : JsVal) : M unit :=
  emit (Called event index cb data);;
  if cb_throws host cb data then throw (Thrown cb) else mret tt.

(** [callbacks.forEach((callback, index) => body)], from [index] on. *)
Fixpoint forEach (callbacks : list callback) (index : nat)
    (body : callback → nat → M unit) : M unit :=
  match callbacks with
  | [] => mret tt
  | cb :: rest => body cb index;; forEach rest (S index) body
  end.

Definition notifyListeners (event : string) (data : JsVal) : M unit :=
  console_log "WebSocket: Notifying listeners, count:";;
  w ← get;
  match listeners (svc w) !! event with
  | Some callbacks =>
      forEach callbacks 0 (λ cb index,
        try_catch
          (console_log "WebSocket: Calling listener";;
           call event index cb data)
          (λ error, console_error "Error in listener"))
  | None => console_log "WebSocket: No listeners registered for event"
  end.

(** **** Heartbeat (source lines 88-101) *)

(** [this.websocket && this.websocket.readyState === WebSocket.OPEN] *)
Definition websocket_open (w : World) : bool :=
  match websocket (svc w) with
  | Some r =>
      match sockets (browser w) !! r with
      | Some sock => bool_decide (readyState sock = OPEN)
      | None => false
      end
  | None => false
  end.

Definition startHeartbeat : M unit :=
  id ← setInterval;
  modify (on_svc (set_heartbeatInterval (Some id))).

(** The interval id is tested for truthiness: id 0 would count as unset. *)
Definition stopHeartbeat : M unit :=
  w ← get;
  match heartbeatInterval (svc w) with
  | Some (S _ as id) =>
      clearInterval id;;
      modify (on_svc (set_heartbeatInterval None))
  | _ => mret tt
  end.

(** The body of the heartbeat interval. *)
Definition heartbeat_tick : M unit :=
  w ← get;
  if websocket_open w then
    match websocket (svc w) with
    | Some r => emit (Send r "ping")
    | None => mret tt
    end
  else mret tt.

(** **** Browser notification and sound (source lines 130-176) *)

Definition playNotificationSound : M unit :=
  try_catch
    (if audio_ok host then emit PlaySound
     else throw (TypeError "AudioContext is not available"))
    (λ error, console_log "Could not play notification sound:").

Definition showAssignmentNotification (data : JsVal) : M unit :=
  permission ← match notification_permission host with
               | Some p => mret p
               | None => throw (ReferenceError "Notification is not defined")
               end;
  (if bool_decide (permission = "granted") then
     body ← lift (get_prop data "message");
     issue ← lift (get_prop data "issue");
     id ← lift (get_prop issue "id");
     w ← get;
     let n := length (shown (browser w)) in
     emit (ShowNotification "New Issue Assignment" data);;
     modify (on_browser (λ b, set_shown (shown b ++ [data]) b));;
     (* Auto-close after 10 seconds *)
     setTimeout (CloseNotification n) 10000;;
     mret tt
   else mret tt);;
  playNotificationSound.

(** **** Message handling (source lines 103-128) *)

Definition handleMessage (message : JsVal) : M unit :=
  console_log "WebSocket: Received message:";;
  type ← lift (get_prop message "type");
  data ← lift (get_prop message "data");
  if strict_eq_str type "notification" then
    console_log "WebSocket: Processing notification:";;
    notifyListeners "notification" data;;
    event_type ← lift (get_prop data "event_type");
    if strict_eq_str event_type "issue_assigned" then
      console_log "WebSocket: Dispatching issue_assigned event";;
      notifyListeners "issue_assigned" data;;
      showAssignmentNotification data
    else if strict_eq_str event_type "kanban_update" then
      console_log "WebSocket: Dispatching kanban_update event";;
      notifyListeners "kanban_update" data
    else
      console_log "WebSocket: Unknown notification type:"
  else
    console_log "WebSocket: Unknown message type:".

(** **** Connection life cycle (source lines 11-86) *)

(** [new WebSocket(wsUrl)] followed by the assignment of the four handlers,
    which close over [token]. *)
Definition new_WebSocket (url token : string) : M nat := λ w,
  if ws_url_ok host url then
    let r := length (sockets (browser w)) in
    (Normal r,
     on_browser (λ b, set_trace (trace b ++ [NewWebSocket r url])
                        (set_sockets (sockets b ++ [mkSocket url token CONNECTING]) b)) w)
  else (Abrupt (SyntaxError "The URL is invalid"), w).

Definition wsUrl (token : string) : string :=
  ws_base_url host +:+ "/ws/notifications?token=" +:+ token.

Definition connect (token : string) : M unit :=
  w ← get;
  if isConnecting (svc w) || websocket_open w then mret tt
  else
    modify (on_svc (set_isConnecting true));;
    try_catch
      (r ← new_WebSocket (wsUrl token) token;
       modify (on_svc (set_websocket (Some r))))
      (λ error,
         console_error "Error connecting to WebSocket:";;
         modify (on_svc (set_isConnecting false))).

Definition scheduleReconnect (token : string) : M unit :=
  modify (on_svc (λ s, set_reconnectAttempts (reconnectAttempts s + 1) s));;
  w ← get;
  let delay := (reconnectDelay * reconnectAttempts (svc w))%Z in
  console_log "Attempting to reconnect WebSocket";;
  setTimeout (RunConnect token) delay;;
  mret tt.

Definition onopen : M unit :=
  console_log "WebSocket notification service connected";;
  modify (on_svc (set_isConnecting false));;
  modify (on_svc (set_reconnectAttempts 0));;
  (* Send ping to keep connection alive *)
  startHeartbeat.

Definition onmessage (event_data : frame) : M unit :=
  try_catch
    (* Handle plain text pong responses *)
    (if bool_decide (event_data = TextFrame "pong") then
       console_log "WebSocket: Received pong"
     else
       message ← match JSON_parse host (frame_text event_data) with
                 | Some v => mret v
                 | None => throw (SyntaxError "Unexpected token in JSON")
                 end;
       handleMessage message)
    (λ error, console_error "Error parsing WebSocket message:").

Definition onclose (token : string) (code : Z) : M unit :=
  console_log "WebSocket notification service disconnected";;
  modify (on_svc (set_isConnecting false));;
  stopHeartbeat;;
  (* Attempt to reconnect if not a normal closure *)
  w ← get;
  if negb (code =? 1000)%Z && (reconnectAttempts (svc w) <? maxReconnectAttempts)%Z
  then scheduleReconnect token
  else mret tt.

Definition onerror : M unit :=
  console_error "WebSocket error:";;
  modify (on_svc (set_isConnecting false)).

(** [websocket.close(code, reason)]: starts the closing handshake unless
    the socket is already closing or closed. *)
Definition close_socket (r : nat) (code : Z) (reason : string) : M unit :=
  emit (Close r code reason);;
  modify (on_browser (λ b,
    set_sockets
      (alter (λ sock,
                match readyState sock with
                | CONNECTING | OPEN => mkSocket (sock_url sock) (sock_token sock) CLOSING
                | _ => sock
                end) r (sockets b)) b)).

Definition disconnect : M unit :=
  stopHeartbeat;;
  w ← get;
  match websocket (svc w) with
  | Some r =>
      close_socket r 1000 "Normal closure";;
      modify (on_svc (set_websocket None))
  | None => mret tt
  end;;
  modify (on_svc (set_reconnectAttempts maxReconnectAttempts)). (* Prevent reconnection *)

(** **** The event loop *)

(** Everything that can happen to the service: a call of its public
    interface by a component, or a callback run by the browser. *)
Inductive event :=
| CallConnect (token : string)
| CallDisconnect
| CallAddEventListener (name : string) (cb : callback)
| CallRemoveEventListener (name : string) (cb : callback)
| SocketOpened (r : nat)
| SocketMessage (r : nat) (data : frame)
| SocketClosed (r : nat) (code : Z)
| SocketError (r : nat)
| TimeoutFired (id : nat)
| IntervalFired (id : nat)
| NotificationClicked (n : nat).

Definition set_readyState (r : nat) (st : ReadyState) : M unit :=
  modify (on_browser (λ b,
    set_sockets
      (alter (λ sock, mkSocket (sock_url sock) (sock_token sock) st) r (sockets b)) b)).

Definition find_timeout (id : nat) (ts : list Timeout) : option Timeout :=
  list_find (λ t, timeout_id t = id) ts ≫= λ p, Some (snd p).

Definition run_timer (a : timer_action) : M unit :=
  match a with
  | RunConnect token => connect token
  | CloseNotification n => emit (NotificationClosed n)
  end.

(** [notification.onclick] *)
Definition onclick (n : nat) (data : JsVal) : M unit :=
  emit WindowFocus;;
  notifyListeners "notification_click" data;;
  emit (NotificationClosed n).

(** One turn of the event loop; [None] when the event cannot happen in
    this state.  An exception that escapes a handler ends that turn and
    keeps the writes made so far. *)
Definition step (e : event) (w : World) : option World :=
  match e with
  | CallConnect token => Some (snd (connect token w))
  | CallDisconnect => Some (snd (disconnect w))
  | CallAddEventListener name cb => Some (snd (addEventListener name cb w))
  | CallRemoveEventListener name cb => Some (snd (removeEventListener name cb w))
  | SocketOpened r =>
      sock ← sockets (browser w) !! r;
      if decide (readyState sock = CONNECTING)
      then Some (snd ((set_readyState r OPEN;; onopen) w))
      else None
  | SocketMessage r data =>
      sock ← sockets (browser w) !! r;
      if decide (readyState sock = OPEN)
      then Some (snd (onmessage data w))
      else None
  | SocketClosed r code =>
      sock ← sockets (browser w) !! r;
      if decide (readyState sock = CLOSED) then None
      else Some (snd ((set_readyState r CLOSED;; onclose (sock_token sock) code) w))
  | SocketError r =>
      sock ← sockets (browser w) !! r;
      if decide (readyState sock = CLOSED) then None
      else Some (snd (onerror w))
  | TimeoutFired id =>
      t ← find_timeout id (timeouts (browser w));
      let w1 := on_browser (λ b,
                  set_timeouts (filter (λ t', timeout_id t' ≠ id) (timeouts b)) b) w in
      Some (snd (run_timer (timeout_action t) w1))
  | IntervalFired id =>
      if decide (id ∈ intervals (browser w))
      then Some (snd (heartbeat_tick w))
      else None
  | NotificationClicked n =>
      data ← shown (browser w) !! n;
      Some (snd (onclick n data w))
  end.

Fixpoint run (events : list event) (w : World) : option World :=
  match events with
  | [] => Some w
  | e :: rest => step e w ≫= run rest
  end.

(** **** The client states of the design, read off the fields *)

Inductive ClientState := Disconnected | Connecting | Connected | ReconnectScheduled.

Definition is_reconnect (t : Timeout) : bool :=
  match timeout_action t with
  | RunConnect _ => true
  | CloseNotification _ => false
  end.

Definition reconnect_pending (w : World) : bool :=
  existsb is_reconnect (timeouts (browser w)).

(** The state as the service itself records it: CONNECTING is the
    [isConnecting] flag and CONNECTED an open current socket, the two tests
    of the guard of [connect].  The flag is shared by the handlers of every
    socket, so it can be clear while the current socket is still being
    opened; [websocket_connecting] below reads the socket instead. *)
Definition client_state (w : World) : ClientState :=
  if isConnecting (svc w) then Connecting
  else if websocket_open w then Connected
  else if reconnect_pending w then ReconnectScheduled
  else Disconnected.

(** The [callback(data)] invocations recorded in a trace. *)
Definition calls (tr : list effect) : list (string * nat * callback * JsVal) :=
  omap (λ e, match e with
             | Called name i cb data => Some (name, i, cb, data)
             | _ => None
             end) tr.

End Service.

(** *** A concrete host

    A page built with a valid socket URL, with notifications granted and
    sound available; [throws] tells which callbacks throw. *)
Definition page (throws : callback → JsVal → bool) : Host :=
  {| JSON_parse := Json.parse;
     cb_throws := throws;
     ws_base_url := "ws://127.0.0.1:8000";
     ws_url_ok := λ _, true;
     notification_permission := Some "granted";
     audio_ok := true |}.

Definition nothing_throws : callback → JsVal → bool := λ _ _, false.

(** *** Scenarios *)

(** Two callbacks registered for [kanban_update], the first of which
    throws whenever it is called. *)
Definition first_throws : callback → JsVal → bool := λ cb _, bool_decide (cb = 1).

Definition two_listeners : World :=
  snd (addEventListener "kanban_update" 2
         (snd (addEventListener "kanban_update" 1 initial))).

(** The same callback registered once, and registered twice. *)
Definition registered_once : World :=
  snd (addEventListener "kanban_update" 7 initial).

Definition registered_twice : World :=
  snd (addEventListener "kanban_update" 7 registered_once).

(** The world after a sequence of events in a fresh page. *)
Definition after (host : Host) (events : list event) : World :=
  default initial (run host events initial).

Definition connecting : World :=
  after (page nothing_throws) [CallConnect "token"].

Definition connected : World :=
  after (page nothing_throws) [CallConnect "token"; SocketOpened 0].

(** A connection that is lost and then fails to come back: every retry
    opens a socket that closes abnormally before it opens.  [failures n]
    are the events up to and including the close of the [n]-th retry;
    timer 1 is the heartbeat, timer [k + 1] the [k]-th retry. *)
Fixpoint retries (k n : nat) : list event :=
  match n with
  | O => []
  | S n' => TimeoutFired (S k) :: SocketClosed k 1006 :: retries (S k) n'
  end.

Definition failures (n : nat) : list event :=
  [CallConnect "token"; SocketOpened 0; SocketClosed 0 1006] ++ retries 1 n.

(** The fifth retry has just opened its socket, which has not failed yet. *)
Definition fifth_retry_connecting : World :=
  after (page nothing_throws) (failures 4 ++ [TimeoutFired 6]).

(** The user logs out while the first retry is pending, and then the
    retry timer fires. *)
Definition logout_during_backoff : list event :=
  [CallConnect "token"; SocketOpened 0; SocketClosed 0 1006; CallDisconnect].

(** A page with one listener for every notification and one for the
    upper-case subtype name of the wire protocol. *)
Definition subscribed_upper_case : World :=
  snd (addEventListener "ISSUE_ASSIGNED" 7
         (snd (addEventListener "notification" 3 initial))).

Definition upper_case_data : JsVal :=
  JObj [("event_type", JStr "ISSUE_ASSIGNED");
        ("message", JStr "You have been assigned")].

Definition issue_assigned_upper_case : JsVal :=
  JObj [("type", JStr "notification"); ("data", upper_case_data)].

(** *** Vocabulary of the properties *)

(** A world that differs from [w] by more trace only. *)
Definition logged (tr : list effect) (w : World) : World :=
  on_browser (λ b, set_trace (trace b ++ tr) b) w.

(** The invocations of one dispatch that calls each of [callbacks] once,
    in order, numbering them from [index]. *)
Fixpoint expected_calls (event : string) (data : JsVal) (index : nat)
    (callbacks : list callback) : list (string * nat * callback * JsVal) :=
  match callbacks with
  | [] => []
  | cb :: rest => (event, index, cb, data) :: expected_calls event data (S index) rest
  end.

(** The subtype names [handleMessage] dispatches under, as its [switch]
    on [data.event_type] has them. *)
Definition dispatched_subtype (data : JsVal) : option string :=
  match get_prop data "event_type" with
  | Normal event_type =>
      if strict_eq_str event_type "issue_assigned" then Some "issue_assigned"
      else if strict_eq_str event_type "kanban_update" then Some "kanban_update"
      else None
  | Abrupt _ => None
  end.

(** The invocations of one dispatch of [data] under [name] in world [w]. *)
Definition dispatch_calls (w : World) (name : string) (data : JsVal)
    : list (string * nat * callback * JsVal) :=
  imap (λ i cb, (name, i, cb, data)) (default [] (listeners (svc w) !! name)).

(** A socket that can no longer open or deliver a message. *)
Definition dead (sock : Socket) : bool :=
  match readyState sock with
  | CLOSING | CLOSED => true
  | CONNECTING | OPEN => false
  end.

(** The client has given up: it is not connecting, its retry budget is
    used up, no socket is alive and no reconnect timer is pending. *)
Definition given_up (w : World) : Prop :=
  isConnecting (svc w) = false
  ∧ (maxReconnectAttempts ≤ reconnectAttempts (svc w))%Z
  ∧ Forall (λ sock, dead sock = true) (sockets (browser w))
  ∧ Forall (λ t, is_reconnect t = false) (timeouts (browser w)).

(** Socket [r] is the only one that may still be alive, and no reconnect
    timer is pending. *)
Definition last_alive (r : nat) (w : World) : Prop :=
  (∀ r' sock', r' ≠ r → sockets (browser w) !! r' = Some sock' → dead sock' = true)
  ∧ Forall (λ t, is_reconnect t = false) (timeouts (browser w)).

Definition is_connect_call (e : event) : bool :=
  match e with
  | CallConnect _ => true
  | _ => false
  end.

(** What [playNotificationSound] leaves in the trace. *)
Definition sound_effect (host : Host) : effect :=
  if audio_ok host then PlaySound
  else ConsoleLog "Could not play notification sound:".

(** The browser side of a notification put up for [data]: it is listed
    with the data its click handler closes over, and its auto-close timer
    of 10 seconds is pending.  The trace is left as it is. *)
Definition with_notification (data : JsVal) (w : World) : World :=
  on_browser (λ b,
    set_next_timer (S (next_timer b))
      (set_timeouts
         (timeouts b
          ++ [mkTimeout (next_timer b) 10000 (CloseNotification (length (shown b)))])
         (set_shown (shown b ++ [data]) b))) w.

(** A pending timer as the service creates them: a retry waits 2000 ms
    times an attempt number from 1 to 5, the closing of a notification
    waits 10000 ms and names a notification that exists. *)
Definition timer_ok (w : World) (t : Timeout) : Prop :=
  timeout_id t < next_timer (browser w)
  ∧ match timeout_action t with
    | RunConnect _ =>
        timeout_delay t ∈ [2000; 4000; 6000; 8000; 10000]%Z
    | CloseNotification n =>
        timeout_delay t = 10000%Z ∧ n < length (shown (browser w))
    end.

(** What holds of every world the event loop can reach. *)
Definition well_formed (host : Host) (w : World) : Prop :=
  (0 ≤ reconnectAttempts (svc w) ≤ maxReconnectAttempts)%Z
  ∧ (∀ r, websocket (svc w) = Some r → r < length (sockets (browser w)))
  ∧ Forall (timer_ok w) (timeouts (browser w))
  ∧ NoDup (timeout_id <$> timeouts (browser w))
  ∧ Forall (λ sock, sock_url sock = wsUrl host (sock_token sock)) (sockets (browser w)).

(** The [ShowNotification] and [PlaySound] effects of a trace. *)
Definition is_alert (e : effect) : bool :=
  match e with
  | ShowNotification _ _ | PlaySound => true
  | _ => false
  end.

Definition alerts (tr : list effect) : list effect :=
  filter (λ e, is_alert e = true) tr.

(** A complete [issue_assigned] message, as the server sends it. *)
Definition assigned_data : JsVal :=
  JObj [("event_type", JStr "issue_assigned");
        ("message", JStr "You have been assigned to: Fix login");
        ("issue", JObj [("id", JStr "6650a1"); ("title", JStr "Fix login")])].

Definition issue_assigned_message : list (string * JsVal) :=
  [("type", JStr "notification"); ("data", assigned_data)].

(** The data of such a message without its [issue], as parsed from
    [assigned_without_issue_text] below. *)
Definition assigned_data_without_issue : JsVal :=
  JObj [("message", JStr "You have been assigned");
        ("event_type", JStr "issue_assigned")].

(** One listener for each of the names the service dispatches under. *)
Definition all_subscribed : World :=
  snd (addEventListener "notification_click" 9
    (snd (addEventListener "issue_assigned" 8
      (snd (addEventListener "notification" 3 connected))))).

(** A string between double quotes, to write JSON text. *)
Definition quoted (s : string) : string :=
  String "034" (s +:+ String "034" EmptyString).

(** The text of an [issue_assigned] message whose data has no [issue]. *)
Definition assigned_without_issue_text : string :=
  "{" +:+ quoted "type" +:+ ":" +:+ quoted "notification" +:+ ","
  +:+ quoted "data" +:+ ":{" +:+ quoted "event_type" +:+ ":"
  +:+ quoted "issue_assigned" +:+ "," +:+ quoted "message" +:+ ":"
  +:+ quoted "You have been assigned" +:+ "}}".

(** The user has logged out and in again; the new socket is open, the
    close event of the old one has not arrived yet. *)
Definition logged_in_again : World :=
  after (page nothing_throws)
    [CallConnect "token"; SocketOpened 0; CallDisconnect;
     CallConnect "token2"; SocketOpened 1].

(** CONNECTING as the design has it, read off the transport: the service
    holds a socket that is being opened. *)
Definition websocket_connecting (w : World) : bool :=
  match websocket (svc w) with
  | Some r =>
      match sockets (browser w) !! r with
      | Some sock => bool_decide (readyState sock = CONNECTING)
      | None => false
      end
  | None => false
  end.

(** The user logs out and in again, and the close event of the old socket
    arrives while the new socket is still being opened. *)
Definition old_close_during_login : list event :=
  [CallConnect "token"; SocketOpened 0; CallDisconnect;
   CallConnect "token2"; SocketClosed 0 1000].

(** What was sent on the sockets, as recorded in a trace. *)
Definition sent (tr : list effect) : list (nat * string) :=
  omap (λ e, match e with
             | Send r payload => Some (r, payload)
             | _ => None
             end) tr.

Definition is_send (e : effect) : bool :=
  match e with
  | Send _ _ => true
  | _ => false
  end.

Definition is_open_event (e : event) : bool :=
  match e with
  | SocketOpened _ => true
  | _ => false
  end.

(** A computation that, run while no interval is live, starts none and
    sends nothing. *)
Definition silent {A} (m : M A) : Prop :=
  ∀ w, intervals (browser w) = [] →
    intervals (browser (snd (m w))) = []
    ∧ sent (trace (browser (snd (m w)))) = sent (trace (browser w)).

(** A page whose socket URL is rejected by the [WebSocket] constructor:
    the build has no base URL. *)
Definition page_without_url : Host :=
  {| JSON_parse := Json.parse;
     cb_throws := nothing_throws;
     ws_base_url := "undefined";
     ws_url_ok := λ _, false;
     notification_permission := Some "default";
     audio_ok := true |}.

End WS.

(** ** The board reducer of the Dashboard component *)

Module Dashboard.

(** An issue as the components read it. *)
Record Issue := mkIssue {
  id : string;
  title : string;
  description : string;
  status : string;
  priority : string;
  tags : list string;
  assigned_to : option string;
  team_id : option string
}.

(** The payload of a [kanban_update] event: [const { issue, action } = data]. *)
Record KanbanUpdate := mkKanbanUpdate {
  issue : Issue;
  action : string
}.

(** [Array.prototype.findIndex]: the first index whose element satisfies
    the predicate, or -1. *)
Fixpoint findIndex {A} (p : A → bool) (l : list A) : Z :=
  match l with
  | [] => -1
  | x :: rest =>
      if p x then 0
      else let k := findIndex p rest in
           if (k <? 0)%Z then -1 else (k + 1)%Z
  end.

(** The function passed to [setIssues] by [handleKanbanUpdate]. *)
Definition handleKanbanUpdate (data : KanbanUpdate) (prevIssues : list Issue) : list Issue :=
  let existingIndex :=
    findIndex (λ i, bool_decide (id i = id (issue data))) prevIssues in
  if bool_decide (action data = "deleted") then
    filter (λ i, id i ≠ id (issue data)) prevIssues
  else if (0 <=? existingIndex)%Z then
    map (λ i, if bool_decide (id i = id (issue data)) then issue data else i) prevIssues
  else
    issue data :: prevIssues.

(** A board with two issues, and the second one after it was closed. *)
Definition login_issue : Issue :=
  mkIssue "6650a1" "Fix login" "Login fails" "open" "high" ["bug"] None None.
Definition export_issue : Issue :=
  mkIssue "6650b2" "Add export" "CSV export" "in_progress" "low" [] (Some "u7") None.
Definition export_issue_closed : Issue :=
  mkIssue "6650b2" "Add export" "CSV export" "closed" "low" [] (Some "u7") None.
Definition sample_board : list Issue := [login_issue; export_issue].

(** The four counters of the statistics cards. *)
Record Stats := mkStats {
  total : nat;
  open : nat;
  inProgress : nat;
  closed : nat
}.

(** The component state that [fetchIssues] writes, and the toasts it
    raises. *)
Record Board := mkBoard {
  issues : list Issue;
  loading : bool;
  stats : Stats;
  toasts : list string
}.

(** [response.issues?.filter(issue => issue.status === status).length || 0] *)
Definition count_status (st : string) (response_issues : option (list Issue)) : nat :=
  match response_issues with
  | Some l => length (filter (λ i, status i = st) l)
  | None => 0
  end.

(** [fetchIssues], from the moment the awaited request settles:
    [response] is how [ApiService.getIssues(filters)] settled, with the
    [issues] field of the answer, which may be missing. *)
Definition fetchIssues (response : completion (option (list Issue))) (b : Board) : Board :=
  match response with
  | Normal response_issues =>
      {| issues := default [] response_issues;
         loading := false;
         stats := {| total := match response_issues with
                              | Some l => length l
                              | None => 0
                              end;
                     open := count_status "OPEN" response_issues;
                     inProgress := count_status "IN_PROGRESS" response_issues;
                     closed := count_status "CLOSED" response_issues |};
         toasts := toasts b |}
  | Abrupt error =>
      {| issues := issues b; loading := false; stats := stats b;
         toasts := toasts b ++ ["Failed to fetch issues"] |}
  end.

(** [setIssues(prevIssues => ...)] of [handleKanbanUpdate] on the
    component state. *)
Definition applyKanbanUpdate (data : KanbanUpdate) (b : Board) : Board :=
  {| issues := handleKanbanUpdate data (issues b); loading := loading b;
     stats := stats b; toasts := toasts b |}.

(** A fetched board of three issues. *)
Definition fetched_issues : list Issue :=
  [mkIssue "6650a1" "Fix login" "Login fails" "OPEN" "HIGH" ["bug"] None None;
   mkIssue "6650b2" "Add export" "CSV export" "IN_PROGRESS" "LOW" [] (Some "u7") None;
   mkIssue "6650c3" "Update docs" "Readme" "OPEN" "MEDIUM" [] None None].

Definition empty_board : Board :=
  {| issues := []; loading := true; stats := mkStats 0 0 0 0; toasts := [] |}.

Definition new_issue : Issue :=
  mkIssue "6650d4" "New report" "Monthly report" "OPEN" "LOW" [] None None.

End Dashboard.

(** ** The Kanban board component *)

Module KanbanBoard.
Import Dashboard.

(** The issues of the three columns. *)
Record Columns := mkColumns {
  OPEN : list Issue;
  IN_PROGRESS : list Issue;
  CLOSED : list Issue
}.

Definition columns (issues : list Issue) : Columns :=
  {| OPEN := filter (λ issue, status issue = "OPEN") issues;
     IN_PROGRESS := filter (λ issue, status issue = "IN_PROGRESS") issues;
     CLOSED := filter (λ issue, status issue = "CLOSED") issues |}.

(** The issues that no column shows: their status is none of the three
    column names. *)
Definition elsewhere (issues : list Issue) : list Issue :=
  filter (λ issue, status issue ∉ ["OPEN"; "IN_PROGRESS"; "CLOSED"]) issues.

(** The result of a drag, as the drag-and-drop library reports it. *)
Record Location := mkLocation {
  droppableId : string;
  index : nat
}.

Record DropResult := mkDropResult {
  destination : option Location;         (* null when dropped outside *)
  source : Location;
  draggableId : string
}.

(** [handleDragEnd]: the call [onIssueUpdate(issueId, { status })] it
    makes, if any. *)
Definition handleDragEnd (result : DropResult) : option (string * string) :=
  match destination result with
  | None => None
  | Some dest =>
      if bool_decide (droppableId dest = droppableId (source result))
         && bool_decide (index dest = index (source result))
      then None
      else Some (draggableId result, droppableId dest)
  end.

End KanbanBoard.

(** ** The notification store *)

Module NotificationService.

Definition callback := nat.

Record Notification := mkNotification {
  id : string;
  type : string;
  title : string;
  message : string;
  is_read : bool;
  created_at : string;
  issue_id : option string
}.

(** What a listener of the store receives. *)
Record Snapshot := mkSnapshot {
  snap_notifications : list Notification;
  snap_unreadCount : Z
}.

Inductive effect :=
| Notified (cb : callback) (state : Snapshot)
| ConsoleError (msg : string).

(** The fields of the store.  [listeners] is a JavaScript [Set]: its
    elements in insertion order, without repetition.  [unreadCount] holds
    the integer count sent by the server. *)
Record Store := mkStore {
  listeners : list callback;
  notifications : list Notification;
  unreadCount : Z;
  trace : list effect
}.

Definition emit (e : effect) (s : Store) : Store :=
  {| listeners := listeners s; notifications := notifications s;
     unreadCount := unreadCount s; trace := trace s ++ [e] |}.

(** [listeners.add(callback)]; the closure it returns is [unsubscribe]
    below. *)
Definition addListener (cb : callback) (s : Store) : Store :=
  {| listeners := if bool_decide (cb ∈ listeners s) then listeners s
                  else listeners s ++ [cb];
     notifications := notifications s; unreadCount := unreadCount s;
     trace := trace s |}.

Section Store.
(** Whether a listener throws on a given snapshot. *)
Context (cb_throws : callback → Snapshot → bool).

Definition notifyListeners (s : Store) : Store :=
  foldl (λ s' cb,
           let s'' := emit (Notified cb (mkSnapshot (notifications s) (unreadCount s))) s' in
           if cb_throws cb (mkSnapshot (notifications s) (unreadCount s))
           then emit (ConsoleError "Error in notification listener:") s''
           else s'')
        s (listeners s).

(** [{ ...notif, is_read: true }] *)
Definition set_read (notif : Notification) : Notification :=
  {| id := id notif; type := type notif; title := title notif;
     message := message notif; is_read := true;
     created_at := created_at notif; issue_id := issue_id notif |}.

(** [markAsRead(notificationId)], from the moment the awaited request
    settles: [request] is how it settled, [s] the store at that moment. *)
Definition markAsRead (request : completion JsVal) (notificationId : string)
    (s : Store) : completion unit * Store :=
  match request with
  | Normal _ =>
      (* Update local state *)
      let s1 :=
        {| listeners := listeners s;
           notifications :=
             map (λ notif, if bool_decide (id notif = notificationId)
                           then set_read notif else notif)
                 (notifications s);
           unreadCount := Z.max 0 (unreadCount s - 1);
           trace := trace s |} in
      (Normal tt, notifyListeners s1)
  | Abrupt error =>
      (Abrupt error, emit (ConsoleError "Error marking notification as read:") s)
  end.

(** The answer of [GET /notifications]. *)
Record NotificationsResponse := mkNotificationsResponse {
  resp_notifications : list Notification;
  unread_count : Z
}.

(** [fetchNotifications(page, size, unreadOnly)], from the moment the
    awaited request settles.  [size] and [unreadOnly] only go into the
    request. *)
Definition fetchNotifications (page : Z) (request : completion NotificationsResponse)
    (s : Store) : completion NotificationsResponse * Store :=
  match request with
  | Normal response =>
      let s1 :=
        {| listeners := listeners s;
           notifications :=
             if (page =? 1)%Z then resp_notifications response
             else notifications s ++ resp_notifications response;
           unreadCount := unread_count response;
           trace := trace s |} in
      (Normal response, notifyListeners s1)
  | Abrupt error =>
      (Abrupt error, emit (ConsoleError "Error fetching notifications:") s)
  end.

(** [fetchUnreadCount()], from the moment the request settles; [request]
    carries [response.unread_count]. *)
Definition fetchUnreadCount (request : completion Z) (s : Store) : completion Z * Store :=
  match request with
  | Normal count =>
      let s1 :=
        {| listeners := listeners s; notifications := notifications s;
           unreadCount := count; trace := trace s |} in
      (Normal count, notifyListeners s1)
  | Abrupt error =>
      (Normal 0%Z, emit (ConsoleError "Error fetching unread count:") s)
  end.

(** [markAllAsRead()], from the moment the request settles. *)
Definition markAllAsRead (request : completion JsVal) (s : Store)
    : completion unit * Store :=
  match request with
  | Normal _ =>
      (* Update local state *)
      let s1 :=
        {| listeners := listeners s;
           notifications := map set_read (notifications s);
           unreadCount := 0;
           trace := trace s |} in
      (Normal tt, notifyListeners s1)
  | Abrupt error =>
      (Abrupt error, emit (ConsoleError "Error marking all notifications as read:") s)
  end.

End Store.

(** [() => this.listeners.delete(callback)], the closure that
    [addListener] returns: it tells whether the callback was there. *)
Definition unsubscribe (cb : callback) (s : Store) : bool * Store :=
  (bool_decide (cb ∈ listeners s),
   {| listeners := filter (λ c, c ≠ cb) (listeners s);
      notifications := notifications s; unreadCount := unreadCount s;
      trace := trace s |}).

(** The snapshots handed to listeners, in order. *)
Definition notified (tr : list effect) : list (callback * Snapshot) :=
  omap (λ e, match e with
             | Notified cb state => Some (cb, state)
             | ConsoleError _ => None
             end) tr.

(** [formatNotificationTime(createdAt)].  [now] is the time of the call
    and [notifTime] the time of [new Date(createdAt)], both in milliseconds;
    [notifTime] is [None] when [createdAt] is not a date: the difference is
    then [NaN], every comparison fails and the last template is reached. *)
Definition formatNotificationTime (now : Z) (notifTime : option Z) : string :=
  match notifTime with
  | Some t =>
      let diffInMinutes := ((now - t) / (1000 * 60))%Z in
      if (diffInMinutes <? 1)%Z then "Just now"
      else if (diffInMinutes <? 60)%Z then pretty diffInMinutes +:+ "m ago"
      else if (diffInMinutes <? 1440)%Z then pretty (diffInMinutes / 60)%Z +:+ "h ago"
      else pretty (diffInMinutes / 1440)%Z +:+ "d ago"
  | None => "NaNd ago"
  end.

(** Two notifications, the first one read. *)
Definition read_notification : Notification :=
  mkNotification "n1" "ISSUE_ASSIGNED" "Assigned" "Fix login" true
    "2025-01-01T10:00:00Z" (Some "6650a1").
Definition unread_notification : Notification :=
  mkNotification "n2" "ISSUE_UPDATED" "Updated" "Add export" false
    "2025-01-01T11:00:00Z" (Some "6650b2").

Definition sample_store : Store :=
  {| listeners := [1; 2]; notifications := [read_notification; unread_notification];
     unreadCount := 1; trace := [] |}.

End NotificationService.

(** * Properties *)

(** ** Listener bus *)

Module ListenerBus.
Import WS.

Lemma logged_nil w : logged [] w = w.
Proof.
  destruct w as [s b]; destruct b; unfold logged, on_browser, set_trace; simpl.
  by rewrite app_nil_r.
Qed.

Lemma logged_app tr1 tr2 w : logged tr2 (logged tr1 w) = logged (tr1 ++ tr2) w.
Proof.
  destruct w as [s b]; destruct b; unfold logged, on_browser, set_trace; simpl.
  by rewrite app_assoc.
Qed.

Lemma emit_logged e w : emit e w = (Normal tt, logged [e] w).
Proof. reflexivity. Qed.

Lemma bind_normal {A B} (m : M A) (k : A → M B) w a w' :
  m w = (Normal a, w') → (m ≫= k) w = k a w'.
Proof. intros E. unfold mbind, M_bind. by rewrite E. Qed.

Lemma calls_app tr1 tr2 : calls (tr1 ++ tr2) = calls tr1 ++ calls tr2.
Proof. unfold calls. apply omap_app. Qed.

Section Dispatch.
Context (host : Host).

Lemma expected_calls_imap event data index callbacks :
  expected_calls event data index callbacks
  = imap (λ i cb, (event, index + i, cb, data)) callbacks.
Proof.
  revert index. induction callbacks as [|cb rest IH]; intros index; simpl; [done|].
  rewrite Nat.add_0_r. f_equal. rewrite IH. apply imap_ext. intros i x _. simpl.
  f_equal. f_equal. f_equal. lia.
Qed.

(** One guarded invocation never throws, whatever the callback does. *)
Lemma guarded_call event index cb data w :
  ∃ tr,
    try_catch
      (console_log "WebSocket: Calling listener";; call host event index cb data)
      (λ _, console_error "Error in listener") w
    = (Normal tt, logged tr w)
    ∧ calls tr = [(event, index, cb, data)].
Proof.
  unfold try_catch, call, console_log, console_error, mbind, M_bind.
  rewrite !emit_logged.
  destruct (cb_throws host cb data); simpl; rewrite ?emit_logged, !logged_app;
    eexists; (split; [reflexivity|]); reflexivity.
Qed.

Lemma forEach_guarded event data callbacks : ∀ index w,
  ∃ tr,
    forEach callbacks index (λ cb i,
      try_catch
        (console_log "WebSocket: Calling listener";; call host event i cb data)
        (λ _, console_error "Error in listener")) w
    = (Normal tt, logged tr w)
    ∧ calls tr = expected_calls event data index callbacks.
Proof.
  induction callbacks as [|cb rest IH]; intros index w; cbn [forEach expected_calls].
  - exists []. by rewrite logged_nil.
  - destruct (guarded_call event index cb data w) as (tr1 & E1 & C1).
    destruct (IH (S index) (logged tr1 w)) as (tr2 & E2 & C2).
    exists (tr1 ++ tr2). split.
    + rewrite (bind_normal _ _ _ _ _ E1), E2. by rewrite logged_app.
    + by rewrite calls_app, C1, C2.
Qed.

Lemma notifyListeners_logged event data w :
  ∃ tr,
    notifyListeners host event data w = (Normal tt, logged tr w)
    ∧ calls tr = expected_calls event data 0 (default [] (listeners (svc w) !! event)).
Proof.
  unfold notifyListeners.
  set (w1 := logged [ConsoleLog "WebSocket: Notifying listeners, count:"] w).
  rewrite (bind_normal (console_log _) _ w tt w1 eq_refl).
  rewrite (bind_normal get _ w1 w1 w1 eq_refl).
  change (svc w1) with (svc w).
  destruct (listeners (svc w) !! event) as [callbacks|]; cbn [default].
  - destruct (forEach_guarded event data callbacks 0 w1) as (tr & E1 & C1).
    rewrite E1. unfold w1. rewrite logged_app.
    eexists. split; [reflexivity|]. by rewrite calls_app, C1.
  - unfold console_log, w1. rewrite emit_logged, logged_app.
    eexists. split; [reflexivity|]. reflexivity.
Qed.

End Dispatch.

Lemma alter_as_insert (m : gmap string (list callback)) k old f :
  m !! k = Some old → alter f k m = <[k := f old]> m.
Proof.
  intros E. apply map_eq. intros j. destruct (decide (k = j)) as [->|N].
  - by rewrite lookup_alter_eq, lookup_insert_eq, E.
  - by rewrite lookup_alter_ne, lookup_insert_ne.
Qed.

(** [addEventListener] in one step: the collection of [event], created
    empty when absent, gets [cb] at its end. *)
Lemma addEventListener_eq event cb w :
  addEventListener event cb w
  = (Normal JUndefined,
     on_svc (λ s, set_listeners
                    (<[event := default [] (listeners s !! event) ++ [cb]]> (listeners s)) s) w).
Proof.
  unfold addEventListener.
  rewrite (bind_normal get _ w w w eq_refl).
  destruct (listeners (svc w) !! event) as [old|] eqn:E.
  - rewrite bool_decide_eq_true_2 by eauto.
    rewrite (bind_normal (mret tt) _ w tt w eq_refl).
    unfold modify, mbind, M_bind, mret, M_ret, on_svc; simpl.
    by rewrite E, (alter_as_insert _ _ old).
  - rewrite bool_decide_eq_false_2 by (by intros [? ?]).
    unfold modify, mbind, M_bind, mret, M_ret, on_svc; simpl.
    by rewrite E, alter_insert_eq.
Qed.

Lemma removeEventListener_eq event cb w :
  removeEventListener event cb w
  = (Normal JUndefined,
     on_svc (λ s, set_listeners (alter (remove_first cb) event (listeners s)) s) w).
Proof.
  unfold removeEventListener.
  rewrite (bind_normal get _ w w w eq_refl).
  destruct (listeners (svc w) !! event) as [old|] eqn:E.
  - rewrite bool_decide_eq_true_2 by eauto. reflexivity.
  - rewrite bool_decide_eq_false_2 by (by intros [? ?]).
    unfold modify, mbind, M_bind, mret, M_ret, on_svc; simpl.
    rewrite (alter_id' _ _ event); [by destruct w as [[] ?]|done].
Qed.

Lemma remove_first_app_new cb (l : list callback) :
  remove_first cb (l ++ [cb])
  = if bool_decide (cb ∈ l) then remove_first cb l ++ [cb] else l.
Proof.
  induction l as [|c rest IH]; simpl.
  - by rewrite decide_True.
  - destruct (decide (c = cb)) as [->|N].
    + rewrite bool_decide_eq_true_2 by left. done.
    + rewrite IH. destruct (decide (cb ∈ rest)) as [I|I].
      * rewrite !bool_decide_eq_true_2; [done| by right | done].
      * rewrite !bool_decide_eq_false_2; [done| |done].
        intros [?|?]%elem_of_cons; congruence.
Qed.

(** C4.  Dispatching [event] with [data] calls each callback registered
    under [event] exactly once per registration, in registration order and
    with that payload, whether or not any of them throws; the dispatch
    itself completes normally, so nothing propagates to its caller, and it
    leaves the service untouched. *)
Theorem dispatch_calls_each_listener_in_order
    (host : Host) (event : string) (callbacks : list callback) (data : JsVal)
    (w : World) :
  listeners (svc w) !! event = Some callbacks →
  ∃ w',
    notifyListeners host event data w = (Normal tt, w')
    ∧ svc w' = svc w
    ∧ calls (trace (browser w'))
      = calls (trace (browser w)) ++ imap (λ i cb, (event, i, cb, data)) callbacks.
Proof.
  intros E.
  destruct (notifyListeners_logged host event data w) as (tr & Eq & C).
  exists (logged tr w). split; [done|]. split; [done|].
  rewrite E in C. cbn [default] in C.
  change (trace (browser (logged tr w))) with (trace (browser w) ++ tr).
  by rewrite calls_app, C, expected_calls_imap.
Qed.


Lemma dispatch_survives_throwing_listener :
  ∃ w',
    notifyListeners (page first_throws) "kanban_update" JNull two_listeners
    = (Normal tt, w')
    ∧ svc w' = svc two_listeners
    ∧ calls (trace (browser w'))
      = calls (trace (browser two_listeners))
        ++ imap (λ i cb, ("kanban_update", i, cb, JNull)) [1; 2].
Proof.
  apply (dispatch_calls_each_listener_in_order
           (page first_throws) "kanban_update" [1; 2] JNull two_listeners).
  reflexivity.
Defined.

(** Registering a callback that is already registered does change the
    state, and one dispatch then calls it twice. *)
Lemma duplicate_registration_is_kept :
  registered_twice ≠ registered_once
  ∧ calls (trace (browser (snd (notifyListeners (page nothing_throws)
                                  "kanban_update" JNull registered_twice))))
    = [("kanban_update", 0, 7, JNull); ("kanban_update", 1, 7, JNull)].
Proof.
  split; [|reflexivity].
  intros E. apply (f_equal (λ w, listeners (svc w) !! "kanban_update")) in E.
  vm_compute in E. discriminate E.
Qed.

(** C6, as the code has it.  [addEventListener] does not look for the
    callback before it appends: a second registration of the same callback
    under the same name adds a second entry after the first, the state after
    it differs from the state after the first registration, and a dispatch
    calls the callback once for each entry. *)
Theorem second_registration_appends_again
    (host : Host) (event : string) (cb : callback) (data : JsVal) (w : World) :
  let old := default [] (listeners (svc w) !! event) in
  let w1 := snd (addEventListener event cb w) in
  let w2 := snd (addEventListener event cb w1) in
  listeners (svc w1) !! event = Some (old ++ [cb])
  ∧ listeners (svc w2) !! event = Some (old ++ [cb; cb])
  ∧ w2 ≠ w1
  ∧ calls (trace (browser (snd (notifyListeners host event data w2))))
    = calls (trace (browser w))
      ++ imap (λ i c, (event, i, c, data)) (old ++ [cb; cb]).
Proof.
  intros old w1 w2.
  assert (L1 : listeners (svc w1) !! event = Some (old ++ [cb])).
  { unfold w1. rewrite addEventListener_eq. simpl. by rewrite lookup_insert_eq. }
  assert (L2 : listeners (svc w2) !! event = Some (old ++ [cb; cb])).
  { unfold w2. rewrite addEventListener_eq. simpl.
    rewrite lookup_insert_eq, L1. simpl. by rewrite <- app_assoc. }
  split; [done|]. split; [done|]. split.
  - intros E. rewrite E, L1 in L2. injection L2 as L2.
    apply (f_equal length) in L2. rewrite !length_app in L2. simpl in L2. lia.
  - destruct (notifyListeners_logged host event data w2) as (tr & E & C).
    rewrite E. cbn [snd]. rewrite L2 in C. cbn [default] in C.
    change (trace (browser (logged tr w2))) with (trace (browser w2) ++ tr).
    rewrite calls_app, C, expected_calls_imap. f_equal.
    unfold w2, w1. by rewrite !addEventListener_eq.
Qed.

(** What [addEventListener] returns is not a function. *)
Lemma addEventListener_returns_no_handle :
  ¬ ∃ handle,
      fst (addEventListener "kanban_update" 7 initial) = Normal handle
      ∧ is_function handle = true.
Proof.
  intros (handle & E & F). vm_compute in E. injection E as <-. discriminate F.
Qed.

(** C7, as the code has it.  [addEventListener] puts the callback at the
    end of the collection of that name (created empty when the name is
    new), changes nothing else, and returns [undefined].  A registration is
    taken back with [removeEventListener], which removes the first entry of
    that callback: after it the collection is the old one when the callback
    was not registered before, and otherwise the old one without its first
    entry of the callback and with the new entry at the end. *)
Theorem addEventListener_appends_and_returns_undefined
    (event : string) (cb : callback) (w : World) :
  let old := default [] (listeners (svc w) !! event) in
  ∃ w1 w2,
    addEventListener event cb w = (Normal JUndefined, w1)
    ∧ listeners (svc w1) = <[event := old ++ [cb]]> (listeners (svc w))
    ∧ browser w1 = browser w
    ∧ websocket (svc w1) = websocket (svc w)
    ∧ reconnectAttempts (svc w1) = reconnectAttempts (svc w)
    ∧ isConnecting (svc w1) = isConnecting (svc w)
    ∧ heartbeatInterval (svc w1) = heartbeatInterval (svc w)
    ∧ removeEventListener event cb w1 = (Normal JUndefined, w2)
    ∧ listeners (svc w2)
      = <[event := if bool_decide (cb ∈ old) then remove_first cb old ++ [cb] else old]>
          (listeners (svc w)).
Proof.
  intros old. rewrite addEventListener_eq. eexists. eexists.
  split; [reflexivity|]. repeat (split; [reflexivity|]).
  rewrite removeEventListener_eq. split; [reflexivity|]. simpl.
  rewrite (alter_as_insert _ _ (old ++ [cb])) by apply lookup_insert_eq.
  by rewrite insert_insert_eq, remove_first_app_new.
Qed.

End ListenerBus.

(** ** Connection life cycle *)

Module Lifecycle.
Import WS ListenerBus.

Ltac run_handler :=
  unfold connect, disconnect, onopen, onclose, onerror, scheduleReconnect,
    startHeartbeat, stopHeartbeat, heartbeat_tick, close_socket, set_readyState,
    setTimeout, setInterval, clearInterval, console_log, console_error, emit,
    modify, get, throw, try_catch, mbind, M_bind, mret, M_ret,
    on_svc, on_browser; cbn.

Lemma client_state_connecting w :
  client_state w = Connecting ↔ isConnecting (svc w) = true.
Proof.
  unfold client_state. destruct (isConnecting (svc w)); [done|].
  destruct (websocket_open w); [done|]. by destruct (reconnect_pending w).
Qed.

Lemma client_state_connected w :
  client_state w = Connected ↔ isConnecting (svc w) = false ∧ websocket_open w = true.
Proof.
  unfold client_state. destruct (isConnecting (svc w)); [by intuition|].
  destruct (websocket_open w); [done|]. destruct (reconnect_pending w); by intuition.
Qed.

(** [connect] returns at its guard when [isConnecting] is set or the
    current socket is open: the whole world is what it was. *)
Lemma connect_returns_at_its_guard (host : Host) (token : string) (w : World) :
  isConnecting (svc w) = true ∨ websocket_open w = true →
  connect host token w = (Normal tt, w)
  ∧ step host (CallConnect token) w = Some w.
Proof.
  intros H.
  assert (G : isConnecting (svc w) || websocket_open w = true).
  { destruct H as [->| ->]; [done|apply orb_true_r]. }
  assert (E : connect host token w = (Normal tt, w)).
  { unfold connect. rewrite (bind_normal get _ w w w eq_refl). by rewrite G. }
  split; [done|]. cbn [step]. by rewrite E.
Qed.

(** The close handler of any socket that is not closed yet clears
    [isConnecting], whichever socket the service holds; the other sockets
    and the reference to the current one are left as they are. *)
Lemma any_close_clears_isConnecting
    (host : Host) (w : World) (r : nat) (sock : Socket) (code : Z) :
  sockets (browser w) !! r = Some sock →
  readyState sock ≠ CLOSED →
  ∃ w',
    step host (SocketClosed r code) w = Some w'
    ∧ isConnecting (svc w') = false
    ∧ websocket (svc w') = websocket (svc w)
    ∧ ∀ r', r' ≠ r → sockets (browser w') !! r' = sockets (browser w) !! r'.
Proof.
  intros E Live.
  destruct w as [[ws ra ic ls hb] [socks tos ints nt sh tr]]. cbn in E.
  cbn [step browser sockets]. rewrite E. cbn [mbind option_bind].
  rewrite decide_False by done.
  eexists. split; [reflexivity|].
  run_handler.
  destruct hb as [[|i]|]; cbn;
    destruct (negb (code =? 1000)%Z && (ra <? maxReconnectAttempts)%Z); cbn;
    (split; [done|]); (split; [done|]);
    intros r' N; by rewrite list_lookup_alter_ne.
Qed.

(** With the flag clear, a socket that is still being opened does not
    stop [connect]: the guard tests the current socket for OPEN only.  A
    second socket is created and becomes the current one; the first stays
    as it is, with its handlers attached. *)
Lemma connect_ignores_a_connecting_socket (host : Host) (token : string) (w : World) :
  isConnecting (svc w) = false →
  websocket_connecting w = true →
  ws_url_ok host (wsUrl host token) = true →
  ∃ w',
    connect host token w = (Normal tt, w')
    ∧ sockets (browser w')
      = sockets (browser w) ++ [mkSocket (wsUrl host token) token CONNECTING]
    ∧ websocket (svc w') = Some (length (sockets (browser w)))
    ∧ websocket (svc w') ≠ websocket (svc w).
Proof.
  intros IC C U.
  assert (O : websocket_open w = false).
  { unfold websocket_connecting in C. unfold websocket_open.
    destruct (websocket (svc w)) as [r|]; [|done].
    destruct (sockets (browser w) !! r) as [sock|]; [|done].
    apply bool_decide_eq_true_1 in C. apply bool_decide_eq_false_2. by rewrite C. }
  assert (L : ∀ r, websocket (svc w) = Some r → r < length (sockets (browser w))).
  { intros r W. unfold websocket_connecting in C. rewrite W in C.
    destruct (sockets (browser w) !! r) as [sock|] eqn:E; [|done].
    by apply lookup_lt_Some in E. }
  unfold connect.
  rewrite (bind_normal get _ w w w eq_refl), IC, O. cbn [orb].
  unfold new_WebSocket, try_catch, modify, mbind, M_bind. cbn. rewrite U.
  eexists. split; [reflexivity|]. cbn. split; [done|]. split; [done|].
  intros W. symmetry in W. apply L in W. lia.
Qed.

(** C8 fails on the code.  The user logs out and in again: [disconnect]
    closes socket 0 and [connect] starts opening socket 1.  The close event
    of socket 0 then arrives, and its handler clears [isConnecting], the one
    flag all sockets share.  The client is still CONNECTING, socket 1 is
    being opened, but a [connect] now passes the guard, which tests the
    flag and an OPEN socket only: a second transport is opened, socket 1 is
    left behind, still connecting, and the state of the client has changed. *)
Theorem connect_while_connecting_opens_a_second_socket :
  ∃ w w',
    run (page nothing_throws) old_close_during_login initial = Some w
    ∧ websocket (svc w) = Some 1
    ∧ (readyState <$> sockets (browser w)) = [CLOSED; CONNECTING]
    ∧ websocket_connecting w = true
    ∧ isConnecting (svc w) = false
    ∧ step (page nothing_throws) (CallConnect "token3") w = Some w'
    ∧ websocket (svc w') = Some 2
    ∧ (readyState <$> sockets (browser w')) = [CLOSED; CONNECTING; CONNECTING]
    ∧ (sock_token <$> sockets (browser w')) = ["token"; "token2"; "token3"]
    ∧ w' ≠ w.
Proof.
  eexists. eexists. split; [vm_compute; reflexivity|].
  repeat split; try (vm_compute; reflexivity).
  intros E. apply (f_equal (λ x, length (sockets (browser x)))) in E.
  vm_compute in E. discriminate E.
Qed.


(** *** Giving up is stable *)

Lemma reconnect_pending_false w :
  Forall (λ t, is_reconnect t = false) (timeouts (browser w)) →
  reconnect_pending w = false.
Proof.
  unfold reconnect_pending. induction 1 as [|t ts Ht _ IH]; simpl; [done|].
  by rewrite Ht, IH.
Qed.

Lemma dead_not_open r (socks : list Socket) :
  Forall (λ sock, dead sock = true) socks →
  match socks !! r with
  | Some sock => bool_decide (readyState sock = OPEN)
  | None => false
  end = false.
Proof.
  intros F. destruct (socks !! r) as [sock|] eqn:E; [|done].
  apply (Forall_lookup_1 _ _ _ _ F) in E.
  apply bool_decide_eq_false_2. intros O. unfold dead in E. by rewrite O in E.
Qed.

Lemma given_up_disconnected w : given_up w → client_state w = Disconnected.
Proof.
  intros (IC & _ & D & T). unfold client_state. rewrite IC.
  rewrite (reconnect_pending_false _ T).
  unfold websocket_open. destruct (websocket (svc w)) as [r|]; [|done].
  by rewrite (dead_not_open r _ D).
Qed.

Lemma Forall_dead_alter (f : Socket → Socket) r (socks : list Socket) :
  (∀ sock, dead sock = true → dead (f sock) = true) →
  Forall (λ sock, dead sock = true) socks →
  Forall (λ sock, dead sock = true) (alter f r socks).
Proof.
  intros Hf F. revert r.
  induction F as [|sock rest Hs F' IH]; intros [|r]; cbn.
  - constructor.
  - constructor.
  - constructor; [by apply Hf|done].
  - constructor; [done|apply IH].
Qed.

Lemma Forall_filter_keep {A} (P : A → Prop) (Q : A → Prop) `{∀ x, Decision (Q x)}
    (l : list A) :
  Forall P l → Forall P (filter Q l).
Proof.
  induction 1 as [|x rest Hx _ IH]; [constructor|].
  rewrite filter_cons. destruct (decide (Q x)); [by constructor|done].
Qed.

Lemma find_timeout_In id ts t : find_timeout id ts = Some t → t ∈ ts.
Proof.
  unfold find_timeout. destruct (list_find _ ts) as [[i t']|] eqn:E; [|done].
  simpl. intros [= ->]. apply list_find_Some in E as (E & _ & _).
  by apply list_elem_of_lookup_2 in E.
Qed.

Lemma given_up_step host e w w' :
  is_connect_call e = false → given_up w → step host e w = Some w' →
  given_up w' ∧ length (sockets (browser w')) = length (sockets (browser w)).
Proof.
  intros NC (IC & RA & D & T) St.
  destruct w as [[ws ra ic ls hb] [socks tos ints nt sh tr]].
  cbn in IC, RA, D, T. subst ic.
  destruct e as [token| |name cb|name cb|r|r data|r code|r|id|id|n];
    try discriminate NC; cbn [step] in St.
  - (* disconnect *)
    injection St as <-. unfold given_up. revert D.
    run_handler. intros D.
    destruct hb as [[|i]|]; destruct ws as [r|]; cbn;
      rewrite ?length_alter; repeat split; try done; try lia;
      apply Forall_dead_alter; try done;
      intros [u t []]; by cbn.
  - (* addEventListener *)
    injection St as <-. rewrite addEventListener_eq. by cbn.
  - (* removeEventListener *)
    injection St as <-. rewrite removeEventListener_eq. by cbn.
  - (* open *)
    cbn in St. destruct (socks !! r) as [sock|] eqn:E; [|done]. cbn in St.
    apply (Forall_lookup_1 _ _ _ _ D) in E. unfold dead in E.
    destruct (decide (readyState sock = CONNECTING)) as [C|C]; [|done].
    by rewrite C in E.
  - (* message *)
    cbn in St. destruct (socks !! r) as [sock|] eqn:E; [|done]. cbn in St.
    apply (Forall_lookup_1 _ _ _ _ D) in E. unfold dead in E.
    destruct (decide (readyState sock = OPEN)) as [C|C]; [|done].
    by rewrite C in E.
  - (* close *)
    cbn in St. destruct (socks !! r) as [sock|] eqn:E; [|done]. cbn in St.
    destruct (decide (readyState sock = CLOSED)) as [C|C]; [done|].
    injection St as <-. unfold given_up. revert RA D T.
    run_handler. intros RA D T.
    assert (L : (ra <? maxReconnectAttempts)%Z = false) by (apply Z.ltb_ge; lia).
    destruct hb as [[|i]|]; cbn; rewrite L, andb_false_r; cbn;
      rewrite ?length_alter; repeat split; try done;
      by apply Forall_dead_alter.
  - (* error *)
    cbn in St. destruct (socks !! r) as [sock|] eqn:E; [|done]. cbn in St.
    destruct (decide (readyState sock = CLOSED)) as [C|C]; [done|].
    injection St as <-. by cbn.
  - (* timeout *)
    change (timeouts (browser _)) with tos in St at 1.
    destruct (find_timeout id tos) as [t|] eqn:E; [|done]. cbn in St.
    injection St as <-.
    apply find_timeout_In in E.
    pose proof (proj1 (Forall_forall _ _) T t E) as R.
    destruct t as [tid delay [token|n]]; [discriminate R|].
    unfold given_up. cbn. repeat split; try done.
    by apply Forall_filter_keep.
  - (* interval *)
    destruct (decide (id ∈ intervals _)); [|done]. injection St as <-.
    unfold heartbeat_tick. rewrite (bind_normal get _ _ _ _ eq_refl).
    assert (O : websocket_open
                  {| svc := mkService ws ra false ls hb;
                     browser := mkBrowser socks tos ints nt sh tr |} = false).
    { unfold websocket_open. cbn. destruct ws as [r|]; [|done].
      by rewrite (dead_not_open r _ D). }
    rewrite O. by cbn.
  - (* notification click *)
    cbn in St. destruct (sh !! n) as [data|] eqn:E; [|done]. cbn in St.
    injection St as <-. unfold onclick.
    rewrite (bind_normal (emit WindowFocus) _ _ tt _ eq_refl).
    set (w0 := on_browser _ _).
    destruct (notifyListeners_logged host "notification_click" data w0)
      as (tr' & Eq & _).
    rewrite (bind_normal _ _ _ _ _ Eq). by cbn.
Qed.


Lemma given_up_run host events : ∀ w w',
  forallb (λ e, negb (is_connect_call e)) events = true →
  given_up w → run host events w = Some w' →
  given_up w' ∧ length (sockets (browser w')) = length (sockets (browser w)).
Proof.
  induction events as [|e rest IH]; intros w w' NC G R; cbn in R.
  - by injection R as <-.
  - cbn in NC. apply andb_true_iff in NC as [NC1 NC2].
    apply negb_true_iff in NC1.
    destruct (step host e w) as [w1|] eqn:St; [|done]. cbn in R.
    destruct (given_up_step host e w w1 NC1 G St) as [G1 L1].
    destruct (IH w1 w' NC2 G1 R) as [G2 L2]. split; [done|]. by rewrite L2.
Qed.

Lemma closed_last_alive r (socks : list Socket) sock :
  socks !! r = Some sock →
  (∀ r' sock', r' ≠ r → socks !! r' = Some sock' → dead sock' = true) →
  Forall (λ s, dead s = true)
    (alter (λ s, mkSocket (sock_url s) (sock_token s) CLOSED) r socks).
Proof.
  intros E O. apply Forall_lookup. intros i x L.
  destruct (decide (i = r)) as [->|N].
  - rewrite list_lookup_alter_eq, E in L. by injection L as <-.
  - rewrite list_lookup_alter_ne in L by done. by apply (O i).
Qed.

(** C1.  Let the client's current socket close with a code other than
    1000.  No socket is opened by the close itself.  While the attempt
    counter is below the maximum of 5, the counter goes up by one, exactly
    one timer is added to the pending ones, it runs [connect] with the token
    of the lost connection after 2000 ms times the new counter (2 s, 4 s,
    6 s, 8 s, 10 s for attempts 1 to 5), and the client waits in
    RECONNECT_SCHEDULED.  Once the counter has reached 5, no timer is added
    and the counter stays; if nothing else is in flight the client is
    DISCONNECTED and stays so, without opening a socket, through every
    sequence of events that contains no explicit call of [connect]. *)
Theorem abnormal_close_backs_off_then_gives_up
    (host : Host) (w : World) (r : nat) (sock : Socket) (code : Z) :
  websocket (svc w) = Some r →
  sockets (browser w) !! r = Some sock →
  readyState sock ≠ CLOSED →
  code ≠ 1000%Z →
  ∃ w',
    step host (SocketClosed r code) w = Some w'
    ∧ length (sockets (browser w')) = length (sockets (browser w))
    ∧ ((reconnectAttempts (svc w) < maxReconnectAttempts)%Z →
         reconnectAttempts (svc w') = (reconnectAttempts (svc w) + 1)%Z
         ∧ timeouts (browser w')
           = timeouts (browser w)
             ++ [mkTimeout (next_timer (browser w))
                   (2000 * (reconnectAttempts (svc w) + 1))
                   (RunConnect (sock_token sock))]
         ∧ client_state w' = ReconnectScheduled)
    ∧ ((maxReconnectAttempts ≤ reconnectAttempts (svc w))%Z →
         reconnectAttempts (svc w') = reconnectAttempts (svc w)
         ∧ timeouts (browser w') = timeouts (browser w)
         ∧ (last_alive r w →
            ∀ events w'',
              forallb (λ e, negb (is_connect_call e)) events = true →
              run host events w' = Some w'' →
              client_state w'' = Disconnected
              ∧ length (sockets (browser w'')) = length (sockets (browser w)))).
Proof.
  intros W E Live Code.
  destruct w as [[ws ra ic ls hb] [socks tos ints nt sh tr]].
  cbn in W, E. subst ws.
  assert (C : (code =? 1000)%Z = false) by by apply Z.eqb_neq.
  cbn [step]. cbn [browser sockets]. rewrite E. cbn [mbind option_bind].
  destruct (decide (readyState sock = CLOSED)) as [?|_]; [done|].
  eexists. split; [reflexivity|].
  destruct (ra <? maxReconnectAttempts)%Z eqn:L.
  - apply Z.ltb_lt in L.
    assert (X : ∀ hb',
      let w' := snd ((set_readyState r CLOSED;; onclose (sock_token sock) code)
                       {| svc := mkService (Some r) ra ic ls hb';
                          browser := mkBrowser socks tos ints nt sh tr |}) in
      length (sockets (browser w')) = length socks
      ∧ reconnectAttempts (svc w') = (ra + 1)%Z
      ∧ timeouts (browser w')
        = tos ++ [mkTimeout nt (2000 * (ra + 1)) (RunConnect (sock_token sock))]
      ∧ client_state w' = ReconnectScheduled).
    { intros hb'. run_handler. apply Z.ltb_lt in L.
      destruct hb' as [[|i]|]; cbn; rewrite C, L; cbn;
        rewrite length_alter; repeat split; try done;
        unfold client_state, websocket_open, reconnect_pending; cbn;
        rewrite list_lookup_alter_eq, E; cbn;
        by rewrite existsb_app, orb_true_r. }
    destruct (X hb) as (X1 & X2 & X3 & X4).
    split; [exact X1|]. split; [by intros _|]. intros G. cbn in G. lia.
  - apply Z.ltb_ge in L.
    assert (X : ∀ hb',
      let w' := snd ((set_readyState r CLOSED;; onclose (sock_token sock) code)
                       {| svc := mkService (Some r) ra ic ls hb';
                          browser := mkBrowser socks tos ints nt sh tr |}) in
      length (sockets (browser w')) = length socks
      ∧ reconnectAttempts (svc w') = ra
      ∧ timeouts (browser w') = tos
      ∧ isConnecting (svc w') = false
      ∧ sockets (browser w')
        = alter (λ s, mkSocket (sock_url s) (sock_token s) CLOSED) r socks).
    { intros hb'. run_handler. apply Z.ltb_ge in L.
      destruct hb' as [[|i]|]; cbn; rewrite L, andb_false_r; cbn;
        by rewrite length_alter. }
    destruct (X hb) as (X1 & X2 & X3 & X4 & X5).
    split; [exact X1|]. split; [intros G; cbn in G; lia|]. intros _.
    split; [exact X2|]. split; [exact X3|].
    intros [O T] events w'' NC R. cbn in O, T.
    match type of R with run _ _ ?x = _ => set (w1 := x) in * end.
    assert (G : given_up w1).
    { unfold given_up. rewrite X2, X3, X4, X5. repeat split; try done.
      by apply (closed_last_alive r socks sock). }
    destruct (given_up_run host events w1 w'' NC G R) as [G' L'].
    split; [by apply given_up_disconnected|]. by rewrite L', X1.
Qed.


Lemma first_retry_after_two_seconds :
  (∃ w',
     step (page nothing_throws) (SocketClosed 0 1006) connected = Some w'
     ∧ reconnectAttempts (svc w') = 1%Z
     ∧ timeouts (browser w') = [mkTimeout 2 2000 (RunConnect "token")]
     ∧ client_state w' = ReconnectScheduled)
  ∧ (∃ w' w'',
       step (page nothing_throws) (SocketClosed 5 1006) fifth_retry_connecting = Some w'
       ∧ reconnectAttempts (svc w') = 5%Z
       ∧ timeouts (browser w') = []
       ∧ run (page nothing_throws)
           [CallAddEventListener "kanban_update" 1; CallDisconnect;
            CallRemoveEventListener "kanban_update" 1] w' = Some w''
       ∧ client_state w'' = Disconnected
       ∧ length (sockets (browser w'')) = 6).
Proof.
  split.
  - destruct (abnormal_close_backs_off_then_gives_up (page nothing_throws) connected 0
                (mkSocket "ws://127.0.0.1:8000/ws/notifications?token=token" "token" OPEN)
                1006)
      as (w' & St & _ & Below & _); [reflexivity|reflexivity|done|done|].
    exists w'. split; [exact St|]. apply Below. reflexivity.
  - assert (Last : last_alive 5 fifth_retry_connecting).
    { split; [|vm_compute; constructor].
      intros r' sock' N L.
      assert (S : readyState <$> sockets (browser fifth_retry_connecting)
                  = [CLOSED; CLOSED; CLOSED; CLOSED; CLOSED; CONNECTING])
        by (vm_compute; reflexivity).
      apply (f_equal (fmap readyState)) in L.
      rewrite <- list_lookup_fmap, S in L. unfold dead. clear S.
      do 5 (destruct r' as [|r']; [injection L as <-; reflexivity|]).
      destruct r' as [|r']; [by destruct N|discriminate L]. }
    destruct (abnormal_close_backs_off_then_gives_up (page nothing_throws)
                fifth_retry_connecting 5
                (mkSocket "ws://127.0.0.1:8000/ws/notifications?token=token" "token"
                   CONNECTING)
                1006)
      as (w' & St & _ & _ & Spent);
      [vm_compute; reflexivity|vm_compute; reflexivity|discriminate|discriminate|].
    destruct Spent as (A & T & Stay); [vm_compute; discriminate|].
    assert (R : is_Some (run (page nothing_throws)
                           [CallAddEventListener "kanban_update" 1; CallDisconnect;
                            CallRemoveEventListener "kanban_update" 1] w')).
    { eexists. reflexivity. }
    destruct R as [w'' R]. exists w', w''.
    split; [exact St|].
    split; [rewrite A; vm_compute; reflexivity|].
    split; [rewrite T; vm_compute; reflexivity|].
    split; [exact R|].
    destruct (Stay Last
                [CallAddEventListener "kanban_update" 1; CallDisconnect;
                 CallRemoveEventListener "kanban_update" 1] w'' eq_refl R)
      as [D Len].
    split; [exact D|]. rewrite Len. vm_compute. reflexivity.
Defined.

(** The whole backoff: a lost connection whose retries all fail.  After
    the loss and after each failed retry one reconnect timer is pending,
    with delays 2000, 4000, 6000, 8000 and 10000 ms; after the fifth failed
    retry none is, the counter is 5 and the client is disconnected. *)
Lemma five_failed_retries :
  (λ n, timeouts ∘ browser <$> run (page nothing_throws) (failures n) initial)
    <$> [0; 1; 2; 3; 4; 5]
  = [Some [mkTimeout 2 2000 (RunConnect "token")];
     Some [mkTimeout 3 4000 (RunConnect "token")];
     Some [mkTimeout 4 6000 (RunConnect "token")];
     Some [mkTimeout 5 8000 (RunConnect "token")];
     Some [mkTimeout 6 10000 (RunConnect "token")];
     Some []]
  ∧ (λ w, (client_state w, reconnectAttempts (svc w), length (sockets (browser w))))
      <$> run (page nothing_throws) (failures 5) initial
    = Some (Disconnected, 5%Z, 6).
Proof. split; vm_compute; reflexivity. Qed.

(** *** Logging out during the backoff *)

(** [disconnect] never touches the pending timers. *)
Lemma disconnect_keeps_timeouts w :
  timeouts (browser (snd (disconnect w))) = timeouts (browser w).
Proof.
  destruct w as [[ws ra ic ls hb] [socks tos ints nt sh tr]].
  run_handler. by destruct hb as [[|i]|]; destruct ws as [r|].
Qed.

(** So a retry that is pending when [disconnect] is called still fires,
    and then opens a socket: [connect] does not look at the counter. *)
Lemma pending_retry_fires_after_disconnect host w id t token :
  isConnecting (svc w) = false →
  find_timeout id (timeouts (browser w)) = Some t →
  timeout_action t = RunConnect token →
  ws_url_ok host (wsUrl host token) = true →
  ∃ w',
    step host (TimeoutFired id) (snd (disconnect w)) = Some w'
    ∧ client_state w' = Connecting
    ∧ length (sockets (browser w')) = S (length (sockets (browser w))).
Proof.
  intros IC F A U. cbn [step].
  rewrite disconnect_keeps_timeouts, F. cbn [mbind option_bind]. rewrite A.
  eexists. split; [reflexivity|].
  destruct w as [[ws ra ic ls hb] [socks tos ints nt sh tr]]. cbn in IC. subst ic.
  unfold run_timer, connect, new_WebSocket.
  set (url := wsUrl host token) in *. clearbody url.
  run_handler. unfold websocket_open.
  destruct hb as [[|i]|]; destruct ws as [r|]; cbn; rewrite U; cbn;
    rewrite length_app, ?length_alter; cbn; split; try done; lia.
Qed.

(** C2 fails on the code.  The connection is lost, the first retry is
    scheduled, and the user logs out before it fires.  [disconnect] sets the
    counter to 5 and drops the socket, but the retry timer is still pending;
    when it fires, [connect] runs, which looks at [isConnecting] and at the
    socket only: a second socket is opened and the client is CONNECTING. *)
Theorem retry_timer_survives_disconnect :
  ∃ w w',
    run (page nothing_throws) logout_during_backoff initial = Some w
    ∧ websocket (svc w) = None
    ∧ reconnectAttempts (svc w) = maxReconnectAttempts
    ∧ timeouts (browser w) = [mkTimeout 2 2000 (RunConnect "token")]
    ∧ length (sockets (browser w)) = 1
    ∧ step (page nothing_throws) (TimeoutFired 2) w = Some w'
    ∧ client_state w' = Connecting
    ∧ websocket (svc w') = Some 1
    ∧ (readyState <$> sockets (browser w')) = [CLOSED; CONNECTING].
Proof.
  eexists. eexists. split; [vm_compute; reflexivity|].
  repeat split; vm_compute; reflexivity.
Qed.

End Lifecycle.

(** ** Incoming frames *)

Module Messages.
Import WS ListenerBus.

Section Handling.
Context (host : Host).

(** A dispatch, seen from the code that follows it. *)
Lemma notifyListeners_then {B} name data (k : unit → M B) w :
  ∃ tr,
    (notifyListeners host name data ≫= k) w = k tt (logged tr w)
    ∧ calls tr = dispatch_calls w name data.
Proof.
  destruct (notifyListeners_logged host name data w) as (tr & E & C).
  exists tr. split; [by rewrite (bind_normal _ _ _ _ _ E)|].
  by rewrite C, expected_calls_imap.
Qed.

(** The browser notification calls no listener and leaves the service
    as it was, however it ends. *)
Lemma showAssignmentNotification_calls data w :
  ∃ c w',
    showAssignmentNotification host data w = (c, w')
    ∧ svc w' = svc w
    ∧ calls (trace (browser w')) = calls (trace (browser w)).
Proof.
  destruct w as [s [socks tos ints nt sh tr]].
  unfold showAssignmentNotification, playNotificationSound, lift, setTimeout,
    console_log, emit, modify, get, throw, try_catch, mbind, M_bind, mret, M_ret,
    on_svc, on_browser.
  destruct (notification_permission host) as [p|]; [|by eexists _, _].
  destruct (bool_decide (p = "granted")).
  - destruct (get_prop data "message"); [|by eexists _, _].
    destruct (get_prop data "issue") as [issue|]; [|by eexists _, _].
    destruct (get_prop issue "id"); [|by eexists _, _].
    destruct (audio_ok host); cbn; eexists _, _; (split; [reflexivity|]);
      (split; [done|]); cbn; rewrite !calls_app; cbn; by rewrite !app_nil_r.
  - destruct (audio_ok host); cbn; eexists _, _; (split; [reflexivity|]);
      (split; [done|]); cbn; rewrite !calls_app; cbn; by rewrite !app_nil_r.
Qed.

Lemma calls_logged tr w :
  calls (trace (browser (logged tr w))) = calls (trace (browser w)) ++ calls tr.
Proof. apply calls_app. Qed.

(** C3, as the code has it.  A structured message whose [type] is
    [notification] is dispatched to the listeners of [notification], and
    then, when [data.event_type] is [issue_assigned] or [kanban_update] (in
    lower case: these two are the cases of the [switch]), to the listeners of
    that name with the same payload; any other [event_type], the upper-case
    names of the wire protocol included, gets the generic dispatch only.  A
    message with another [type] is logged and dropped: no listener is called
    and nothing is thrown.  The service fields are never changed. *)
Theorem handleMessage_dispatches_lower_case_subtypes
    (fields : list (string * JsVal)) (w : World) :
  let type := lookup_field "type" fields in
  let data := lookup_field "data" fields in
  ∃ c w',
    handleMessage host (JObj fields) w = (c, w')
    ∧ svc w' = svc w
    ∧ if strict_eq_str type "notification" then
        calls (trace (browser w'))
        = calls (trace (browser w))
          ++ dispatch_calls w "notification" data
          ++ match dispatched_subtype data with
             | Some name => dispatch_calls w name data
             | None => []
             end
      else
        c = Normal tt
        ∧ w' = logged [ConsoleLog "WebSocket: Received message:";
                       ConsoleLog "WebSocket: Unknown message type:"] w.
Proof.
  intros type data. unfold handleMessage.
  set (w0 := logged [ConsoleLog "WebSocket: Received message:"] w).
  rewrite (bind_normal (console_log _) _ w tt w0 eq_refl).
  rewrite (bind_normal (lift (get_prop (JObj fields) "type")) _ w0 type w0 eq_refl).
  rewrite (bind_normal (lift (get_prop (JObj fields) "data")) _ w0 data w0 eq_refl).
  destruct (strict_eq_str type "notification").
  2:{ eexists _, _. split; [reflexivity|]. split; [done|]. split; [done|].
      apply (logged_app [_] [_] w). }
  set (w1 := logged [ConsoleLog "WebSocket: Processing notification:"] w0).
  rewrite (bind_normal (console_log _) _ w0 tt w1 eq_refl).
  destruct (notifyListeners_then "notification" data
              (λ _, event_type ← lift (get_prop data "event_type");
                    if strict_eq_str event_type "issue_assigned" then
                      console_log "WebSocket: Dispatching issue_assigned event";;
                      notifyListeners host "issue_assigned" data;;
                      showAssignmentNotification host data
                    else if strict_eq_str event_type "kanban_update" then
                      console_log "WebSocket: Dispatching kanban_update event";;
                      notifyListeners host "kanban_update" data
                    else console_log "WebSocket: Unknown notification type:") w1)
    as (tr1 & E1 & C1).
  rewrite E1. clear E1. unfold dispatched_subtype.
  change (dispatch_calls w1 "notification" data)
    with (dispatch_calls w "notification" data) in C1.
  set (w2 := logged tr1 w1).
  assert (Base : calls (trace (browser w2))
                 = calls (trace (browser w)) ++ dispatch_calls w "notification" data).
  { unfold w2, w1, w0. rewrite !calls_logged, C1. cbn. by rewrite !app_nil_r. }
  destruct (get_prop data "event_type") as [event_type|e] eqn:ET.
  2:{ eexists _, _. split; [reflexivity|]. split; [done|].
      by rewrite Base, app_nil_r. }
  rewrite (bind_normal (lift (Normal event_type)) _ w2 event_type w2 eq_refl).
  destruct (strict_eq_str event_type "issue_assigned").
  - set (w3 := logged [ConsoleLog "WebSocket: Dispatching issue_assigned event"] w2).
    rewrite (bind_normal (console_log _) _ w2 tt w3 eq_refl).
    destruct (notifyListeners_then "issue_assigned" data
                (λ _, showAssignmentNotification host data) w3) as (tr2 & E2 & C2).
    rewrite E2. clear E2.
    destruct (showAssignmentNotification_calls data (logged tr2 w3))
      as (c & w' & E3 & S3 & C3).
    exists c, w'. split; [exact E3|]. split; [by rewrite S3|].
    rewrite C3. unfold w3. rewrite !calls_logged, C2, Base. cbn.
    by rewrite app_nil_r, <- app_assoc.
  - destruct (strict_eq_str event_type "kanban_update").
    + set (w3 := logged [ConsoleLog "WebSocket: Dispatching kanban_update event"] w2).
      rewrite (bind_normal (console_log _) _ w2 tt w3 eq_refl).
      destruct (notifyListeners_logged host "kanban_update" data w3) as (tr2 & E2 & C2).
      rewrite E2. eexists _, _. split; [reflexivity|]. split; [done|].
      unfold w3. rewrite !calls_logged, C2, expected_calls_imap, Base. cbn.
      by rewrite app_nil_r, <- app_assoc.
    + eexists _, _. split; [reflexivity|]. split; [done|].
      change (calls (trace (browser
                (logged [ConsoleLog "WebSocket: Unknown notification type:"] w2)))
              = calls (trace (browser w)) ++ dispatch_calls w "notification" data ++ []).
      rewrite calls_logged, Base. cbn. by rewrite !app_nil_r.
Qed.

(** C5.  On an open socket, the frame [pong] is taken as the heartbeat
    acknowledgment, and a frame that [JSON.parse] rejects is caught: either
    way [onmessage] completes normally, its only effect is one console line
    (a log for [pong], an error for the unparseable frame), no listener is
    called, and the service, the sockets (the receiving one is still open),
    the timers and the notifications are what they were. *)
Theorem pong_and_unparseable_frames_reach_no_listener
    (r : nat) (sock : Socket) (event_data : frame) (w : World) :
  sockets (browser w) !! r = Some sock →
  readyState sock = OPEN →
  event_data = TextFrame "pong" ∨ JSON_parse host (frame_text event_data) = None →
  let line := if bool_decide (event_data = TextFrame "pong")
              then ConsoleLog "WebSocket: Received pong"
              else ConsoleError "Error parsing WebSocket message:" in
  onmessage host event_data w = (Normal tt, logged [line] w)
  ∧ step host (SocketMessage r event_data) w = Some (logged [line] w)
  ∧ calls (trace (browser (logged [line] w))) = calls (trace (browser w))
  ∧ svc (logged [line] w) = svc w
  ∧ sockets (browser (logged [line] w)) !! r = Some sock
  ∧ timeouts (browser (logged [line] w)) = timeouts (browser w).
Proof.
  intros E O H line.
  assert (X : onmessage host event_data w = (Normal tt, logged [line] w)).
  { unfold onmessage, try_catch, line.
    destruct (bool_decide (event_data = TextFrame "pong")) eqn:P; [done|].
    destruct H as [H|H]; [by rewrite H in P|].
    rewrite H. reflexivity. }
  split; [exact X|]. split.
  - cbn [step]. rewrite E. cbn [mbind option_bind].
    rewrite decide_True by done. by rewrite X.
  - split; [|done]. rewrite calls_logged. unfold line.
    destruct (bool_decide _); cbn; by rewrite app_nil_r.
Qed.

End Handling.

(** The listener of the upper-case name [ISSUE_ASSIGNED] is registered,
    the message carries that [event_type], and only the listener of
    [notification] is called. *)
Lemma upper_case_subtype_is_not_dispatched :
  listeners (svc subscribed_upper_case) !! "ISSUE_ASSIGNED" = Some [7]
  ∧ get_prop issue_assigned_upper_case "data" = Normal upper_case_data
  ∧ get_prop upper_case_data "event_type" = Normal (JStr "ISSUE_ASSIGNED")
  ∧ (λ cw, (fst cw, calls (trace (browser (snd cw)))))
      (handleMessage (page nothing_throws) issue_assigned_upper_case
         subscribed_upper_case)
    = (Normal tt, [("notification", 0, 3, upper_case_data)]).
Proof. repeat split; vm_compute; reflexivity. Qed.

Lemma malformed_frame_is_dropped :
  onmessage (page nothing_throws) (TextFrame "{not json") connected
  = (Normal tt, logged [ConsoleError "Error parsing WebSocket message:"] connected)
  ∧ calls (trace (browser
             (logged [ConsoleError "Error parsing WebSocket message:"] connected)))
    = calls (trace (browser connected))
  ∧ readyState <$> sockets (browser
             (logged [ConsoleError "Error parsing WebSocket message:"] connected)) !! 0
    = Some OPEN.
Proof.
  destruct (pong_and_unparseable_frames_reach_no_listener (page nothing_throws) 0
              (mkSocket "ws://127.0.0.1:8000/ws/notifications?token=token" "token" OPEN)
              (TextFrame "{not json") connected)
    as (X1 & _ & X3 & _ & X5 & _);
    [reflexivity|reflexivity|right; vm_compute; reflexivity|].
  split; [exact X1|]. split; [exact X3|]. cbn in X5 |- *. by rewrite X5.
Defined.

End Messages.

(** ** The board reducer *)

Module Board.
Import Dashboard.

Lemma findIndex_found {A} (p : A → bool) (l : list A) :
  (0 <=? findIndex p l)%Z = existsb p l ∧ (-1 ≤ findIndex p l)%Z.
Proof.
  induction l as [|x rest [IH1 IH2]]; cbn; [done|].
  destruct (p x); cbn; [done|].
  destruct (findIndex p rest <? 0)%Z eqn:N.
  - apply Z.ltb_lt in N. split; [|lia]. rewrite <- IH1. symmetry. apply Z.leb_gt. lia.
  - apply Z.ltb_ge in N. split; [|lia]. rewrite <- IH1.
    transitivity true; [|symmetry]; apply Z.leb_le; lia.
Qed.

Lemma existsb_list_find (target : string) (l : list Issue) :
  existsb (λ i, bool_decide (id i = target)) l
  = bool_decide (is_Some (list_find (λ i, id i = target) l)).
Proof.
  induction l as [|x rest IH]; [done|].
  cbn [existsb]. rewrite IH. csimpl. case_decide as E.
  - by rewrite (bool_decide_eq_true_2 _ E).
  - rewrite (bool_decide_eq_false_2 _ E). cbn [orb].
    apply bool_decide_ext. by rewrite fmap_is_Some.
Qed.

(** With distinct ids the replacement touches one position only. *)
Lemma replace_by_id_insert (new : Issue) (l : list Issue) k old :
  NoDup (id <$> l) →
  list_find (λ i, id i = id new) l = Some (k, old) →
  map (λ i, if bool_decide (id i = id new) then new else i) l = <[k:=new]> l.
Proof.
  revert k. induction l as [|x rest IH]; intros k ND F; [done|].
  rewrite fmap_cons in ND. apply NoDup_cons in ND as [Nx ND].
  csimpl in F. case_decide as E.
  - injection F as <- <-. cbn [map]. rewrite bool_decide_eq_true_2 by done.
    cbn. f_equal.
    rewrite <- (map_id rest) at 2. apply map_ext_in. intros y Hy.
    rewrite bool_decide_eq_false_2; [done|]. intros Ey. apply Nx.
    rewrite E, <- Ey. apply list_elem_of_fmap_2. by apply list_elem_of_In.
  - destruct (list_find _ rest) as [[k' old']|] eqn:F'; [|done].
    cbn in F. injection F as <- <-. cbn [map].
    rewrite bool_decide_eq_false_2 by done. cbn. f_equal. by apply IH.
Qed.

Lemma sublist_ids (l1 l2 : list Issue) :
  l1 `sublist_of` l2 → (id <$> l1) `sublist_of` (id <$> l2).
Proof. induction 1; cbn; by constructor. Qed.

(** C9.  On a list of issues with pairwise distinct ids the reducer of
    [handleKanbanUpdate] gives: for the action [deleted], the issues whose
    id differs from [issue.id], in their old order (nothing else is removed
    and nothing is changed); otherwise, when some issue has the id
    [issue.id], the same list with [issue] written at the position of that
    issue, so with the same length and order; otherwise the list with
    [issue] put in front.  In all three cases the ids of the result are
    pairwise distinct. *)
Theorem handleKanbanUpdate_keeps_ids_distinct
    (data : KanbanUpdate) (prevIssues : list Issue) :
  NoDup (id <$> prevIssues) →
  let result := handleKanbanUpdate data prevIssues in
  NoDup (id <$> result)
  ∧ if bool_decide (action data = "deleted") then
      result `sublist_of` prevIssues
      ∧ ∀ i, i ∈ result ↔ i ∈ prevIssues ∧ id i ≠ id (issue data)
    else
      match list_find (λ i, id i = id (issue data)) prevIssues with
      | Some (k, _) =>
          result = <[k := issue data]> prevIssues
          ∧ length result = length prevIssues
      | None => result = issue data :: prevIssues
      end.
Proof.
  intros ND result. unfold result, handleKanbanUpdate.
  destruct (bool_decide (action data = "deleted")).
  - split; [|split].
    + apply (sublist_NoDup _ _ ND), sublist_ids, sublist_filter.
    + apply sublist_filter.
    + intros i. rewrite list_elem_of_filter. tauto.
  - rewrite (proj1 (findIndex_found _ _)), existsb_list_find.
    destruct (list_find _ prevIssues) as [[k old]|] eqn:F.
    + rewrite bool_decide_eq_true_2 by eauto.
      rewrite (replace_by_id_insert _ _ k old ND F).
      apply list_find_Some in F as (L & I & _).
      split; [|by rewrite length_insert].
      rewrite list_fmap_insert, list_insert_id; [done|].
      by rewrite list_lookup_fmap, L, <- I.
    + rewrite bool_decide_eq_false_2 by (by intros [? ?]).
      split; [|done]. cbn. apply NoDup_cons. split; [|done].
      apply list_find_None in F.
      intros (y & E & Hy)%list_elem_of_fmap.
      by apply (proj1 (Forall_forall _ _) F y Hy).
Qed.


Lemma closing_an_issue_on_the_board :
  NoDup (id <$> sample_board)
  ∧ handleKanbanUpdate (mkKanbanUpdate export_issue_closed "updated") sample_board
    = [login_issue; export_issue_closed]
  ∧ NoDup (id <$> handleKanbanUpdate (mkKanbanUpdate export_issue_closed "updated")
                    sample_board).
Proof.
  assert (ND : NoDup (id <$> sample_board)).
  { exact (bool_decide_unpack (NoDup (id <$> sample_board)) I). }
  split; [exact ND|]. split; [reflexivity|].
  apply (handleKanbanUpdate_keeps_ids_distinct
           (mkKanbanUpdate export_issue_closed "updated") sample_board ND).
Defined.

End Board.

(** ** The notification store *)

Module Store.
Import NotificationService.

Section Listeners.
Context (cb_throws : callback → Snapshot → bool).

Lemma tell_all_fields snap (l : list callback) : ∀ s,
  let s' := foldl (λ s' cb,
                     let s'' := emit (Notified cb snap) s' in
                     if cb_throws cb snap
                     then emit (ConsoleError "Error in notification listener:") s''
                     else s'') s l in
  listeners s' = listeners s
  ∧ notifications s' = notifications s
  ∧ unreadCount s' = unreadCount s.
Proof.
  induction l as [|cb rest IH]; intros s; [done|].
  cbn [foldl]. destruct (cb_throws cb snap).
  - destruct (IH (emit (ConsoleError "Error in notification listener:")
                    (emit (Notified cb snap) s))) as (A & B & C).
    cbn zeta in *. by rewrite A, B, C.
  - destruct (IH (emit (Notified cb snap) s)) as (A & B & C).
    cbn zeta in *. by rewrite A, B, C.
Qed.

(** Telling the listeners changes the trace only. *)
Lemma notifyListeners_fields s :
  listeners (notifyListeners cb_throws s) = listeners s
  ∧ notifications (notifyListeners cb_throws s) = notifications s
  ∧ unreadCount (notifyListeners cb_throws s) = unreadCount s.
Proof. apply tell_all_fields. Qed.

(** C10.  When the request has succeeded, [markAsRead] completes
    normally; every notification keeps its position, the ones whose id is
    [notificationId] get [is_read] set and keep their other fields, all the
    others are unchanged; [unreadCount] goes down by exactly one when it was
    positive and is 0 otherwise, so it is never negative afterwards; the
    registered listeners stay registered. *)
Theorem markAsRead_marks_and_decrements
    (response : JsVal) (notificationId : string) (s : Store) :
  let s' := snd (markAsRead cb_throws (Normal response) notificationId s) in
  fst (markAsRead cb_throws (Normal response) notificationId s) = Normal tt
  ∧ length (notifications s') = length (notifications s)
  ∧ (∀ k, notifications s' !! k
          = (λ notif, if bool_decide (id notif = notificationId)
                      then {| id := id notif; type := type notif; title := title notif;
                              message := message notif; is_read := true;
                              created_at := created_at notif;
                              issue_id := issue_id notif |}
                      else notif) <$> notifications s !! k)
  ∧ unreadCount s' = (if (0 <? unreadCount s)%Z then unreadCount s - 1 else 0)%Z
  ∧ (0 ≤ unreadCount s')%Z
  ∧ listeners s' = listeners s.
Proof.
  intros s'. unfold s', markAsRead. cbn [fst snd].
  destruct (notifyListeners_fields
              {| listeners := listeners s;
                 notifications :=
                   map (λ notif, if bool_decide (id notif = notificationId)
                                 then set_read notif else notif) (notifications s);
                 unreadCount := Z.max 0 (unreadCount s - 1);
                 trace := trace s |}) as (A & B & C).
  rewrite A, B, C. cbn [listeners notifications unreadCount].
  split; [done|]. split; [by rewrite length_map|].
  split; [intros k; apply list_lookup_fmap|].
  split; [|split; [lia|done]].
  destruct (0 <? unreadCount s)%Z eqn:P.
  - apply Z.ltb_lt in P. lia.
  - apply Z.ltb_ge in P. lia.
Qed.

End Listeners.

End Store.

(** ** More on the connection life cycle *)

Module Connection.
Import WS ListenerBus Lifecycle.

(** What [connect] does when nothing stops it. *)
Lemma connect_from_rest (host : Host) (token : string) (w : World) :
  isConnecting (svc w) = false →
  websocket_open w = false →
  ws_url_ok host (wsUrl host token) = true →
  ∃ w',
    connect host token w = (Normal tt, w')
    ∧ sockets (browser w')
      = sockets (browser w)
        ++ [mkSocket (ws_base_url host +:+ "/ws/notifications?token=" +:+ token)
              token CONNECTING]
    ∧ websocket (svc w') = Some (length (sockets (browser w)))
    ∧ client_state w' = Connecting
    ∧ reconnectAttempts (svc w') = reconnectAttempts (svc w)
    ∧ timeouts (browser w') = timeouts (browser w)
    ∧ intervals (browser w') = intervals (browser w)
    ∧ heartbeatInterval (svc w') = heartbeatInterval (svc w)
    ∧ listeners (svc w') = listeners (svc w).
Proof.
  intros IC O U. unfold connect.
  rewrite (bind_normal get _ w w w eq_refl), IC, O. cbn [orb].
  unfold new_WebSocket, try_catch, modify, mbind, M_bind. cbn. rewrite U.
  eexists. split; [reflexivity|]. by cbn.
Qed.

(** X1.  From rest, with a URL the [WebSocket] constructor accepts, [connect]
    creates exactly one socket, for the URL
    [<base>/ws/notifications?token=<token>], makes it the current socket and
    sets [isConnecting]: the client is CONNECTING.  The attempt counter, the
    timers, the heartbeat and the listeners are not touched; in particular
    [connect] does not give the retry budget back. *)
Theorem connect_opens_one_socket (host : Host) (token : string) (w : World) :
  isConnecting (svc w) = false →
  websocket_open w = false →
  ws_url_ok host (wsUrl host token) = true →
  ∃ w',
    connect host token w = (Normal tt, w')
    ∧ sockets (browser w')
      = sockets (browser w)
        ++ [mkSocket (ws_base_url host +:+ "/ws/notifications?token=" +:+ token)
              token CONNECTING]
    ∧ websocket (svc w') = Some (length (sockets (browser w)))
    ∧ client_state w' = Connecting
    ∧ reconnectAttempts (svc w') = reconnectAttempts (svc w)
    ∧ timeouts (browser w') = timeouts (browser w)
    ∧ intervals (browser w') = intervals (browser w)
    ∧ heartbeatInterval (svc w') = heartbeatInterval (svc w)
    ∧ listeners (svc w') = listeners (svc w).
Proof. apply connect_from_rest. Qed.

Lemma first_connect_opens_socket_0 :
  ∃ w',
    connect (page nothing_throws) "token" initial = (Normal tt, w')
    ∧ sockets (browser w')
      = [mkSocket "ws://127.0.0.1:8000/ws/notifications?token=token" "token" CONNECTING]
    ∧ websocket (svc w') = Some 0
    ∧ client_state w' = Connecting.
Proof.
  destruct (connect_opens_one_socket (page nothing_throws) "token" initial)
    as (w' & E & S & W & C & _); [reflexivity..|].
  exists w'. by rewrite S.
Defined.

(** X2.  When the [WebSocket] constructor throws, [connect] catches the
    error: it completes normally and the world is what it was before the
    call, with one console error more.  No socket exists, [isConnecting] is
    clear again, and nothing is scheduled: the failed call is not retried. *)
Theorem connect_with_rejected_url_changes_nothing
    (host : Host) (token : string) (w : World) :
  isConnecting (svc w) = false →
  websocket_open w = false →
  ws_url_ok host (wsUrl host token) = false →
  connect host token w
  = (Normal tt, logged [ConsoleError "Error connecting to WebSocket:"] w).
Proof.
  intros IC O U. unfold connect.
  rewrite (bind_normal get _ w w w eq_refl), IC, O. cbn [orb].
  unfold new_WebSocket, try_catch, modify, mbind, M_bind. cbn. rewrite U.
  destruct w as [[ws ra ic ls hb] b]. cbn in IC. by subst ic.
Qed.

Lemma connect_without_base_url :
  connect page_without_url "token" initial
  = (Normal tt, logged [ConsoleError "Error connecting to WebSocket:"] initial)
  ∧ client_state (snd (connect page_without_url "token" initial)) = Disconnected.
Proof.
  assert (E := connect_with_rejected_url_changes_nothing page_without_url "token"
                 initial eq_refl eq_refl eq_refl).
  split; [exact E|]. by rewrite E.
Defined.

(** X3.  [disconnect] is idempotent: a second call right after the first
    changes nothing at all, not even the trace. *)
Theorem disconnect_twice_is_disconnect_once (w : World) :
  disconnect (snd (disconnect w)) = (Normal tt, snd (disconnect w)).
Proof.
  destruct w as [[ws ra ic ls hb] [socks tos ints nt sh tr]].
  run_handler. by destruct hb as [[|i]|]; destruct ws as [r|].
Qed.

(** X4.  [disconnect] drops the socket but leaves [isConnecting] as it is.  So
    when it is called while a connection attempt is still in progress, a
    [connect] that follows at once is ignored, although the service has no
    socket any more. *)
Theorem connect_after_disconnect_while_connecting_is_ignored
    (host : Host) (token : string) (w : World) :
  isConnecting (svc w) = true →
  websocket (svc (snd (disconnect w))) = None
  ∧ connect host token (snd (disconnect w)) = (Normal tt, snd (disconnect w)).
Proof.
  intros IC.
  assert (K : isConnecting (svc (snd (disconnect w))) = true
              ∧ websocket (svc (snd (disconnect w))) = None).
  { destruct w as [[ws ra ic ls hb] [socks tos ints nt sh tr]]. cbn in IC. subst ic.
    run_handler. by destruct hb as [[|i]|]; destruct ws as [r|]. }
  destruct K as [K1 K2]. split; [exact K2|].
  unfold connect. rewrite (bind_normal get _ _ _ _ eq_refl). by rewrite K1.
Qed.

Lemma login_right_after_logout_is_lost :
  websocket (svc (snd (disconnect connecting))) = None
  ∧ connect (page nothing_throws) "token2" (snd (disconnect connecting))
    = (Normal tt, snd (disconnect connecting)).
Proof.
  apply (connect_after_disconnect_while_connecting_is_ignored
           (page nothing_throws) "token2" connecting).
  reflexivity.
Defined.

(** X5.  When the current socket opens, the client is CONNECTED, the attempt
    counter is back at 0 and a heartbeat interval is started and recorded in
    [heartbeatInterval]; the pending timers are not touched.  Each tick of
    that interval then sends exactly one [ping] on that socket. *)
Theorem open_resets_the_budget_and_starts_the_heartbeat
    (host : Host) (w : World) (r : nat) (sock : Socket) :
  websocket (svc w) = Some r →
  sockets (browser w) !! r = Some sock →
  readyState sock = CONNECTING →
  ∃ w' w'',
    step host (SocketOpened r) w = Some w'
    ∧ client_state w' = Connected
    ∧ reconnectAttempts (svc w') = 0%Z
    ∧ heartbeatInterval (svc w') = Some (next_timer (browser w))
    ∧ intervals (browser w') = intervals (browser w) ++ [next_timer (browser w)]
    ∧ timeouts (browser w') = timeouts (browser w)
    ∧ step host (IntervalFired (next_timer (browser w))) w' = Some w''
    ∧ w'' = logged [Send r "ping"] w'.
Proof.
  intros W E C.
  destruct w as [[ws ra ic ls hb] [socks tos ints nt sh tr]].
  cbn in W, E. subst ws.
  cbn [step browser sockets]. rewrite E. cbn [mbind option_bind].
  rewrite decide_True by done.
  eexists _, _. split; [reflexivity|].
  assert (O : websocket_open
                (snd ((set_readyState r OPEN;; onopen)
                        {| svc := mkService (Some r) ra ic ls hb;
                           browser := mkBrowser socks tos ints nt sh tr |})) = true).
  { run_handler. unfold websocket_open. cbn.
    by rewrite list_lookup_alter_eq, E. }
  split; [apply client_state_connected; by split|].
  split; [done|]. split; [done|]. split; [done|]. split; [done|].
  cbn [step]. rewrite decide_True; last first.
  { run_handler. apply elem_of_app. right. by apply list_elem_of_singleton. }
  split; [reflexivity|].
  unfold heartbeat_tick. rewrite (bind_normal get _ _ _ _ eq_refl), O.
  reflexivity.
Qed.

Lemma first_open_starts_heartbeat_1 :
  ∃ w' w'',
    step (page nothing_throws) (SocketOpened 0) connecting = Some w'
    ∧ client_state w' = Connected
    ∧ heartbeatInterval (svc w') = Some 1
    ∧ step (page nothing_throws) (IntervalFired 1) w' = Some w''
    ∧ w'' = logged [Send 0 "ping"] w'.
Proof.
  destruct (open_resets_the_budget_and_starts_the_heartbeat (page nothing_throws)
              connecting 0
              (mkSocket "ws://127.0.0.1:8000/ws/notifications?token=token" "token"
                 CONNECTING))
    as (w' & w'' & St & C & _ & H & _ & _ & T & L); [reflexivity..|].
  by exists w', w''.
Defined.

(** X6.  A close with the normal-closure code 1000 is final whatever the
    attempt counter is: no timer is added, the counter is unchanged,
    [isConnecting] is clear, and the heartbeat that was recorded is stopped. *)
Theorem normal_close_schedules_nothing
    (host : Host) (w : World) (r : nat) (sock : Socket) :
  sockets (browser w) !! r = Some sock →
  readyState sock ≠ CLOSED →
  ∃ w',
    step host (SocketClosed r 1000) w = Some w'
    ∧ timeouts (browser w') = timeouts (browser w)
    ∧ reconnectAttempts (svc w') = reconnectAttempts (svc w)
    ∧ isConnecting (svc w') = false
    ∧ heartbeatInterval (svc w')
      = match heartbeatInterval (svc w) with
        | Some 0 => Some 0
        | _ => None
        end
    ∧ intervals (browser w')
      = match heartbeatInterval (svc w) with
        | Some (S i) => filter (λ j, j ≠ S i) (intervals (browser w))
        | _ => intervals (browser w)
        end
    ∧ length (sockets (browser w')) = length (sockets (browser w)).
Proof.
  intros E Live.
  destruct w as [[ws ra ic ls hb] [socks tos ints nt sh tr]]. cbn in E.
  cbn [step browser sockets]. rewrite E. cbn [mbind option_bind].
  rewrite decide_False by done.
  eexists. split; [reflexivity|].
  run_handler. destruct hb as [[|i]|]; cbn; by rewrite length_alter.
Qed.

Lemma server_closes_normally :
  ∃ w',
    step (page nothing_throws) (SocketClosed 0 1000) connected = Some w'
    ∧ timeouts (browser w') = []
    ∧ client_state w' = Disconnected
    ∧ intervals (browser w') = [].
Proof.
  destruct (normal_close_schedules_nothing (page nothing_throws) connected 0
              (mkSocket "ws://127.0.0.1:8000/ws/notifications?token=token" "token" OPEN))
    as (w' & St & T & _ & _ & _ & I & _); [reflexivity|done|].
  exists w'. split; [exact St|]. split; [exact T|]. split; [|exact I].
  vm_compute in St. injection St as <-. reflexivity.
Defined.

(** X7.  After [disconnect], the close event of any socket, whatever its
    code, schedules nothing: the timers are those pending before the call,
    and the counter stays at 5. *)
Theorem no_close_schedules_a_retry_after_disconnect
    (host : Host) (w w' : World) (r : nat) (code : Z) :
  step host (SocketClosed r code) (snd (disconnect w)) = Some w' →
  timeouts (browser w') = timeouts (browser w)
  ∧ reconnectAttempts (svc w') = maxReconnectAttempts
  ∧ websocket (svc w') = None
  ∧ isConnecting (svc w') = false.
Proof.
  intros St.
  destruct w as [[ws ra ic ls hb] [socks tos ints nt sh tr]].
  cbn [step] in St.
  destruct (sockets (browser (snd (disconnect _))) !! r) as [sock|]; [|done].
  cbn [mbind option_bind] in St.
  destruct (decide (readyState sock = CLOSED)); [done|].
  injection St as <-. run_handler.
  destruct hb as [[|i]|]; destruct ws as [r'|]; cbn;
    by rewrite andb_false_r.
Qed.

Lemma close_after_logout_is_not_retried :
  ∃ w',
    step (page nothing_throws) (SocketClosed 0 1006) (snd (disconnect connected))
    = Some w'
    ∧ timeouts (browser w') = []
    ∧ reconnectAttempts (svc w') = 5%Z.
Proof.
  assert (St : is_Some (step (page nothing_throws) (SocketClosed 0 1006)
                          (snd (disconnect connected)))).
  { vm_compute. eauto. }
  destruct St as [w' St]. exists w'. split; [exact St|].
  destruct (no_close_schedules_a_retry_after_disconnect (page nothing_throws)
              connected w' 0 1006 St) as (T & A & _).
  split; [exact T|exact A].
Defined.

(** X8.  [connect] does not reset the attempt counter, which [disconnect] has
    set to 5.  So when the first connection after a [disconnect] fails
    before it opens, no retry is scheduled, whatever the close code. *)
Theorem first_connection_after_disconnect_is_not_retried
    (host : Host) (token : string) (w : World) (code : Z) :
  isConnecting (svc w) = false →
  ws_url_ok host (wsUrl host token) = true →
  ∃ w1 w2,
    run host [CallDisconnect; CallConnect token] w = Some w1
    ∧ client_state w1 = Connecting
    ∧ websocket (svc w1) = Some (length (sockets (browser w)))
    ∧ step host (SocketClosed (length (sockets (browser w))) code) w1 = Some w2
    ∧ timeouts (browser w2) = timeouts (browser w)
    ∧ reconnectAttempts (svc w2) = maxReconnectAttempts
    ∧ isConnecting (svc w2) = false
    ∧ websocket_open w2 = false.
Proof.
  intros IC U.
  destruct w as [[ws ra ic ls hb] [socks tos ints nt sh tr]]. cbn in IC. subst ic.
  cbn [run step mbind option_bind].
  set (w0 := snd (disconnect _)).
  assert (K : isConnecting (svc w0) = false ∧ websocket_open w0 = false
              ∧ reconnectAttempts (svc w0) = maxReconnectAttempts
              ∧ timeouts (browser w0) = tos
              ∧ length (sockets (browser w0)) = length socks
              ∧ heartbeatInterval (svc w0) = match hb with Some 0 => Some 0 | _ => None end).
  { unfold w0. run_handler. unfold websocket_open.
    destruct hb as [[|i]|]; destruct ws as [r|]; cbn; by rewrite ?length_alter. }
  destruct K as (K1 & K2 & K3 & K4 & K5 & K6).
  destruct (connect_from_rest host token w0 K1 K2 U)
    as (w1 & E & S & W & C & A & T & _ & H & _).
  rewrite E. cbn [snd]. rewrite K5 in W.
  assert (L : sockets (browser w1) !! length socks
              = Some (mkSocket (wsUrl host token) token CONNECTING)).
  { rewrite S, <- K5. by rewrite lookup_app_r, Nat.sub_diag by lia. }
  cbn [browser sockets].
  exists w1. eexists. split; [reflexivity|]. split; [exact C|]. split; [exact W|].
  cbn [step]. rewrite L. cbn [mbind option_bind].
  rewrite decide_False by done.
  split; [reflexivity|].
  destruct w1 as [[ws1 ra1 ic1 ls1 hb1] [socks1 tos1 ints1 nt1 sh1 tr1]].
  cbn in W, A, T, H, S. subst ws1 ra1 tos1.
  rewrite K3, K4. rewrite K6 in H. subst hb1.
  run_handler. unfold websocket_open.
  destruct hb as [[|i]|]; cbn; rewrite andb_false_r; cbn;
    rewrite list_lookup_alter_eq, S, <- K5, lookup_app_r, Nat.sub_diag by lia;
    by cbn.
Qed.

Lemma login_after_logout_gets_no_retry :
  ∃ w1 w2,
    run (page nothing_throws) [CallDisconnect; CallConnect "token2"] connected = Some w1
    ∧ client_state w1 = Connecting
    ∧ step (page nothing_throws) (SocketClosed 1 1006) w1 = Some w2
    ∧ timeouts (browser w2) = []
    ∧ reconnectAttempts (svc w2) = 5%Z.
Proof.
  destruct (first_connection_after_disconnect_is_not_retried (page nothing_throws)
              "token2" connected 1006)
    as (w1 & w2 & R & C & _ & St & T & A & _); [reflexivity..|].
  by exists w1, w2.
Defined.

End Connection.

(** ** Who sends pings *)

Module Heartbeat.
Import WS ListenerBus Lifecycle.

Section Silent.
Context (host : Host).

Lemma sent_app tr1 tr2 : sent (tr1 ++ tr2) = sent tr1 ++ sent tr2.
Proof. apply omap_app. Qed.

Lemma silent_ret {A} (a : A) : silent (mret a).
Proof. by intros w I. Qed.

Lemma silent_bind {A B} (m : M A) (k : A → M B) :
  silent m → (∀ a, silent (k a)) → silent (m ≫= k).
Proof.
  intros Hm Hk w I. destruct (Hm w I) as [I1 S1].
  unfold mbind, M_bind. destruct (m w) as [[a|e] w1]; cbn in I1, S1 |- *; [|done].
  destruct (Hk a w1 I1) as [I2 S2]. by rewrite S2.
Qed.

Lemma silent_get : silent get.
Proof. by intros w I. Qed.

Lemma silent_throw {A} (e : JsError) : silent (throw (A:=A) e).
Proof. by intros w I. Qed.

Lemma silent_lift {A} (c : completion A) : silent (lift c).
Proof. by intros w I. Qed.

Lemma silent_try_catch (body : M unit) (handler : JsError → M unit) :
  silent body → (∀ e, silent (handler e)) → silent (try_catch body handler).
Proof.
  intros Hb Hh w I. destruct (Hb w I) as [I1 S1].
  unfold try_catch. destruct (body w) as [[[]|e] w1]; cbn in I1, S1 |- *; [done|].
  destruct (Hh e w1 I1) as [I2 S2]. by rewrite S2.
Qed.

Lemma silent_emit (e : effect) : is_send e = false → silent (emit e).
Proof.
  intros N w I. cbn. split; [done|].
  rewrite sent_app. destruct e; try discriminate N; cbn; by rewrite app_nil_r.
Qed.

Lemma silent_on_svc (f : Service → Service) : silent (modify (on_svc f)).
Proof. by intros w I. Qed.

Lemma silent_on_browser (f : Browser → Browser) :
  (∀ b, intervals b = [] → intervals (f b) = [] ∧ trace (f b) = trace b) →
  silent (modify (on_browser f)).
Proof. intros Hf w I. cbn. destruct (Hf _ I) as [-> ->]. done. Qed.

Lemma silent_setTimeout action delay : silent (setTimeout action delay).
Proof. by intros w I. Qed.

Lemma silent_clearInterval id : silent (clearInterval id).
Proof. apply silent_on_browser. intros b ->. done. Qed.

Lemma silent_new_WebSocket url token : silent (new_WebSocket host url token).
Proof.
  intros w I. unfold new_WebSocket. destruct (ws_url_ok host url); cbn; [|done].
  split; [done|]. rewrite sent_app. cbn. by rewrite app_nil_r.
Qed.

Create HintDb silent.

Ltac silence :=
  repeat first
    [ progress intros
    | progress cbv beta zeta
    | solve [auto 1 with silent nocore]
    | apply silent_ret
    | apply silent_bind
    | apply silent_get
    | apply silent_throw
    | apply silent_lift
    | apply silent_try_catch
    | apply silent_emit; reflexivity
    | apply silent_on_svc
    | apply silent_setTimeout
    | apply silent_clearInterval
    | apply silent_new_WebSocket
    | apply silent_on_browser; intros ? ->; done
    | match goal with
      | |- silent (if ?c then _ else _) => destruct c
      | |- silent (match ?c with _ => _ end) => destruct c
      end ].

Lemma silent_stopHeartbeat : silent stopHeartbeat.
Proof. unfold stopHeartbeat. silence. Qed.
#[local] Hint Resolve silent_stopHeartbeat : silent.

Lemma silent_connect token : silent (connect host token).
Proof. unfold connect, console_error. silence. Qed.

Lemma silent_scheduleReconnect token : silent (scheduleReconnect token).
Proof. unfold scheduleReconnect, console_log. silence. Qed.
#[local] Hint Resolve silent_scheduleReconnect : silent.

Lemma silent_onclose token code : silent (onclose token code).
Proof.
  unfold onclose, console_log.
  silence.
Qed.

Lemma silent_onerror : silent onerror.
Proof. unfold onerror, console_error. silence. Qed.

Lemma silent_disconnect : silent disconnect.
Proof.
  unfold disconnect, close_socket.
  silence.
Qed.

Lemma silent_forEach callbacks (body : callback → nat → M unit) :
  (∀ cb index, silent (body cb index)) → ∀ index, silent (forEach callbacks index body).
Proof.
  intros Hb. induction callbacks as [|cb rest IH]; intros index; cbn [forEach].
  - apply silent_ret.
  - apply silent_bind; [apply Hb|]. intros _. apply IH.
Qed.

Lemma silent_notifyListeners name data : silent (notifyListeners host name data).
Proof.
  unfold notifyListeners, console_log.
  silence. apply silent_forEach. unfold call, console_log, console_error. silence.
Qed.
#[local] Hint Resolve silent_notifyListeners : silent.

Lemma silent_showAssignmentNotification data :
  silent (showAssignmentNotification host data).
Proof.
  unfold showAssignmentNotification, playNotificationSound, console_log. silence.
Qed.
#[local] Hint Resolve silent_showAssignmentNotification : silent.

Lemma silent_handleMessage message : silent (handleMessage host message).
Proof.
  unfold handleMessage, console_log.
  silence.
Qed.
#[local] Hint Resolve silent_handleMessage : silent.

Lemma silent_onmessage event_data : silent (onmessage host event_data).
Proof.
  unfold onmessage, console_log, console_error.
  silence.
Qed.

Lemma silent_addEventListener name cb : silent (addEventListener name cb).
Proof. unfold addEventListener. silence. Qed.

Lemma silent_removeEventListener name cb : silent (removeEventListener name cb).
Proof. unfold removeEventListener. silence. Qed.

Lemma silent_onclick n data : silent (onclick host n data).
Proof. unfold onclick. silence. Qed.

Lemma silent_set_readyState r st : silent (set_readyState r st).
Proof. unfold set_readyState. silence. Qed.

(** Only the opening of a socket starts an interval, and only an interval
    sends: while no interval is live, every other event leaves it so and
    sends nothing. *)
Lemma silent_step (e : event) (w w' : World) :
  is_open_event e = false →
  intervals (browser w) = [] →
  step host e w = Some w' →
  intervals (browser w') = []
  ∧ sent (trace (browser w')) = sent (trace (browser w)).
Proof.
  intros N I St. destruct e as [token| |name cb|name cb|r|r data|r code|r|id|id|n];
    cbn [step] in St; try discriminate N.
  - injection St as <-. by apply silent_connect.
  - injection St as <-. by apply silent_disconnect.
  - injection St as <-. by apply silent_addEventListener.
  - injection St as <-. by apply silent_removeEventListener.
  - destruct (sockets (browser w) !! r) as [sock|]; [|done]. cbn in St.
    destruct (decide (readyState sock = OPEN)); [|done].
    injection St as <-. by apply silent_onmessage.
  - destruct (sockets (browser w) !! r) as [sock|]; [|done]. cbn in St.
    destruct (decide (readyState sock = CLOSED)); [done|].
    injection St as <-.
    by apply (silent_bind (set_readyState r CLOSED) (λ _, onclose (sock_token sock) code));
      [apply silent_set_readyState|intros _; apply silent_onclose|].
  - destruct (sockets (browser w) !! r) as [sock|]; [|done]. cbn in St.
    destruct (decide (readyState sock = CLOSED)); [done|].
    injection St as <-. by apply silent_onerror.
  - destruct (find_timeout id (timeouts (browser w))) as [t|]; [|done]. cbn in St.
    injection St as <-.
    set (w1 := on_browser _ w).
    change (sent (trace (browser w))) with (sent (trace (browser w1))).
    assert (I1 : intervals (browser w1) = []) by exact I.
    destruct (timeout_action t) as [token|n]; cbn [run_timer].
    + by apply silent_connect.
    + by apply silent_emit.
  - rewrite I in St. by rewrite decide_False in St by apply not_elem_of_nil.
  - destruct (shown (browser w) !! n) as [data|]; [|done]. cbn in St.
    injection St as <-. by apply silent_onclick.
Qed.

Lemma silent_run (events : list event) : ∀ w w',
  Forall (λ e, is_open_event e = false) events →
  intervals (browser w) = [] →
  run host events w = Some w' →
  intervals (browser w') = []
  ∧ sent (trace (browser w')) = sent (trace (browser w)).
Proof.
  induction events as [|e rest IH]; intros w w' F I R; cbn [run] in R.
  - by injection R as <-.
  - apply Forall_cons in F as [N F].
    destruct (step host e w) as [w1|] eqn:St; [|done]. cbn in R.
    destruct (silent_step e w w1 N I St) as [I1 S1].
    destruct (IH w1 w' F I1 R) as [I2 S2]. by rewrite S2.
Qed.

(** X9.  The close handler of every socket stops the heartbeat the
    service has recorded, whichever socket the event belongs to.  When an
    earlier socket closes while the current one is open and the recorded
    heartbeat is the only interval running, the client stays CONNECTED but
    no interval is left; and then no [ping], nor anything else, is sent on
    any socket, whatever happens, as long as no socket opens. *)
Theorem stale_close_stops_the_heartbeat_of_the_open_socket
    (w : World) (r r' : nat) (sock sock' : Socket) (i : nat) (code : Z) :
  r ≠ r' →
  websocket (svc w) = Some r' →
  sockets (browser w) !! r' = Some sock' →
  readyState sock' = OPEN →
  sockets (browser w) !! r = Some sock →
  readyState sock ≠ CLOSED →
  heartbeatInterval (svc w) = Some (S i) →
  intervals (browser w) = [S i] →
  ∃ w',
    step host (SocketClosed r code) w = Some w'
    ∧ client_state w' = Connected
    ∧ websocket (svc w') = Some r'
    ∧ heartbeatInterval (svc w') = None
    ∧ intervals (browser w') = []
    ∧ ∀ events w'',
        Forall (λ e, is_open_event e = false) events →
        run host events w' = Some w'' →
        intervals (browser w'') = []
        ∧ sent (trace (browser w'')) = sent (trace (browser w)).
Proof.
  intros N W E' O E Live H I.
  destruct w as [[ws ra ic ls hb] [socks tos ints nt sh tr]].
  cbn in W, E', E, H, I. subst ws hb ints.
  cbn [step browser sockets]. rewrite E. cbn [mbind option_bind].
  rewrite decide_False by done.
  eexists. split; [reflexivity|].
  assert (X : ∀ w', w' = snd ((set_readyState r CLOSED;; onclose (sock_token sock) code)
                 {| svc := mkService (Some r') ra ic ls (Some (S i));
                    browser := mkBrowser socks tos [S i] nt sh tr |}) →
              websocket_open w' = true ∧ isConnecting (svc w') = false
              ∧ websocket (svc w') = Some r'
              ∧ heartbeatInterval (svc w') = None
              ∧ intervals (browser w') = []
              ∧ sent (trace (browser w')) = sent tr).
  { intros w' ->. run_handler.
    rewrite decide_False by (intros ?; done).
    destruct (negb (code =? 1000)%Z && (ra <? maxReconnectAttempts)%Z); cbn;
      unfold websocket_open; cbn;
      rewrite list_lookup_alter_ne, E' by done; cbn;
      (split; [by apply bool_decide_eq_true_2|]); repeat (split; [done|]);
      rewrite !sent_app; cbn; by rewrite ?app_nil_r. }
  destruct (X _ eq_refl) as (X1 & X2 & X3 & X4 & X5 & X6).
  split; [by apply client_state_connected|].
  split; [exact X3|]. split; [exact X4|]. split; [exact X5|].
  intros events w'' F R.
  destruct (silent_run events _ w'' F X5 R) as [I2 S2].
  split; [exact I2|]. rewrite S2. exact X6.
Qed.

End Silent.

Lemma old_close_after_new_login :
  ∃ w' w'',
    step (page nothing_throws) (SocketClosed 0 1000) logged_in_again = Some w'
    ∧ client_state w' = Connected
    ∧ intervals (browser w') = []
    ∧ run (page nothing_throws)
        [SocketMessage 1 (TextFrame "pong"); CallConnect "token3"] w' = Some w''
    ∧ sent (trace (browser w'')) = sent (trace (browser logged_in_again)).
Proof.
  destruct (stale_close_stops_the_heartbeat_of_the_open_socket (page nothing_throws)
              logged_in_again 0 1
              (mkSocket "ws://127.0.0.1:8000/ws/notifications?token=token" "token" CLOSING)
              (mkSocket "ws://127.0.0.1:8000/ws/notifications?token=token2" "token2" OPEN)
              1 1000)
    as (w' & St & C & _ & _ & I & Q); [done|reflexivity..|done|reflexivity|reflexivity|].
  assert (R : is_Some (run (page nothing_throws)
                [SocketMessage 1 (TextFrame "pong"); CallConnect "token3"] w')).
  { vm_compute in St. injection St as <-. vm_compute. eexists. reflexivity. }
  destruct R as [w'' R].
  exists w', w''. split; [exact St|]. split; [exact C|]. split; [exact I|].
  split; [exact R|].
  apply (Q [SocketMessage 1 (TextFrame "pong"); CallConnect "token3"] w'');
    [|exact R].
  repeat constructor.
Defined.

(** [startHeartbeat] overwrites [heartbeatInterval] without clearing the
    interval it held.  Once two sockets have opened, the first heartbeat is
    no longer recorded: it survives every [stopHeartbeat] and keeps sending
    on the current socket.  Hence the condition above that the recorded
    heartbeat is the only interval. *)
Lemma an_overwritten_heartbeat_keeps_pinging :
  (λ w, (heartbeatInterval (svc w), intervals (browser w), sent (trace (browser w))))
    <$> run (page nothing_throws)
          (old_close_during_login
           ++ [CallConnect "token3"; SocketOpened 1; SocketOpened 2;
               SocketClosed 1 1000; IntervalFired 2])
          initial
  = Some (None, [2], [(2, "ping")]).
Proof. vm_compute; reflexivity. Qed.

End Heartbeat.

(** ** More on incoming frames *)

Module Frames.
Import WS ListenerBus Messages.

Section Frames.
Context (host : Host).

Lemma alerts_app tr1 tr2 : alerts (tr1 ++ tr2) = alerts tr1 ++ alerts tr2.
Proof. apply filter_app. Qed.

Lemma with_notification_logged data tr w :
  with_notification data (logged tr w) = logged tr (with_notification data w).
Proof. by destruct w as [s [socks tos ints nt sh tr0]]. Qed.

(** A dispatch shows nothing and plays nothing. *)
Lemma forEach_quiet event data callbacks : ∀ index w,
  ∃ tr,
    forEach callbacks index (λ cb i,
      try_catch
        (console_log "WebSocket: Calling listener";; call host event i cb data)
        (λ _, console_error "Error in listener")) w
    = (Normal tt, logged tr w)
    ∧ calls tr = expected_calls event data index callbacks
    ∧ alerts tr = [].
Proof.
  induction callbacks as [|cb rest IH]; intros index w; cbn [forEach expected_calls].
  - exists []. by rewrite logged_nil.
  - destruct (IH (S index)
                (logged (ConsoleLog "WebSocket: Calling listener"
                         :: Called event index cb data
                         :: if cb_throws host cb data
                            then [ConsoleError "Error in listener"] else []) w))
      as (tr2 & E2 & C2 & A2).
    eexists (_ ++ tr2). split; [|split].
    + erewrite bind_normal; [|].
      * rewrite E2. by rewrite logged_app.
      * unfold try_catch, call, console_log, console_error, mbind, M_bind.
        rewrite !emit_logged.
        destruct (cb_throws host cb data); cbn; by rewrite ?emit_logged, !logged_app.
    + rewrite calls_app, C2. by destruct (cb_throws host cb data).
    + rewrite alerts_app, A2. by destruct (cb_throws host cb data).
Qed.

Lemma notifyListeners_quiet {B} name data (k : unit → M B) w :
  ∃ tr,
    (notifyListeners host name data ≫= k) w = k tt (logged tr w)
    ∧ calls tr = dispatch_calls w name data
    ∧ alerts tr = [].
Proof.
  unfold notifyListeners.
  set (w1 := logged [ConsoleLog "WebSocket: Notifying listeners, count:"] w).
  assert (X : ∃ tr, (let m := notifyListeners host name data in m) w
                    = (Normal tt, logged tr w)
                    ∧ calls tr = dispatch_calls w name data ∧ alerts tr = []).
  { unfold notifyListeners. cbn zeta.
    rewrite (bind_normal (console_log _) _ w tt w1 eq_refl).
    rewrite (bind_normal get _ w1 w1 w1 eq_refl).
    change (svc w1) with (svc w). unfold dispatch_calls.
    destruct (listeners (svc w) !! name) as [callbacks|]; cbn [default].
    - destruct (forEach_quiet name data callbacks 0 w1) as (tr & E1 & C1 & A1).
      rewrite E1. unfold w1. rewrite logged_app.
      eexists. split; [reflexivity|].
      rewrite calls_app, alerts_app, C1, A1, expected_calls_imap. by cbn.
    - unfold console_log, w1. rewrite emit_logged, logged_app.
      eexists. split; [reflexivity|]. by cbn. }
  destruct X as (tr & E & C & A). exists tr.
  split; [|done]. by rewrite (bind_normal _ _ _ _ _ E).
Qed.

(** [showAssignmentNotification], case by case. *)
Lemma showAssignmentNotification_eq data w :
  showAssignmentNotification host data w
  = match notification_permission host with
    | None => (Abrupt (ReferenceError "Notification is not defined"), w)
    | Some p =>
        if bool_decide (p = "granted") then
          match get_prop data "message" with
          | Abrupt e => (Abrupt e, w)
          | Normal _ =>
              match get_prop data "issue" with
              | Abrupt e => (Abrupt e, w)
              | Normal issue =>
                  match get_prop issue "id" with
                  | Abrupt e => (Abrupt e, w)
                  | Normal _ =>
                      (Normal tt,
                       logged [ShowNotification "New Issue Assignment" data;
                               sound_effect host]
                         (with_notification data w))
                  end
              end
          end
        else (Normal tt, logged [sound_effect host] w)
    end.
Proof.
  destruct w as [s [socks tos ints nt sh tr]].
  unfold showAssignmentNotification, playNotificationSound, lift, setTimeout,
    console_log, emit, modify, get, throw, try_catch, mbind, M_bind, mret, M_ret,
    on_svc, on_browser, sound_effect, logged, with_notification.
  destruct (notification_permission host) as [p|]; [|done].
  destruct (bool_decide (p = "granted")).
  - destruct (get_prop data "message"); [|done].
    destruct (get_prop data "issue") as [issue|]; [|done].
    destruct (get_prop issue "id"); [|done].
    destruct (audio_ok host); cbn; by rewrite <- !app_assoc.
  - by destruct (audio_ok host).
Qed.

(** Whatever the message, [handleMessage] adds to the trace and, at
    most, puts up one browser notification. *)
Lemma handleMessage_shape message w :
  ∃ c tr,
    handleMessage host message w = (c, logged tr w)
    ∨ ∃ data, handleMessage host message w
              = (Normal tt, logged tr (with_notification data w)).
Proof.
  unfold handleMessage.
  set (w0 := logged [ConsoleLog "WebSocket: Received message:"] w).
  rewrite (bind_normal (console_log _) _ w tt w0 eq_refl).
  destruct (get_prop message "type") as [type|e] eqn:T.
  2:{ exists (Abrupt e), [ConsoleLog "WebSocket: Received message:"]. by left. }
  rewrite (bind_normal (lift (Normal type)) _ w0 type w0 eq_refl).
  destruct (get_prop message "data") as [data|e] eqn:D.
  2:{ exists (Abrupt e), [ConsoleLog "WebSocket: Received message:"]. by left. }
  rewrite (bind_normal (lift (Normal data)) _ w0 data w0 eq_refl).
  destruct (strict_eq_str type "notification").
  2:{ eexists _, _. left. unfold console_log. rewrite emit_logged. unfold w0.
      by rewrite logged_app. }
  set (w1 := logged [ConsoleLog "WebSocket: Processing notification:"] w0).
  rewrite (bind_normal (console_log _) _ w0 tt w1 eq_refl).
  destruct (notifyListeners_quiet "notification" data
              (λ _, event_type ← lift (get_prop data "event_type");
                    if strict_eq_str event_type "issue_assigned" then
                      console_log "WebSocket: Dispatching issue_assigned event";;
                      notifyListeners host "issue_assigned" data;;
                      showAssignmentNotification host data
                    else if strict_eq_str event_type "kanban_update" then
                      console_log "WebSocket: Dispatching kanban_update event";;
                      notifyListeners host "kanban_update" data
                    else console_log "WebSocket: Unknown notification type:") w1)
    as (tr1 & E1 & _). rewrite E1. clear E1.
  set (w2 := logged tr1 w1).
  assert (W2 : w2 = logged ([ConsoleLog "WebSocket: Received message:";
                             ConsoleLog "WebSocket: Processing notification:"] ++ tr1) w).
  { unfold w2, w1, w0. by rewrite !logged_app. }
  destruct (get_prop data "event_type") as [event_type|e] eqn:ET.
  2:{ exists (Abrupt e). eexists. left. by rewrite W2. }
  rewrite (bind_normal (lift (Normal event_type)) _ w2 event_type w2 eq_refl).
  destruct (strict_eq_str event_type "issue_assigned").
  - set (w3 := logged [ConsoleLog "WebSocket: Dispatching issue_assigned event"] w2).
    rewrite (bind_normal (console_log _) _ w2 tt w3 eq_refl).
    destruct (notifyListeners_quiet "issue_assigned" data
                (λ _, showAssignmentNotification host data) w3) as (tr2 & E2 & _).
    rewrite E2. clear E2. rewrite showAssignmentNotification_eq.
    unfold w3. rewrite W2, !logged_app.
    destruct (notification_permission host) as [p|]; [|by eexists _, _; left].
    destruct (bool_decide (p = "granted")).
    + destruct (get_prop data "message"); [|by eexists _, _; left].
      destruct (get_prop data "issue") as [issue|]; [|by eexists _, _; left].
      destruct (get_prop issue "id"); [|by eexists _, _; left].
      exists (Normal tt). eexists. right. exists data.
      by rewrite with_notification_logged, logged_app.
    + eexists _, _. by left.
  - destruct (strict_eq_str event_type "kanban_update").
    + set (w3 := logged [ConsoleLog "WebSocket: Dispatching kanban_update event"] w2).
      rewrite (bind_normal (console_log _) _ w2 tt w3 eq_refl).
      destruct (notifyListeners_logged host "kanban_update" data w3) as (tr2 & E2 & _).
      rewrite E2. unfold w3. rewrite W2, !logged_app. eexists _, _. by left.
    + unfold console_log. rewrite emit_logged, W2, logged_app.
      eexists _, _. by left.
Qed.

(** X10.  Handling a frame never throws, whatever the frame and whatever the
    listeners do.  It leaves every field of the service, the sockets and the
    heartbeat intervals as they are; the only timer it can add is the
    10-second closing of a browser notification it has just put up, never a
    reconnect. *)
Theorem onmessage_never_throws (event_data : frame) (w : World) :
  ∃ w',
    onmessage host event_data w = (Normal tt, w')
    ∧ svc w' = svc w
    ∧ sockets (browser w') = sockets (browser w)
    ∧ intervals (browser w') = intervals (browser w)
    ∧ (timeouts (browser w') = timeouts (browser w)
       ∨ timeouts (browser w')
         = timeouts (browser w)
           ++ [mkTimeout (next_timer (browser w)) 10000
                 (CloseNotification (length (shown (browser w))))]).
Proof.
  unfold onmessage, try_catch.
  destruct (bool_decide (event_data = TextFrame "pong")).
  { eexists. split; [reflexivity|]. cbn. eauto. }
  destruct (JSON_parse host (frame_text event_data)) as [message|].
  2:{ eexists. split; [reflexivity|]. cbn. eauto. }
  rewrite (bind_normal (mret message) _ w message w eq_refl).
  destruct (handleMessage_shape message w) as (c & tr & [E|[data E]]); rewrite E.
  - destruct c as [[]|e]; eexists; (split; [reflexivity|]); cbn; eauto.
  - eexists. split; [reflexivity|]. cbn. eauto 6.
Qed.

Lemma get_prop_other v k x k' :
  get_prop v k = Normal x → ∃ y, get_prop v k' = Normal y.
Proof. destruct v; cbn; intros E; try discriminate E; eauto. Qed.

(** An [issue_assigned] message up to the browser notification: both
    dispatches are made, nothing is shown yet. *)
Lemma handleMessage_issue_assigned fields event_type w :
  strict_eq_str (lookup_field "type" fields) "notification" = true →
  get_prop (lookup_field "data" fields) "event_type" = Normal event_type →
  strict_eq_str event_type "issue_assigned" = true →
  ∃ tr,
    handleMessage host (JObj fields) w
    = showAssignmentNotification host (lookup_field "data" fields) (logged tr w)
    ∧ calls tr = dispatch_calls w "notification" (lookup_field "data" fields)
                 ++ dispatch_calls w "issue_assigned" (lookup_field "data" fields)
    ∧ alerts tr = [].
Proof.
  intros T ET IA. set (data := lookup_field "data" fields).
  unfold handleMessage.
  set (w0 := logged [ConsoleLog "WebSocket: Received message:"] w).
  rewrite (bind_normal (console_log _) _ w tt w0 eq_refl).
  rewrite (bind_normal (lift (get_prop (JObj fields) "type")) _ w0 _ w0 eq_refl).
  rewrite (bind_normal (lift (get_prop (JObj fields) "data")) _ w0 data w0 eq_refl).
  rewrite T.
  set (w1 := logged [ConsoleLog "WebSocket: Processing notification:"] w0).
  rewrite (bind_normal (console_log _) _ w0 tt w1 eq_refl).
  destruct (notifyListeners_quiet "notification" data
              (λ _, event_type ← lift (get_prop data "event_type");
                    if strict_eq_str event_type "issue_assigned" then
                      console_log "WebSocket: Dispatching issue_assigned event";;
                      notifyListeners host "issue_assigned" data;;
                      showAssignmentNotification host data
                    else if strict_eq_str event_type "kanban_update" then
                      console_log "WebSocket: Dispatching kanban_update event";;
                      notifyListeners host "kanban_update" data
                    else console_log "WebSocket: Unknown notification type:") w1)
    as (tr1 & E1 & C1 & A1). rewrite E1. clear E1.
  set (w2 := logged tr1 w1). fold data in ET. rewrite ET.
  rewrite (bind_normal (lift (Normal event_type)) _ w2 event_type w2 eq_refl), IA.
  set (w3 := logged [ConsoleLog "WebSocket: Dispatching issue_assigned event"] w2).
  rewrite (bind_normal (console_log _) _ w2 tt w3 eq_refl).
  destruct (notifyListeners_quiet "issue_assigned" data
              (λ _, showAssignmentNotification host data) w3) as (tr2 & E2 & C2 & A2).
  rewrite E2. clear E2.
  exists ([ConsoleLog "WebSocket: Received message:";
           ConsoleLog "WebSocket: Processing notification:"] ++ tr1
          ++ [ConsoleLog "WebSocket: Dispatching issue_assigned event"] ++ tr2).
  split; [|split].
  - unfold w3, w2, w1, w0. rewrite !logged_app; do 2 f_equal;
      by rewrite <- ?app_assoc.
  - rewrite !calls_app, C1, C2. by cbn.
  - rewrite !alerts_app, A1, A2. by cbn.
Qed.

(** X11.  A complete [issue_assigned] message, with notifications granted:
    the listeners of [notification] and of [issue_assigned] are called, one
    browser notification is put up and the sound is played, and the
    notification is set to close after 10 seconds.  A click on that
    notification then calls the listeners of [notification_click] with the
    data of the message, and changes nothing in the service. *)
Theorem assigned_notification_click_reaches_listeners
    (fields : list (string * JsVal)) (issue id : JsVal) (w : World) :
  notification_permission host = Some "granted" →
  strict_eq_str (lookup_field "type" fields) "notification" = true →
  get_prop (lookup_field "data" fields) "event_type" = Normal (JStr "issue_assigned") →
  get_prop (lookup_field "data" fields) "issue" = Normal issue →
  get_prop issue "id" = Normal id →
  let data := lookup_field "data" fields in
  ∃ w1 w2,
    handleMessage host (JObj fields) w = (Normal tt, w1)
    ∧ shown (browser w1) = shown (browser w) ++ [data]
    ∧ timeouts (browser w1)
      = timeouts (browser w)
        ++ [mkTimeout (next_timer (browser w)) 10000
              (CloseNotification (length (shown (browser w))))]
    ∧ calls (trace (browser w1))
      = calls (trace (browser w))
        ++ dispatch_calls w "notification" data
        ++ dispatch_calls w "issue_assigned" data
    ∧ alerts (trace (browser w1))
      = alerts (trace (browser w))
        ++ ShowNotification "New Issue Assignment" data
           :: (if audio_ok host then [PlaySound] else [])
    ∧ step host (NotificationClicked (length (shown (browser w)))) w1 = Some w2
    ∧ calls (trace (browser w2))
      = calls (trace (browser w1)) ++ dispatch_calls w "notification_click" data
    ∧ svc w2 = svc w.
Proof.
  intros P T ET I Id data.
  destruct (handleMessage_issue_assigned fields _ w T ET eq_refl) as (tr & E & C & A).
  fold data in E, C, I, ET. rewrite E, showAssignmentNotification_eq, P.
  rewrite bool_decide_eq_true_2 by done.
  destruct (get_prop_other _ _ _ "message" ET) as [m ->]. rewrite I, Id.
  set (w1 := logged _ _).
  assert (Sh : shown (browser w1) = shown (browser w) ++ [data]) by done.
  assert (Click : ∃ w2,
            step host (NotificationClicked (length (shown (browser w)))) w1 = Some w2
            ∧ calls (trace (browser w2))
              = calls (trace (browser w1)) ++ dispatch_calls w "notification_click" data
            ∧ svc w2 = svc w).
  { cbn [step]. rewrite Sh.
    rewrite lookup_app_r, Nat.sub_diag by lia. cbn [lookup list_lookup mbind option_bind].
    unfold onclick.
    set (w2 := logged [WindowFocus] w1).
    rewrite (bind_normal (emit WindowFocus) _ w1 tt w2 eq_refl).
    destruct (notifyListeners_quiet "notification_click" data
                (λ _, emit (NotificationClosed (length (shown (browser w))))) w2)
      as (tr2 & E2 & C2 & _).
    rewrite E2. rewrite emit_logged. cbn [snd].
    eexists. split; [reflexivity|]. split; [|done].
    rewrite !calls_logged, C2. unfold w2. rewrite calls_logged. cbn.
    by rewrite !app_nil_r. }
  destruct Click as (w2 & St & C2 & S2).
  exists w1, w2. split; [reflexivity|]. split; [exact Sh|]. split; [done|].
  split; [|split; [|done]].
  - unfold w1. rewrite calls_logged, with_notification_logged, calls_logged, C.
    rewrite <- !app_assoc. cbn. unfold sound_effect.
    destruct (audio_ok host); cbn; by rewrite !app_nil_r.
  - unfold w1.
    change (trace (browser (logged ?t ?x))) with (trace (browser x) ++ t).
    rewrite with_notification_logged.
    change (trace (browser (logged ?t ?x))) with (trace (browser x) ++ t).
    rewrite !alerts_app, A. cbn [with_notification on_browser browser trace set_trace
      set_next_timer set_timeouts set_shown].
    rewrite app_nil_r. f_equal. unfold sound_effect. by destruct (audio_ok host).
Qed.

(** X12.  An [issue_assigned] message whose data has no usable [issue], with
    notifications granted: the listeners of [notification] and of
    [issue_assigned] are called all the same, but the browser notification
    is not put up and no sound is played; the [TypeError] is caught by
    [onmessage] and reported as a parsing error. *)
Theorem assignment_without_issue_is_heard_but_not_shown
    (event_data : frame) (fields : list (string * JsVal)) (issue : JsVal)
    (e : JsError) (w : World) :
  notification_permission host = Some "granted" →
  event_data ≠ TextFrame "pong" →
  JSON_parse host (frame_text event_data) = Some (JObj fields) →
  strict_eq_str (lookup_field "type" fields) "notification" = true →
  get_prop (lookup_field "data" fields) "event_type" = Normal (JStr "issue_assigned") →
  get_prop (lookup_field "data" fields) "issue" = Normal issue →
  get_prop issue "id" = Abrupt e →
  let data := lookup_field "data" fields in
  ∃ tr,
    onmessage host event_data w
    = (Normal tt, logged (tr ++ [ConsoleError "Error parsing WebSocket message:"]) w)
    ∧ calls tr = dispatch_calls w "notification" data
                 ++ dispatch_calls w "issue_assigned" data
    ∧ alerts tr = [].
Proof.
  intros P NP J T ET I Id data.
  destruct (handleMessage_issue_assigned fields _ w T ET eq_refl) as (tr & E & C & A).
  exists tr. split; [|done].
  unfold onmessage, try_catch.
  rewrite bool_decide_eq_false_2 by done. rewrite J.
  rewrite (bind_normal (mret (JObj fields)) _ w _ w eq_refl).
  rewrite E, showAssignmentNotification_eq, P.
  rewrite bool_decide_eq_true_2 by done.
  destruct (get_prop_other _ _ _ "message" ET) as [m ->]. rewrite I, Id.
  unfold console_error. by rewrite emit_logged, logged_app.
Qed.

End Frames.

Lemma assignment_is_shown_and_clickable :
  ∃ w1 w2,
    handleMessage (page nothing_throws) (JObj issue_assigned_message) all_subscribed
    = (Normal tt, w1)
    ∧ shown (browser w1) = [assigned_data]
    ∧ timeouts (browser w1) = [mkTimeout 2 10000 (CloseNotification 0)]
    ∧ calls (trace (browser w1))
      = [("notification", 0, 3, assigned_data); ("issue_assigned", 0, 8, assigned_data)]
    ∧ step (page nothing_throws) (NotificationClicked 0) w1 = Some w2
    ∧ calls (trace (browser w2))
      = calls (trace (browser w1)) ++ [("notification_click", 0, 9, assigned_data)].
Proof.
  destruct (assigned_notification_click_reaches_listeners (page nothing_throws)
              issue_assigned_message
              (JObj [("id", JStr "6650a1"); ("title", JStr "Fix login")])
              (JStr "6650a1") all_subscribed)
    as (w1 & w2 & E & Sh & T & C & _ & St & C2 & _); [reflexivity..|].
  exists w1, w2. split; [exact E|]. split; [exact Sh|]. split; [exact T|].
  split; [exact C|]. split; [exact St|]. exact C2.
Defined.

Lemma assignment_without_issue_on_the_wire :
  ∃ tr,
    onmessage (page nothing_throws) (TextFrame assigned_without_issue_text)
      all_subscribed
    = (Normal tt,
       logged (tr ++ [ConsoleError "Error parsing WebSocket message:"]) all_subscribed)
    ∧ calls tr = [("notification", 0, 3, assigned_data_without_issue);
                  ("issue_assigned", 0, 8, assigned_data_without_issue)]
    ∧ alerts tr = [].
Proof.
  destruct (assignment_without_issue_is_heard_but_not_shown (page nothing_throws)
              (TextFrame assigned_without_issue_text)
              [("data", JObj [("message", JStr "You have been assigned");
                              ("event_type", JStr "issue_assigned")]);
               ("type", JStr "notification")]
              JUndefined
              (TypeError "Cannot read properties of undefined or null")
              all_subscribed)
    as (tr & E & C & A);
    [reflexivity|discriminate|vm_compute; reflexivity|reflexivity..|].
  exists tr. split; [exact E|]. split; [|exact A].
  rewrite C. vm_compute. reflexivity.
Defined.

End Frames.

(** ** What every reachable world satisfies *)

Module Reachable.
Import WS ListenerBus Lifecycle Frames.

Lemma timer_ok_mono w w' t :
  (next_timer (browser w) ≤ next_timer (browser w'))%nat →
  (length (shown (browser w)) ≤ length (shown (browser w')))%nat →
  timer_ok w t → timer_ok w' t.
Proof.
  intros N S [I A]. split; [lia|].
  destruct (timeout_action t); [done|]. destruct A. split; [done|lia].
Qed.

Lemma Forall_timer_ok_mono w w' ts :
  (next_timer (browser w) ≤ next_timer (browser w'))%nat →
  (length (shown (browser w)) ≤ length (shown (browser w')))%nat →
  Forall (timer_ok w) ts → Forall (timer_ok w') ts.
Proof.
  intros N S F. apply (Forall_impl _ _ _ F). intros t. by apply timer_ok_mono.
Qed.

(** The id of a new timer is not the id of a pending one. *)
Lemma fresh_timer_id w ts :
  Forall (timer_ok w) ts → next_timer (browser w) ∉ timeout_id <$> ts.
Proof.
  intros F (t & E & I)%list_elem_of_fmap.
  destruct (proj1 (Forall_forall _ _) F t I) as [L _]. lia.
Qed.

Lemma NoDup_ids_filter (P : Timeout → Prop) `{∀ t, Decision (P t)} ts :
  NoDup (timeout_id <$> ts) → NoDup (timeout_id <$> filter P ts).
Proof.
  intros ND. apply (sublist_NoDup _ _ ND).
  apply fmap_sublist, sublist_filter.
Qed.

Section Invariant.
Context (host : Host).

Lemma well_formed_same_fields w w' :
  reconnectAttempts (svc w') = reconnectAttempts (svc w) →
  websocket (svc w') = websocket (svc w) →
  sockets (browser w') = sockets (browser w) →
  timeouts (browser w') = timeouts (browser w) →
  next_timer (browser w') = next_timer (browser w) →
  shown (browser w') = shown (browser w) →
  well_formed host w → well_formed host w'.
Proof.
  intros A W S T N Sh (H1 & H2 & H3 & H4 & H5).
  unfold well_formed. rewrite A, W, S, T. repeat split; try done; try lia.
  apply (Forall_timer_ok_mono w); [lia|by rewrite Sh|done].
Qed.

Lemma well_formed_logged tr w : well_formed host w → well_formed host (logged tr w).
Proof. by apply well_formed_same_fields. Qed.

Lemma well_formed_with_notification data w :
  well_formed host w → well_formed host (with_notification data w).
Proof.
  intros (H1 & H2 & H3 & H4 & H5).
  destruct w as [s [socks tos ints nt sh tr]]. unfold well_formed in *. cbn in *.
  repeat split; try done; try lia.
  - apply Forall_app. split.
    + eapply Forall_timer_ok_mono; [| |exact H3]; cbn; [lia|rewrite length_app; lia].
    + apply Forall_singleton. repeat split; cbn; [lia|rewrite length_app; cbn; lia].
  - rewrite fmap_app. apply NoDup_app. split; [done|]. split; [|apply NoDup_singleton].
    intros i I ->%list_elem_of_singleton.
    by apply (fresh_timer_id _ _ H3) in I.
Qed.

Lemma well_formed_connect token w :
  well_formed host w → well_formed host (snd (connect host token w)).
Proof.
  intros (H1 & H2 & H3 & H4 & H5). unfold connect.
  rewrite (bind_normal get _ w w w eq_refl).
  destruct (isConnecting (svc w) || websocket_open w); [done|].
  destruct w as [s [socks tos ints nt sh tr]]. unfold well_formed in *. cbn in *.
  unfold new_WebSocket, try_catch, modify, mbind, M_bind. cbn.
  destruct (ws_url_ok host (wsUrl host token)); cbn.
  - repeat split; try done; try lia.
    + intros r [= <-]. rewrite length_app. cbn. lia.
    + apply Forall_app. split; [done|]. by apply Forall_singleton.
  - repeat split; try done; lia.
Qed.

Lemma well_formed_disconnect w :
  well_formed host w → well_formed host (snd (disconnect w)).
Proof.
  intros (H1 & H2 & H3 & H4 & H5).
  destruct w as [[ws ra ic ls hb] [socks tos ints nt sh tr]].
  unfold well_formed in *. cbn in *. run_handler.
  assert (U : ∀ r,
    Forall (λ sock, sock_url sock = wsUrl host (sock_token sock))
      (alter (λ sock, match readyState sock with
                      | CONNECTING | OPEN =>
                          mkSocket (sock_url sock) (sock_token sock) CLOSING
                      | _ => sock
                      end) r socks)).
  { intros r. apply Forall_lookup. intros i x L.
    destruct (decide (i = r)) as [->|N].
    - rewrite list_lookup_alter_eq in L.
      destruct (socks !! r) as [sock|] eqn:E; [|done]. injection L as <-.
      apply (Forall_lookup_1 _ _ _ _ H5) in E. by destruct (readyState sock).
    - rewrite list_lookup_alter_ne in L by done.
      by apply (Forall_lookup_1 _ _ _ _ H5) in L. }
  destruct hb as [[|i]|]; destruct ws as [r|]; cbn;
    repeat split; try done; try (unfold maxReconnectAttempts; lia).
Qed.

Lemma well_formed_onmessage event_data w :
  well_formed host w → well_formed host (snd (onmessage host event_data w)).
Proof.
  intros WF. unfold onmessage, try_catch.
  destruct (bool_decide (event_data = TextFrame "pong")).
  { by apply well_formed_logged. }
  destruct (JSON_parse host (frame_text event_data)) as [message|].
  2:{ by apply (well_formed_logged [_]). }
  rewrite (bind_normal (mret message) _ w message w eq_refl).
  destruct (handleMessage_shape host message w) as (c & tr & [E|[data E]]); rewrite E.
  - destruct c as [[]|e]; cbn [snd].
    + by apply well_formed_logged.
    + apply (well_formed_logged [_]). by apply well_formed_logged.
  - apply well_formed_logged. by apply well_formed_with_notification.
Qed.

Lemma retry_delay_listed (ra : Z) :
  (0 ≤ ra < maxReconnectAttempts)%Z →
  (reconnectDelay * (ra + 1))%Z ∈ [2000; 4000; 6000; 8000; 10000]%Z.
Proof.
  unfold maxReconnectAttempts, reconnectDelay. intros R.
  assert (C : (ra = 0 ∨ ra = 1 ∨ ra = 2 ∨ ra = 3 ∨ ra = 4)%Z) by lia.
  clear R. destruct C as [->|[->|[->|[->| ->]]]]; cbn; set_solver.
Qed.

Lemma well_formed_alter_state r st w :
  well_formed host w →
  well_formed host
    (on_browser (λ b, set_sockets
       (alter (λ sock, mkSocket (sock_url sock) (sock_token sock) st) r (sockets b)) b) w).
Proof.
  intros (H1 & H2 & H3 & H4 & H5).
  destruct w as [s [socks tos ints nt sh tr]]. unfold well_formed in *. cbn in *.
  repeat split; try done; try lia.
  - intros r' W. rewrite length_alter. by apply H2.
  - apply Forall_lookup. intros i x L.
    destruct (decide (i = r)) as [->|N].
    + rewrite list_lookup_alter_eq in L.
      destruct (socks !! r) as [sock|] eqn:E; [|done]. injection L as <-.
      by apply (Forall_lookup_1 _ _ _ _ H5) in E.
    + rewrite list_lookup_alter_ne in L by done.
      by apply (Forall_lookup_1 _ _ _ _ H5) in L.
Qed.

Lemma well_formed_onopen w : well_formed host w → well_formed host (snd (onopen w)).
Proof.
  intros (H1 & H2 & H3 & H4 & H5).
  destruct w as [[ws ra ic ls hb] [socks tos ints nt sh tr]].
  unfold well_formed in *. cbn in *. run_handler.
  repeat split; try done; try (unfold maxReconnectAttempts; lia).
  eapply Forall_timer_ok_mono; [| |exact H3]; cbn; lia.
Qed.

Lemma well_formed_stopHeartbeat w :
  ∃ w', stopHeartbeat w = (Normal tt, w')
        ∧ reconnectAttempts (svc w') = reconnectAttempts (svc w)
        ∧ (well_formed host w → well_formed host w').
Proof.
  destruct w as [[ws ra ic ls hb] [socks tos ints nt sh tr]].
  run_handler. destruct hb as [[|i]|]; cbn; eexists; (split; [reflexivity|]);
    (split; [done|]); by apply well_formed_same_fields.
Qed.

Lemma well_formed_scheduleReconnect token w :
  (reconnectAttempts (svc w) < maxReconnectAttempts)%Z →
  well_formed host w → well_formed host (snd (scheduleReconnect token w)).
Proof.
  intros L (H1 & H2 & H3 & H4 & H5).
  destruct w as [[ws ra ic ls hb] [socks tos ints nt sh tr]].
  unfold well_formed in *. cbn in *. run_handler.
  repeat split; try done; try lia.
  - apply Forall_app. split.
    + eapply Forall_timer_ok_mono; [| |exact H3]; cbn; lia.
    + apply Forall_singleton. split; cbn; [lia|]. apply retry_delay_listed. lia.
  - rewrite fmap_app. apply NoDup_app. split; [done|].
    split; [|apply NoDup_singleton].
    intros j I ->%list_elem_of_singleton.
    by apply (fresh_timer_id _ _ H3) in I.
Qed.

Lemma well_formed_onclose token code w :
  well_formed host w → well_formed host (snd (onclose token code w)).
Proof.
  intros WF. unfold onclose.
  set (w0 := logged [ConsoleLog "WebSocket notification service disconnected"] w).
  rewrite (bind_normal (console_log _) _ w tt w0 eq_refl).
  set (w1 := on_svc (set_isConnecting false) w0).
  rewrite (bind_normal (modify _) _ w0 tt w1 eq_refl).
  assert (WF1 : well_formed host w1).
  { by apply (well_formed_same_fields w). }
  destruct (well_formed_stopHeartbeat w1) as (w2 & E & A & WF2).
  rewrite (bind_normal _ _ _ _ _ E).
  rewrite (bind_normal get _ w2 w2 w2 eq_refl).
  destruct (negb (code =? 1000)%Z && (reconnectAttempts (svc w2) <? maxReconnectAttempts)%Z)
    eqn:G.
  - apply andb_true_iff in G as [_ G%Z.ltb_lt].
    apply well_formed_scheduleReconnect; [done|]. by apply WF2.
  - by apply WF2.
Qed.

Lemma well_formed_step e w w' :
  well_formed host w → step host e w = Some w' → well_formed host w'.
Proof.
  intros WF St.
  destruct e as [token| |name cb|name cb|r|r data|r code|r|id|id|n];
    cbn [step] in St.
  - injection St as <-. by apply well_formed_connect.
  - injection St as <-. by apply well_formed_disconnect.
  - injection St as <-. rewrite addEventListener_eq.
    by apply (well_formed_same_fields w).
  - injection St as <-. rewrite removeEventListener_eq.
    by apply (well_formed_same_fields w).
  - destruct (sockets (browser w) !! r) as [sock|]; [|done]. cbn [mbind option_bind] in St.
    destruct (decide (readyState sock = CONNECTING)); [|done].
    injection St as <-.
    exact (well_formed_onopen _ (well_formed_alter_state r OPEN w WF)).
  - destruct (sockets (browser w) !! r) as [sock|]; [|done]. cbn [mbind option_bind] in St.
    destruct (decide (readyState sock = OPEN)); [|done].
    injection St as <-. by apply well_formed_onmessage.
  - destruct (sockets (browser w) !! r) as [sock|]; [|done]. cbn [mbind option_bind] in St.
    destruct (decide (readyState sock = CLOSED)); [done|].
    injection St as <-.
    exact (well_formed_onclose _ code _ (well_formed_alter_state r CLOSED w WF)).
  - destruct (sockets (browser w) !! r) as [sock|]; [|done]. cbn [mbind option_bind] in St.
    destruct (decide (readyState sock = CLOSED)); [done|].
    injection St as <-. by apply (well_formed_same_fields w).
  - destruct (find_timeout id (timeouts (browser w))) as [t|]; [|done]. cbn [mbind option_bind] in St.
    injection St as <-.
    assert (WF' : well_formed host
              (on_browser (λ b, set_timeouts
                 (filter (λ t', timeout_id t' ≠ id) (timeouts b)) b) w)).
    { destruct WF as (H1 & H2 & H3 & H4 & H5).
      destruct w as [s [socks tos ints nt sh tr]]. unfold well_formed in *. cbn in *.
      repeat split; try done; try lia.
      - by apply Forall_filter_keep.
      - by apply NoDup_ids_filter. }
    destruct (timeout_action t) as [token|k]; cbn [run_timer].
    + by apply well_formed_connect.
    + by apply (well_formed_logged [_]).
  - destruct (decide (id ∈ intervals (browser w))); [|done]. injection St as <-.
    unfold heartbeat_tick. rewrite (bind_normal get _ w w w eq_refl).
    destruct (websocket_open w); [|done].
    destruct (websocket (svc w)); [|done]. by apply (well_formed_logged [_]).
  - destruct (shown (browser w) !! n) as [data|]; [|done]. cbn [mbind option_bind] in St.
    injection St as <-. unfold onclick.
    set (w0 := logged [WindowFocus] w).
    rewrite (bind_normal (emit WindowFocus) _ w tt w0 eq_refl).
    destruct (notifyListeners_logged host "notification_click" data w0)
      as (tr' & Eq & _).
    rewrite (bind_normal _ _ _ _ _ Eq).
    apply (well_formed_logged [_]). by do 2 apply well_formed_logged.
Qed.

(** X13.  In every world the event loop reaches from a fresh page, whatever the
    events: the attempt counter is between 0 and 5; the current socket, if
    any, is one of the sockets created; each pending retry waits 2000, 4000,
    6000, 8000 or 10000 ms and each pending closing of a notification waits
    10000 ms; no two pending timers have the same id; and every socket was
    opened at the notifications URL of the token its handlers closed over. *)
Theorem every_reachable_world_is_well_formed (events : list event) (w : World) :
  run host events initial = Some w → well_formed host w.
Proof.
  assert (G : ∀ w0, well_formed host w0 → run host events w0 = Some w →
                    well_formed host w).
  { induction events as [|e rest IH]; intros w0 WF R; cbn in R.
    - by injection R as <-.
    - destruct (step host e w0) as [w1|] eqn:St; [|done]. cbn in R.
      apply (IH w1); [|done]. by apply (well_formed_step e w0). }
  apply G. unfold well_formed, initial. cbn.
  repeat split; try done; try constructor.
Qed.

End Invariant.

Lemma five_failures_leave_a_well_formed_world :
  ∃ w,
    run (page nothing_throws) (failures 5) initial = Some w
    ∧ well_formed (page nothing_throws) w.
Proof.
  assert (R : is_Some (run (page nothing_throws) (failures 5) initial)).
  { vm_compute. eauto. }
  destruct R as [w R]. exists w. split; [exact R|].
  exact (every_reachable_world_is_well_formed (page nothing_throws) (failures 5) w R).
Defined.

End Reachable.

(** ** More on the listener bus *)

Module Unsubscribe.
Import WS ListenerBus.

Lemma remove_first_absent cb (l : list callback) : cb ∉ l → remove_first cb l = l.
Proof.
  induction l as [|c rest IH]; [done|]. intros N. cbn.
  rewrite decide_False by (intros ->; apply N; left). f_equal.
  apply IH. intros I. apply N. by right.
Qed.

Lemma remove_first_present cb (l : list callback) :
  cb ∈ l → ∃ l1 l2, l = l1 ++ cb :: l2 ∧ (cb ∉ l1) ∧ remove_first cb l = l1 ++ l2.
Proof.
  induction l as [|c rest IH]; [by intros ?%elem_of_nil|]. intros I. cbn.
  destruct (decide (c = cb)) as [->|N].
  - exists [], rest. split; [done|]. split; [apply not_elem_of_nil|done].
  - apply elem_of_cons in I as [->|I]; [done|].
    destruct (IH I) as (l1 & l2 & -> & N1 & E).
    exists (c :: l1), l2. split; [done|]. split; [|by rewrite E].
    intros [->|?]%elem_of_cons; done.
Qed.

(** X14.  [removeEventListener] takes back one registration.  When the callback
    is registered under the name, its first entry is removed and the entries
    before and after it keep their order; the collections of the other names
    and the rest of the world are untouched.  When it is not registered
    under the name (or the name was never used), the call changes nothing at
    all. *)
Theorem removeEventListener_removes_the_first_entry
    (event : string) (cb : callback) (w : World) :
  let old := default [] (listeners (svc w) !! event) in
  ∃ w',
    removeEventListener event cb w = (Normal JUndefined, w')
    ∧ if bool_decide (cb ∈ old) then
        (∃ before after,
           old = before ++ cb :: after
           ∧ (cb ∉ before)
           ∧ listeners (svc w') = <[event := before ++ after]> (listeners (svc w)))
        ∧ browser w' = browser w
        ∧ set_listeners (listeners (svc w)) (svc w') = svc w
      else w' = w.
Proof.
  intros old. rewrite removeEventListener_eq. eexists. split; [reflexivity|].
  destruct (decide (cb ∈ old)) as [I|N].
  - rewrite bool_decide_eq_true_2 by done.
    destruct (remove_first_present cb old I) as (l1 & l2 & E & N1 & R).
    split; [|split; [done|by destruct w as [[] ?]]].
    exists l1, l2. split; [done|]. split; [done|]. cbn.
    unfold old in *. destruct (listeners (svc w) !! event) as [l|] eqn:L.
    + cbn in R, E. by rewrite (alter_as_insert _ _ l) by done; rewrite R.
    + cbn in E. by destruct l1.
  - rewrite bool_decide_eq_false_2 by done.
    assert (A : alter (remove_first cb) event (listeners (svc w)) = listeners (svc w)).
    { unfold old in N. destruct (listeners (svc w) !! event) as [l|] eqn:L.
      - cbn in N. rewrite (alter_as_insert _ _ l) by done.
        rewrite remove_first_absent by done. by apply insert_id.
      - apply alter_id'. by rewrite L. }
    unfold on_svc. cbn. rewrite A. by destruct w as [[] ?].
Qed.

End Unsubscribe.

(** ** More on the notification store *)

Module StoreOps.
Import NotificationService Store.

Section Ops.
Context (cb_throws : callback → Snapshot → bool).

(** The snapshots that [notifyListeners] hands out. *)
Lemma notifyListeners_tells_all (s : Store) :
  notified (trace (notifyListeners cb_throws s))
  = notified (trace s)
    ++ map (λ cb, (cb, mkSnapshot (notifications s) (unreadCount s))) (listeners s)
  ∧ listeners (notifyListeners cb_throws s) = listeners s
  ∧ notifications (notifyListeners cb_throws s) = notifications s
  ∧ unreadCount (notifyListeners cb_throws s) = unreadCount s.
Proof.
  split; [|apply notifyListeners_fields].
  unfold notifyListeners.
  generalize (mkSnapshot (notifications s) (unreadCount s)). intros snap.
  assert (G : ∀ l s0,
    notified (trace (foldl (λ s' cb,
        let s'' := emit (Notified cb snap) s' in
        if cb_throws cb snap
        then emit (ConsoleError "Error in notification listener:") s''
        else s'') s0 l))
    = notified (trace s0) ++ map (λ cb, (cb, snap)) l).
  { induction l as [|cb rest IH]; intros s0; cbn [foldl map].
    - by rewrite app_nil_r.
    - rewrite IH. destruct (cb_throws cb snap); cbn; unfold notified;
        rewrite !omap_app; cbn; by rewrite <- !app_assoc. }
  apply G.
Qed.

(** X15.  [notifyListeners] hands the current notifications and count to every
    registered listener exactly once, in the order of registration, whether
    or not one of them throws, and changes nothing but the trace. *)
Theorem store_listeners_are_all_told (s : Store) :
  notified (trace (notifyListeners cb_throws s))
  = notified (trace s)
    ++ map (λ cb, (cb, mkSnapshot (notifications s) (unreadCount s))) (listeners s)
  ∧ listeners (notifyListeners cb_throws s) = listeners s
  ∧ notifications (notifyListeners cb_throws s) = notifications s
  ∧ unreadCount (notifyListeners cb_throws s) = unreadCount s.
Proof. apply notifyListeners_tells_all. Qed.

(** X16.  Paging: a successful fetch of page 1 replaces the notifications, a
    successful fetch of any later page appends to them; each fetch takes the
    unread count from its answer, returns the answer and tells the
    listeners. *)
Theorem later_pages_are_appended_to_page_one
    (page : Z) (first later : NotificationsResponse) (s : Store) :
  page ≠ 1%Z →
  let s1 := snd (fetchNotifications cb_throws 1 (Normal first) s) in
  let s2 := snd (fetchNotifications cb_throws page (Normal later) s1) in
  notifications s1 = resp_notifications first
  ∧ unreadCount s1 = unread_count first
  ∧ fst (fetchNotifications cb_throws page (Normal later) s1) = Normal later
  ∧ notifications s2 = resp_notifications first ++ resp_notifications later
  ∧ unreadCount s2 = unread_count later
  ∧ notified (trace s2)
    = notified (trace s)
      ++ map (λ cb, (cb, mkSnapshot (resp_notifications first) (unread_count first)))
           (listeners s)
      ++ map (λ cb, (cb, mkSnapshot (resp_notifications first ++ resp_notifications later)
                           (unread_count later)))
           (listeners s).
Proof.
  intros P s1 s2.
  destruct (notifyListeners_tells_all
              {| listeners := listeners s; notifications := resp_notifications first;
                 unreadCount := unread_count first; trace := trace s |})
    as (T1 & L1 & N1 & U1).
  cbn [listeners notifications unreadCount trace] in T1, L1, N1, U1.
  change (notifyListeners cb_throws _) with s1 in T1, L1, N1, U1.
  clearbody s1.
  assert (E2 : fetchNotifications cb_throws page (Normal later) s1
               = (Normal later,
                  notifyListeners cb_throws
                    {| listeners := listeners s1;
                       notifications := notifications s1 ++ resp_notifications later;
                       unreadCount := unread_count later; trace := trace s1 |})).
  { unfold fetchNotifications. by rewrite (proj2 (Z.eqb_neq page 1) P). }
  destruct (notifyListeners_tells_all
              {| listeners := listeners s1;
                 notifications := notifications s1 ++ resp_notifications later;
                 unreadCount := unread_count later; trace := trace s1 |})
    as (T2 & L2 & N2 & U2).
  cbn [listeners notifications unreadCount trace] in T2, L2, N2, U2.
  unfold s2. rewrite E2. cbn [fst snd].
  split; [exact N1|]. split; [exact U1|]. split; [done|].
  split; [by rewrite N2, N1|]. split; [exact U2|].
  by rewrite T2, T1, L1, N1, <- app_assoc.
Qed.

(** X17.  A failed request changes nothing in the store but the console: the
    notifications, the unread count and the listeners are what they were and
    no listener is told.  [fetchNotifications], [markAsRead] and
    [markAllAsRead] pass the error on to their caller; [fetchUnreadCount]
    swallows it and answers 0, whatever the count in the store is. *)
Theorem failed_requests_leave_the_store_alone
    (error : JsError) (page : Z) (notificationId : string) (s : Store) :
  let unchanged (s' : Store) :=
    listeners s' = listeners s
    ∧ notifications s' = notifications s
    ∧ unreadCount s' = unreadCount s
    ∧ notified (trace s') = notified (trace s) in
  (fst (fetchNotifications cb_throws page (Abrupt error) s) = Abrupt error
   ∧ unchanged (snd (fetchNotifications cb_throws page (Abrupt error) s)))
  ∧ (fst (markAsRead cb_throws (Abrupt error) notificationId s) = Abrupt error
     ∧ unchanged (snd (markAsRead cb_throws (Abrupt error) notificationId s)))
  ∧ (fst (markAllAsRead cb_throws (Abrupt error) s) = Abrupt error
     ∧ unchanged (snd (markAllAsRead cb_throws (Abrupt error) s)))
  ∧ (fst (fetchUnreadCount cb_throws (Abrupt error) s) = Normal 0%Z
     ∧ unchanged (snd (fetchUnreadCount cb_throws (Abrupt error) s))).
Proof.
  intros unchanged. unfold unchanged. cbn.
  unfold notified. rewrite !omap_app. cbn. by rewrite !app_nil_r.
Qed.

(** X18.  After a successful [markAllAsRead] every notification is read, the
    list has the same notifications in the same order otherwise, and the
    unread count is 0.  A [markAsRead] that follows, for whatever id, then
    changes neither the list nor the count. *)
Theorem markAllAsRead_reads_everything
    (response response' : JsVal) (notificationId : string) (s : Store) :
  let s1 := snd (markAllAsRead cb_throws (Normal response) s) in
  let s2 := snd (markAsRead cb_throws (Normal response') notificationId s1) in
  fst (markAllAsRead cb_throws (Normal response) s) = Normal tt
  ∧ notifications s1 = set_read <$> notifications s
  ∧ Forall (λ notif, is_read notif = true) (notifications s1)
  ∧ id <$> notifications s1 = id <$> notifications s
  ∧ unreadCount s1 = 0%Z
  ∧ listeners s1 = listeners s
  ∧ notifications s2 = notifications s1
  ∧ unreadCount s2 = 0%Z.
Proof.
  intros s1 s2.
  destruct (notifyListeners_fields cb_throws
              {| listeners := listeners s; notifications := map set_read (notifications s);
                 unreadCount := 0; trace := trace s |}) as (L1 & N1 & U1).
  cbn [listeners notifications unreadCount trace] in L1, N1, U1.
  change (notifyListeners cb_throws _) with s1 in L1, N1, U1. clearbody s1.
  destruct (notifyListeners_fields cb_throws
              {| listeners := listeners s1;
                 notifications :=
                   map (λ notif, if bool_decide (id notif = notificationId)
                                 then set_read notif else notif) (notifications s1);
                 unreadCount := Z.max 0 (unreadCount s1 - 1);
                 trace := trace s1 |}) as (L2 & N2 & U2).
  cbn [listeners notifications unreadCount trace] in L2, N2, U2.
  change (notifyListeners cb_throws _) with s2 in L2, N2, U2. clearbody s2.
  assert (R : Forall (λ notif, is_read notif = true) (notifications s1)).
  { rewrite N1. apply Forall_fmap, Forall_true. by intros []. }
  split; [done|]. split; [exact N1|]. split; [exact R|].
  split; [|split; [exact U1|split; [exact L1|split]]].
  - rewrite N1, <- list_fmap_compose. apply list_fmap_ext. by intros ? [] ?.
  - rewrite N2. rewrite <- (map_id (notifications s1)) at 2.
    apply map_ext_in. intros notif I%list_elem_of_In.
    destruct (bool_decide (id notif = notificationId)); [|done].
    pose proof (proj1 (Forall_forall _ _) R notif I) as Rd.
    destruct notif; cbn in *; by subst.
  - rewrite U2, U1. done.
Qed.

(** X19.  [markAsRead] does not look whether the notification is there or is
    unread.  When every notification with the given id is already read, or
    none has that id, a successful call leaves the list as it is and still
    takes one off the unread count (down to 0). *)
Theorem markAsRead_of_a_read_notification_still_decrements
    (response : JsVal) (notificationId : string) (s : Store) :
  (∀ notif, notif ∈ notifications s → id notif = notificationId → is_read notif = true) →
  let s' := snd (markAsRead cb_throws (Normal response) notificationId s) in
  notifications s' = notifications s
  ∧ unreadCount s' = Z.max 0 (unreadCount s - 1).
Proof.
  intros R s'.
  destruct (notifyListeners_fields cb_throws
              {| listeners := listeners s;
                 notifications :=
                   map (λ notif, if bool_decide (id notif = notificationId)
                                 then set_read notif else notif) (notifications s);
                 unreadCount := Z.max 0 (unreadCount s - 1);
                 trace := trace s |}) as (_ & N & U).
  cbn [listeners notifications unreadCount trace] in N, U.
  change (notifyListeners cb_throws _) with s' in N, U. clearbody s'.
  split; [|exact U]. rewrite N. rewrite <- (map_id (notifications s)) at 2.
  apply map_ext_in. intros notif I%list_elem_of_In.
  destruct (decide (id notif = notificationId)) as [E|E].
  - rewrite bool_decide_eq_true_2 by done.
    pose proof (R notif I E) as Rd. destruct notif; cbn in *; by subst.
  - by rewrite bool_decide_eq_false_2.
Qed.

End Ops.

Lemma second_page_after_first :
  let s2 := snd (fetchNotifications (λ _ _, false) 2
                   (Normal (mkNotificationsResponse [unread_notification] 1))
                   (snd (fetchNotifications (λ _ _, false) 1
                           (Normal (mkNotificationsResponse [read_notification] 1))
                           sample_store))) in
  notifications s2 = [read_notification; unread_notification]
  ∧ unreadCount s2 = 1%Z.
Proof.
  destruct (later_pages_are_appended_to_page_one (λ _ _, false) 2
              (mkNotificationsResponse [read_notification] 1)
              (mkNotificationsResponse [unread_notification] 1) sample_store)
    as (_ & _ & _ & N & U & _); [done|].
  split; [exact N|exact U].
Defined.

Lemma marking_the_read_one_hides_the_unread_one :
  let s' := snd (markAsRead (λ _ _, false) (Normal JNull) "n1" sample_store) in
  notifications s' = [read_notification; unread_notification]
  ∧ unreadCount s' = 0%Z.
Proof.
  apply (markAsRead_of_a_read_notification_still_decrements (λ _ _, false) JNull "n1"
           sample_store).
  intros notif I E. cbn in I.
  apply elem_of_cons in I as [->|I]; [done|].
  apply list_elem_of_singleton in I as ->. discriminate E.
Defined.

Lemma filter_out_new (cb : callback) (l : list callback) :
  cb ∉ l → filter (λ c, c ≠ cb) (l ++ [cb]) = l.
Proof.
  induction l as [|c rest IH]; intros N.
  - rewrite app_nil_l, filter_cons. by rewrite decide_False by (by intros ?).
  - rewrite <- app_comm_cons, filter_cons.
    rewrite decide_True by (intros ->; apply N; left).
    f_equal. apply IH. intros I. apply N. by right.
Qed.

(** X20.  The listeners of the store are a set: adding a callback that is
    already there changes nothing, adding keeps the callbacks distinct and
    keeps the earlier ones in their order, and the closure that [addListener]
    returns takes the callback out again, giving back the store as it was
    when the callback is new. *)
Theorem addListener_is_idempotent_and_unsubscribe_undoes_it
    (cb : callback) (s : Store) :
  NoDup (listeners s) →
  addListener cb (addListener cb s) = addListener cb s
  ∧ NoDup (listeners (addListener cb s))
  ∧ cb ∈ listeners (addListener cb s)
  ∧ fst (unsubscribe cb (addListener cb s)) = true
  ∧ (cb ∉ listeners (snd (unsubscribe cb (addListener cb s))))
  ∧ if bool_decide (cb ∈ listeners s)
    then listeners (addListener cb s) = listeners s
    else listeners (addListener cb s) = listeners s ++ [cb]
         ∧ snd (unsubscribe cb (addListener cb s)) = s.
Proof.
  intros ND.
  assert (In' : cb ∈ listeners (addListener cb s)).
  { unfold addListener. cbn. destruct (decide (cb ∈ listeners s)).
    - by rewrite bool_decide_eq_true_2.
    - rewrite bool_decide_eq_false_2 by done. apply elem_of_app. right. by left. }
  split; [|split; [|split; [done|split; [|split]]]].
  - unfold addListener at 1. cbn [listeners notifications unreadCount trace].
    rewrite bool_decide_eq_true_2 by done. by destruct (addListener cb s).
  - unfold addListener. cbn. destruct (decide (cb ∈ listeners s)).
    + by rewrite bool_decide_eq_true_2.
    + rewrite bool_decide_eq_false_2 by done. apply NoDup_app.
      split; [done|]. split; [|apply NoDup_singleton].
      intros x I ->%list_elem_of_singleton. done.
  - cbn. by apply bool_decide_eq_true_2.
  - cbn. intros [N _]%list_elem_of_filter. done.
  - unfold addListener, unsubscribe. cbn. destruct (decide (cb ∈ listeners s)).
    + by rewrite !bool_decide_eq_true_2.
    + rewrite !bool_decide_eq_false_2 by done. split; [done|].
      rewrite (filter_out_new cb (listeners s)) by done. by destruct s.
Qed.

Lemma subscribing_twice_keeps_one_entry :
  NoDup (listeners sample_store)
  ∧ listeners (addListener 5 (addListener 5 sample_store)) = [1; 2; 5]
  ∧ snd (unsubscribe 5 (addListener 5 sample_store)) = sample_store.
Proof.
  assert (ND : NoDup (listeners sample_store)).
  { exact (bool_decide_unpack (NoDup (listeners sample_store)) I). }
  destruct (addListener_is_idempotent_and_unsubscribe_undoes_it 5 sample_store ND)
    as (E & _ & _ & _ & _ & X).
  split; [exact ND|]. rewrite E. split; [reflexivity|]. exact (proj2 X).
Defined.


(** X21.  [formatNotificationTime] in terms of the elapsed milliseconds: under
    one minute (a timestamp in the future included) the text is [Just now];
    under one hour it counts whole minutes, from 1 to 59; under one day whole
    hours, from 1 to 23; from one day on whole days, at least 1.  So it never
    shows a count of 0, nor 60 minutes or 24 hours. *)
Theorem formatNotificationTime_counts_whole_units (now t : Z) :
  let elapsed := (now - t)%Z in
  let text := formatNotificationTime now (Some t) in
  if (elapsed <? 60000)%Z then text = "Just now"
  else if (elapsed <? 3600000)%Z then
    text = pretty (elapsed / 60000)%Z +:+ "m ago" ∧ (1 ≤ elapsed / 60000 ≤ 59)%Z
  else if (elapsed <? 86400000)%Z then
    text = pretty (elapsed / 3600000)%Z +:+ "h ago" ∧ (1 ≤ elapsed / 3600000 ≤ 23)%Z
  else
    text = pretty (elapsed / 86400000)%Z +:+ "d ago" ∧ (1 ≤ elapsed / 86400000)%Z.
Proof.
  intros elapsed text. unfold text, formatNotificationTime. fold elapsed.
  clear text. clearbody elapsed.
  change (1000 * 60)%Z with 60000%Z.
  assert (H : (elapsed / 60000 / 60 = elapsed / 3600000)%Z).
  { rewrite Z.div_div by lia. done. }
  assert (D : (elapsed / 60000 / 1440 = elapsed / 86400000)%Z).
  { rewrite Z.div_div by lia. done. }
  rewrite H, D. clear H D.
  assert (Lt : ∀ q, (elapsed < 60000 * q)%Z → (elapsed / 60000 <? q)%Z = true).
  { intros q L. apply Z.ltb_lt. apply Z.div_lt_upper_bound; lia. }
  assert (Ge : ∀ q, (60000 * q ≤ elapsed)%Z → (elapsed / 60000 <? q)%Z = false).
  { intros q L. apply Z.ltb_ge. apply Z.div_le_lower_bound; lia. }
  destruct (elapsed <? 60000)%Z eqn:A; [apply Z.ltb_lt in A|apply Z.ltb_ge in A].
  { by rewrite Lt by lia. }
  rewrite Ge by lia.
  destruct (elapsed <? 3600000)%Z eqn:B; [apply Z.ltb_lt in B|apply Z.ltb_ge in B].
  { rewrite Lt by lia. split; [done|]. split.
    - apply Z.div_le_lower_bound; lia.
    - apply Z.lt_succ_r. apply Z.div_lt_upper_bound; lia. }
  rewrite Ge by lia.
  destruct (elapsed <? 86400000)%Z eqn:C; [apply Z.ltb_lt in C|apply Z.ltb_ge in C].
  { rewrite Lt by lia. split; [done|]. split.
    - apply Z.div_le_lower_bound; lia.
    - apply Z.lt_succ_r. apply Z.div_lt_upper_bound; lia. }
  rewrite Ge by lia.
  split; [done|]. apply Z.div_le_lower_bound; lia.
Qed.

(** Ninety minutes ago reads as one hour; a timestamp five seconds ahead
    reads as just now. *)
Lemma ninety_minutes_ago :
  formatNotificationTime 1735725600000 (Some 1735720200000%Z) = "1h ago"
  ∧ formatNotificationTime 1735725600000 (Some 1735725605000%Z) = "Just now".
Proof. split; vm_compute; reflexivity. Qed.

End StoreOps.

(** ** More on the board *)

Module BoardOps.
Import Dashboard Board.

Lemma filter_all {A} (P : A → Prop) `{∀ x, Decision (P x)} (l : list A) :
  Forall P l → filter P l = l.
Proof.
  induction 1 as [|x rest Hx _ IH]; [done|].
  by rewrite filter_cons, decide_True, IH.
Qed.

Lemma replace_absent (new : Issue) (l : list Issue) :
  Forall (λ i, id i ≠ id new) l →
  map (λ i, if bool_decide (id i = id new) then new else i) l = l.
Proof.
  induction 1 as [|x rest Hx _ IH]; [done|].
  cbn. by rewrite bool_decide_eq_false_2, IH.
Qed.

Lemma replace_twice (new : Issue) (l : list Issue) :
  map (λ i, if bool_decide (id i = id new) then new else i)
    (map (λ i, if bool_decide (id i = id new) then new else i) l)
  = map (λ i, if bool_decide (id i = id new) then new else i) l.
Proof.
  rewrite map_map. apply map_ext. intros i.
  destruct (decide (id i = id new)) as [E|N].
  - by rewrite (bool_decide_eq_true_2 _ E), bool_decide_eq_true_2.
  - by rewrite !(bool_decide_eq_false_2 _ N).
Qed.

Lemma existsb_replace (new : Issue) (l : list Issue) :
  existsb (λ i, bool_decide (id i = id new))
    (map (λ i, if bool_decide (id i = id new) then new else i) l)
  = existsb (λ i, bool_decide (id i = id new)) l.
Proof.
  induction l as [|x rest IH]; [done|]. cbn. rewrite IH. f_equal.
  destruct (decide (id x = id new)) as [E|N].
  - by rewrite (bool_decide_eq_true_2 _ E), bool_decide_eq_true_2.
  - by rewrite !(bool_decide_eq_false_2 _ N).
Qed.

Lemma existsb_false_Forall (target : string) (l : list Issue) :
  existsb (λ i, bool_decide (id i = target)) l = false →
  Forall (λ i, id i ≠ target) l.
Proof.
  induction l as [|x rest IH]; [constructor|]. cbn.
  intros [A B]%orb_false_iff. constructor; [|by apply IH].
  by apply bool_decide_eq_false in A.
Qed.

(** X22.  Applying the same update twice gives what applying it once gives, on
    every list and for every payload: an event that is delivered twice, or
    handled by two listeners, puts no issue on the board twice. *)
Theorem handleKanbanUpdate_is_idempotent (data : KanbanUpdate) (prevIssues : list Issue) :
  handleKanbanUpdate data (handleKanbanUpdate data prevIssues)
  = handleKanbanUpdate data prevIssues.
Proof.
  unfold handleKanbanUpdate.
  destruct (bool_decide (action data = "deleted")).
  - apply filter_all. apply Forall_forall. by intros x [? _]%list_elem_of_filter.
  - rewrite !(proj1 (findIndex_found _ _)).
    destruct (existsb _ prevIssues) eqn:E.
    + by rewrite existsb_replace, E, replace_twice.
    + cbn. rewrite bool_decide_eq_true_2 by done. cbn. f_equal.
      by apply replace_absent, existsb_false_Forall.
Qed.

(** X23.  An update about one issue leaves the other issues alone: whatever the
    action, the issues with another id are those of the old list, unchanged
    and in the same order. *)
Theorem handleKanbanUpdate_leaves_the_other_issues
    (data : KanbanUpdate) (prevIssues : list Issue) :
  filter (λ i, id i ≠ id (issue data)) (handleKanbanUpdate data prevIssues)
  = filter (λ i, id i ≠ id (issue data)) prevIssues.
Proof.
  unfold handleKanbanUpdate.
  destruct (bool_decide (action data = "deleted")).
  - apply filter_all. apply Forall_forall. by intros x [? _]%list_elem_of_filter.
  - destruct (0 <=? _)%Z.
    + induction prevIssues as [|x rest IH]; [done|]. cbn [map].
      destruct (decide (id x = id (issue data))) as [E|N].
      * rewrite (bool_decide_eq_true_2 _ E).
        rewrite !filter_cons, !decide_False by (by intros ?). exact IH.
      * rewrite (bool_decide_eq_false_2 _ N).
        rewrite !filter_cons, !decide_True by done. by rewrite IH.
    + by rewrite filter_cons, decide_False by (by intros ?).
Qed.

(** A creation followed by the deletion of the same id. *)
Lemma create_then_delete
    (created removed : KanbanUpdate) (prevIssues : list Issue) :
  id (issue created) ∉ id <$> prevIssues →
  action created ≠ "deleted" →
  action removed = "deleted" →
  id (issue removed) = id (issue created) →
  handleKanbanUpdate removed prevIssues = prevIssues
  ∧ handleKanbanUpdate created prevIssues = issue created :: prevIssues
  ∧ handleKanbanUpdate removed (handleKanbanUpdate created prevIssues) = prevIssues.
Proof.
  intros N AC AR Id.
  assert (F : Forall (λ i, id i ≠ id (issue created)) prevIssues).
  { apply Forall_forall. intros x I E. apply N. rewrite <- E.
    by apply list_elem_of_fmap_2. }
  assert (D : handleKanbanUpdate removed prevIssues = prevIssues).
  { unfold handleKanbanUpdate. rewrite bool_decide_eq_true_2 by done.
    rewrite Id. by apply filter_all. }
  assert (C : handleKanbanUpdate created prevIssues = issue created :: prevIssues).
  { unfold handleKanbanUpdate. rewrite bool_decide_eq_false_2 by done.
    rewrite (proj1 (findIndex_found _ _)), existsb_list_find.
    rewrite bool_decide_eq_false_2; [done|].
    intros [[k x] (L & E & _)%list_find_Some].
    apply (proj1 (Forall_forall _ _) F x); [|done].
    by apply list_elem_of_lookup_2 in L. }
  split; [exact D|]. split; [exact C|]. rewrite C.
  unfold handleKanbanUpdate. rewrite bool_decide_eq_true_2 by done.
  rewrite Id, filter_cons, decide_False by (by intros ?).
  by apply filter_all.
Qed.

(** X24.  For an id that is not on the board: a [deleted] event changes
    nothing, any other action puts the issue in front, and a [deleted] event
    for that id afterwards gives the old board back. *)
Theorem deleting_undoes_a_creation
    (created removed : KanbanUpdate) (prevIssues : list Issue) :
  id (issue created) ∉ id <$> prevIssues →
  action created ≠ "deleted" →
  action removed = "deleted" →
  id (issue removed) = id (issue created) →
  handleKanbanUpdate removed prevIssues = prevIssues
  ∧ handleKanbanUpdate created prevIssues = issue created :: prevIssues
  ∧ handleKanbanUpdate removed (handleKanbanUpdate created prevIssues) = prevIssues.
Proof. apply create_then_delete. Qed.

Lemma a_new_issue_comes_and_goes :
  handleKanbanUpdate (mkKanbanUpdate new_issue "deleted") fetched_issues = fetched_issues
  ∧ handleKanbanUpdate (mkKanbanUpdate new_issue "created") fetched_issues
    = new_issue :: fetched_issues
  ∧ handleKanbanUpdate (mkKanbanUpdate new_issue "deleted")
      (handleKanbanUpdate (mkKanbanUpdate new_issue "created") fetched_issues)
    = fetched_issues.
Proof.
  apply (deleting_undoes_a_creation (mkKanbanUpdate new_issue "created")
           (mkKanbanUpdate new_issue "deleted") fetched_issues);
    [|done|done|done].
  cbn. intros I. repeat (apply elem_of_cons in I as [I|I]; [discriminate I|]).
  by apply elem_of_nil in I.
Defined.

End BoardOps.

(** ** The columns and the statistics *)

Module BoardView.
Import Dashboard KanbanBoard BoardOps.

(** The columns and the remaining issues make up the board. *)
Lemma columns_permutation (issues : list Issue) :
  issues ≡ₚ OPEN (columns issues) ++ IN_PROGRESS (columns issues)
            ++ CLOSED (columns issues) ++ elsewhere issues
  ∧ OPEN (columns issues) `sublist_of` issues
  ∧ IN_PROGRESS (columns issues) `sublist_of` issues
  ∧ CLOSED (columns issues) `sublist_of` issues.
Proof.
  split; [|repeat split; apply sublist_filter].
  unfold columns, elsewhere. cbn [OPEN IN_PROGRESS CLOSED].
  induction issues as [|x rest IH]; [done|].
  rewrite !filter_cons.
  destruct (decide (status x = "OPEN")) as [E|N1].
  { rewrite E. rewrite !decide_False
      by (done || (intros N; apply N; rewrite !elem_of_cons; auto)).
    rewrite <- app_comm_cons. by constructor. }
  destruct (decide (status x = "IN_PROGRESS")) as [E|N2].
  { rewrite E. rewrite !decide_False
      by (done || (intros N; apply N; rewrite !elem_of_cons; auto)).
    rewrite <- app_comm_cons. by apply Permutation_cons_app. }
  destruct (decide (status x = "CLOSED")) as [E|N3].
  { rewrite E. rewrite !decide_False
      by (done || (intros N; apply N; rewrite !elem_of_cons; auto)).
    rewrite <- app_comm_cons, (app_assoc (filter _ rest)).
    apply Permutation_cons_app. by rewrite <- app_assoc. }
  rewrite decide_True; last first.
  { intros I. repeat (apply elem_of_cons in I as [I|I]; [done|]).
    by apply elem_of_nil in I. }
  rewrite !app_assoc. apply Permutation_cons_app. by rewrite <- !app_assoc.
Qed.

(** X25.  The three columns show every issue whose status is [OPEN],
    [IN_PROGRESS] or [CLOSED] exactly once, each column in the order of the
    board; an issue with any other status is in no column. *)
Theorem columns_partition_the_board (issues : list Issue) :
  issues ≡ₚ OPEN (columns issues) ++ IN_PROGRESS (columns issues)
            ++ CLOSED (columns issues) ++ elsewhere issues
  ∧ OPEN (columns issues) `sublist_of` issues
  ∧ IN_PROGRESS (columns issues) `sublist_of` issues
  ∧ CLOSED (columns issues) `sublist_of` issues.
Proof. apply columns_permutation. Qed.

(** X26.  After a successful fetch the board holds the issues of the answer,
    [loading] is off, and the statistics count them: [total] is their number
    and [open], [inProgress] and [closed] are the sizes of the three Kanban
    columns, which add up to [total] less the issues of any other status.
    An answer without an [issues] field gives an empty board and four
    zeros. *)
Theorem fetchIssues_counts_the_columns
    (response_issues : option (list Issue)) (b : Board) :
  let b' := fetchIssues (Normal response_issues) b in
  let fetched := default [] response_issues in
  issues b' = fetched
  ∧ loading b' = false
  ∧ toasts b' = toasts b
  ∧ total (stats b') = length fetched
  ∧ open (stats b') = length (OPEN (columns fetched))
  ∧ inProgress (stats b') = length (IN_PROGRESS (columns fetched))
  ∧ closed (stats b') = length (CLOSED (columns fetched))
  ∧ open (stats b') + inProgress (stats b') + closed (stats b')
    + length (elsewhere fetched)
    = total (stats b').
Proof.
  intros b' fetched.
  assert (T : total (stats b') = length fetched) by (by destruct response_issues).
  assert (O : open (stats b') = length (OPEN (columns fetched)))
    by (by destruct response_issues).
  assert (P : inProgress (stats b') = length (IN_PROGRESS (columns fetched)))
    by (by destruct response_issues).
  assert (C : closed (stats b') = length (CLOSED (columns fetched)))
    by (by destruct response_issues).
  repeat (split; [done|]).
  rewrite T, O, P, C.
  destruct (columns_permutation fetched) as [Perm _].
  rewrite Perm at 5. rewrite !length_app. lia.
Qed.

(** X27.  The statistics are computed by [fetchIssues] only.  When a live
    update puts a new issue on a freshly fetched board, the board has one
    issue more than [total] says, until the next fetch. *)
Theorem live_creation_outruns_the_statistics
    (fetched : list Issue) (data : KanbanUpdate) (b : Board) :
  id (issue data) ∉ id <$> fetched →
  action data ≠ "deleted" →
  let b' := applyKanbanUpdate data (fetchIssues (Normal (Some fetched)) b) in
  issues b' = issue data :: fetched
  ∧ total (stats b') = length fetched
  ∧ length (issues b') = S (total (stats b')).
Proof.
  intros N A b'.
  destruct (create_then_delete data
              (mkKanbanUpdate (issue data) "deleted") fetched N A eq_refl eq_refl)
    as (_ & C & _).
  unfold b', applyKanbanUpdate. cbn. rewrite C. done.
Qed.

Lemma a_live_issue_is_not_counted :
  let b' := applyKanbanUpdate (mkKanbanUpdate new_issue "created")
              (fetchIssues (Normal (Some fetched_issues)) empty_board) in
  issues b' = new_issue :: fetched_issues
  ∧ total (stats b') = 3
  ∧ length (issues b') = 4.
Proof.
  destruct (live_creation_outruns_the_statistics fetched_issues
              (mkKanbanUpdate new_issue "created") empty_board)
    as (I & T & L); [|done|].
  - cbn. intros I. repeat (apply elem_of_cons in I as [I|I]; [discriminate I|]).
    by apply elem_of_nil in I.
  - split; [exact I|]. split; [exact T|]. exact L.
Defined.

End BoardView.
